(** * shuati: mistake-review scheduler, exam grading and client data sync

    A shallow embedding of the parts of the quiz application that carry
    rules of their own:

    - [MistakeBook]  models/MistakeBook.js: the save hook, [createMistakeRecord],
      [recordReview] and the aggregation behind [getRecommendedForReview];
    - [ExamRecord]   models/ExamRecord.js: the save hook that grades an exam;
    - [Sync]         the three client import/export scripts (the simplified
      SyncManager, the final CrossDeviceSync and the original
      cross-device-sync.js);
    - [SyncOps]      the files that travel between two devices, the
      duplicate filter of the final export and its sync history;
    - [MistakeBookOps]  the virtual properties and the remaining statics of
      models/MistakeBook.js (reading, deleting, archiving, the due list and
      the counts);
    - [ExamRecordOps]   the statics of models/ExamRecord.js on stored records
      (lookup by id and by share code, update, delete).

    Conventions.  A JavaScript [Number] that the code uses as a counter or a
    level is a [Z]; a quotient, a product or a sum that need not be whole is
    computed as the engine computes it, in double precision ([Double]); a
    point in time is a [Z] of milliseconds since the epoch and one call reads
    the clock once ([now]); local time is that of a [Zone]; a stored Mongo
    collection is the list of its documents in natural order; a failing call
    returns [Err] with the message the code throws, the name of the error
    standing for a message that the engine, Mongoose or the database words.
    Documents and arguments are taken to satisfy their schema (required
    paths present, levels within their bounds); of the checks Mongoose runs
    before a save, the cast of [reviewInfo.nextReviewDate] is modelled, and of
    its setters the [trim] of [mistakeReason].  A document that [populate] is
    called on refers to documents that exist.  Random draws are arguments
    ([picks]).  A string is the UTF-8 encoding of its text. *)

From Stdlib Require Import ZArith QArith Qround Qpower Lqa Lia.
From Stdlib Require Import Ascii String DecimalString Sorted.
From stdpp Require Import base list strings.

Local Open Scope Z_scope.

#[local] Set Warnings "-register-all".

(** Outcome of a call that may throw. *)
Inductive outcome (A : Type) : Type :=
| Ok (a : A)
| Err (msg : string).
Arguments Ok {A} a.
Arguments Err {A} msg.

(** * Double-precision arithmetic

    A finite Number is the rational it denotes.  One operation of the engine
    is the exact operation followed by [rnd], the rounding to the nearest
    double (53 significant bits, least exponent -1074, ties to the even
    significand).  Numbers stay below 2^1024 in magnitude except where
    overflow is tested explicitly. *)
Module Double.
Local Open Scope Q_scope.

Definition pow2 (e : Z) : Q := 2 ^ e.

(** The integer part of the binary logarithm of a positive rational. *)
Definition ilog2 (x : Q) : Z :=
  let l := (Z.log2 (Qnum x) - Z.log2 (Zpos (Qden x)))%Z in
  if Qle_bool (pow2 l) x then l else (l - 1)%Z.

(** The nearest integer, a tie going to the even one. *)
Definition rne (x : Q) : Z :=
  let f := Qfloor x in
  match Qcompare (x - inject_Z f) (1 # 2) with
  | Lt => f
  | Gt => (f + 1)%Z
  | Eq => if Z.even f then f else (f + 1)%Z
  end.

Definition rndPos (x : Q) : Q :=
  let e := Z.max (ilog2 x - 52) (-1074) in
  Qred (inject_Z (rne (x / pow2 e)) * pow2 e).

(** The double nearest to [x]. *)
Definition rnd (x : Q) : Q :=
  match Qnum x with
  | Z0 => 0
  | Zpos _ => rndPos x
  | Zneg _ => Qred (- rndPos (- x))
  end.

(** [x / y], [x * y] and [x + y] on Numbers. *)
Definition div (x y : Q) : Q := rnd (x / y).
Definition mul (x y : Q) : Q := rnd (x * y).
Definition add (x y : Q) : Q := rnd (x + y).

(** [Math.round]: the nearest integer, a tie going up. *)
Definition round (x : Q) : Z := Qfloor (x + (1 # 2)).

(** [Math.ceil]. *)
Definition ceil (x : Q) : Z := Qceiling x.

(** A positive normal double with significand [mc] and exponent [ec]. *)
Definition normal (c : Q) (mc ec : Z) : Prop :=
  c == inject_Z mc * pow2 ec /\ (2 ^ 52 <= mc < 2 ^ 53)%Z /\ (-1074 <= ec)%Z.

End Double.

#[global] Instance Qlt_decision (x y : Q) : Decision (x < y)%Q.
Proof.
  destruct (Qlt_le_dec x y) as [H|H]; [left; exact H | right].
  intros H'. exact (Qlt_not_le _ _ H' H).
Defined.

(** [Math.round((a / b) * 100)] for two whole Numbers. *)
Definition percent (a b : Z) : Z :=
  Double.round (Double.mul (Double.div (inject_Z a) (inject_Z b)) 100).

(** * [String.prototype.trim]

    The characters stripped are WhiteSpace and LineTerminator of ECMAScript,
    here by their UTF-8 encodings: U+0009 to U+000D, U+0020, U+00A0, U+1680,
    U+2000 to U+200A, U+2028, U+2029, U+202F, U+205F, U+3000 and U+FEFF. *)
Definition whiteSpace : list (list nat) :=
  [ [9]; [10]; [11]; [12]; [13]; [32]; [194; 160]; [225; 154; 128];
    [226; 128; 128]; [226; 128; 129]; [226; 128; 130]; [226; 128; 131];
    [226; 128; 132]; [226; 128; 133]; [226; 128; 134]; [226; 128; 135];
    [226; 128; 136]; [226; 128; 137]; [226; 128; 138]; [226; 128; 168];
    [226; 128; 169]; [226; 128; 175]; [226; 129; 159]; [227; 128; 128];
    [239; 187; 191] ]%nat.

(** The bytes after one leading character of [patterns], if there is one. *)
Definition stripOne (patterns : list (list nat)) (bs : list nat) : option (list nat) :=
  head (omap (λ p, if bool_decide (take (length p) bs = p)
                   then Some (drop (length p) bs) else None) patterns).

Fixpoint stripAll (patterns : list (list nat)) (fuel : nat) (bs : list nat) : list nat :=
  match fuel with
  | O => bs
  | S fuel' =>
      match stripOne patterns bs with
      | Some rest => stripAll patterns fuel' rest
      | None => bs
      end
  end.

Definition bytesOf (s : string) : list nat := map nat_of_ascii (list_ascii_of_string s).
Definition stringOf (bs : list nat) : string := string_of_list_ascii (map ascii_of_nat bs).

Definition trim (s : string) : string :=
  let bs := bytesOf s in
  let front := stripAll whiteSpace (length bs) bs in
  let back := stripAll (map reverse whiteSpace) (length front) (reverse front) in
  stringOf (reverse back).

(** [arr[i]] for a JavaScript array and an integral index: [undefined]
    (here [None]) outside [0 .. length-1]. *)
Definition jsIndex {A : Type} (arr : list A) (i : Z) : option A :=
  if i <? 0 then None else arr !! Z.to_nat i.

(** * The aggregation stages the application uses

    A pipeline is data handed to the database, so it is kept as data here and
    run by [aggregate].  Documents are flattened: a field is addressed by its
    dotted path.  Every expression of one [$addFields] stage is evaluated
    against the document that enters the stage: a path refers to a field of
    that input document, not to a field the same stage is adding. *)
Module Mongo.

Inductive bson :=
| BMissing
| BNull
| BNum (q : Q)
| BStr (s : string)
| BObjectId (oid : Z)
| BBool (b : bool)
| BDate (ms : Z).

Definition document := list (string * bson).

Fixpoint getField (d : document) (path : string) : bson :=
  match d with
  | [] => BMissing
  | (k, v) :: d' => if String.eqb k path then v else getField d' path
  end.

Fixpoint setField (path : string) (v : bson) (d : document) : document :=
  match d with
  | [] => [(path, v)]
  | (k, w) :: d' =>
      if String.eqb k path then (k, v) :: d' else (k, w) :: setField path v d'
  end.

(** BSON comparison order: by type bracket first, then by value. *)
Definition typeRank (v : bson) : Z :=
  match v with
  | BMissing => 0
  | BNull => 5
  | BNum _ => 10
  | BStr _ => 15
  | BObjectId _ => 35
  | BBool _ => 40
  | BDate _ => 45
  end.

Definition compareBson (a b : bson) : comparison :=
  match a, b with
  | BNum x, BNum y => Qcompare x y
  | BStr x, BStr y => String.compare x y
  | BObjectId x, BObjectId y => Z.compare x y
  | BBool x, BBool y => Bool.compare x y
  | BDate x, BDate y => Z.compare x y
  | _, _ => Z.compare (typeRank a) (typeRank b)
  end.

Definition ltBson (a b : bson) : bool :=
  match compareBson a b with Lt => true | _ => false end.

Definition eqBson (a b : bson) : bool :=
  match compareBson a b with Eq => true | _ => false end.

(** Truth value of an operand of [$cond]. *)
Definition truthy (v : bson) : bool :=
  match v with
  | BMissing | BNull => false
  | BBool b => b
  | BNum q => negb (Qeq_bool q 0)
  | _ => true
  end.

(** Arithmetic yields [null] as soon as one operand is null or missing;
    numbers are kept in lowest terms. *)
Definition arith (op : Q → Q → Q) (a b : bson) : bson :=
  match a, b with
  | BNum x, BNum y => BNum (Qred (op x y))
  | _, _ => BNull
  end.

Inductive expr :=
| EField (path : string)
| EConst (v : bson)
| EAdd (es : list expr)
| EMultiply (es : list expr)
| ESubtract (a b : expr)
| ELt (a b : expr)
| ECond (c t e : expr).

Fixpoint eval (d : document) (e : expr) : bson :=
  match e with
  | EField path => getField d path
  | EConst v => v
  | EAdd es => foldr (arith Qplus) (BNum 0) (map (eval d) es)
  | EMultiply es => foldr (arith Qmult) (BNum 1) (map (eval d) es)
  | ESubtract a b => arith Qminus (eval d a) (eval d b)
  | ELt a b => BBool (ltBson (eval d a) (eval d b))
  | ECond c t e' => if truthy (eval d c) then eval d t else eval d e'
  end.

Inductive stage :=
| SMatch (conds : list (string * bson))
| SAddFields (fields : list (string * expr))
| SSortDesc (path : string)
| SLimit (n : nat).

Definition matches (conds : list (string * bson)) (d : document) : bool :=
  forallb (λ c, eqBson (getField d (fst c)) (snd c)) conds.

(** All new values are computed from the input document [d], then stored. *)
Definition addFields (fields : list (string * expr)) (d : document) : document :=
  foldl (λ acc f,
           match eval d (snd f) with
           | BMissing => acc
           | v => setField (fst f) v acc
           end) d fields.

(** Neighbours in descending order: the later one is not above the
    earlier one. *)
Definition notBelow (path : string) (a b : document) : Prop :=
  ltBson (getField a path) (getField b path) = false.

Fixpoint insertDesc (path : string) (d : document) (sorted : list document)
  : list document :=
  match sorted with
  | [] => [d]
  | d' :: rest =>
      if ltBson (getField d path) (getField d' path)
      then d' :: insertDesc path d rest
      else d :: d' :: rest
  end.

(** Descending insertion sort; documents with equal keys keep their order. *)
Definition sortDesc (path : string) (ds : list document) : list document :=
  foldr (insertDesc path) [] ds.

Definition runStage (s : stage) (ds : list document) : list document :=
  match s with
  | SMatch conds => filter (λ d, matches conds d = true) ds
  | SAddFields fields => map (addFields fields) ds
  | SSortDesc path => sortDesc path ds
  | SLimit n => take n ds
  end.

(** The server refuses a pipeline with a [$limit] that is not positive,
    whatever the documents. *)
Definition accepted (pipeline : list stage) : bool :=
  forallb (λ s, match s with SLimit O => false | _ => true end) pipeline.

(** The result of a pipeline the server accepts. *)
Definition aggregate (pipeline : list stage) (ds : list document) : list document :=
  foldl (λ acc s, runStage s acc) ds pipeline.

End Mongo.

Module MistakeBook.

Inductive ReviewStatus := unreviewed | reviewing | mastered.
Inductive Source := exam | practice | review.

#[global] Instance ReviewStatus_eq_dec : EqDecision ReviewStatus.
Proof. solve_decision. Defined.

(** A JavaScript [Date]: a time value, or the invalid date that
    [setDate(NaN)] leaves behind. *)
Inductive JsDate := ValidDate (ms : Z) | InvalidDate.

Definition msPerDay : Z := 86400000.

(** The time zone the process runs in, as ECMAScript's LocalTZA: the
    offset of local time from UTC in milliseconds, [localTZA t true] at the
    instant [t] and [localTZA t false] at the local time [t]. *)
Record Zone := mkZone { localTZA : Z → bool → Z }.

(** ECMAScript's LocalTime and UTC. *)
Definition LocalTime (zone : Zone) (t : Z) : Z := t + localTZA zone t true.
Definition UTC (zone : Zone) (t : Z) : Z := t - localTZA zone t false.

(** [d = new Date(now); d.setDate(d.getDate() + days)]: the same local
    time of day [days] calendar days later; [days = undefined] gives NaN.
    Clock readings are far from the ends of the range of [Date]. *)
Definition setDate (zone : Zone) (now : Z) (days : option Z) : JsDate :=
  match days with
  | Some n => ValidDate (UTC zone (LocalTime zone now + n * msPerDay))
  | None => InvalidDate
  end.

(** A zone whose clock is never changed. *)
Definition fixedZone (offset : Z) : Zone := mkZone (λ _ _, offset).
Definition utc : Zone := fixedZone 0.

(** The clock of [zone] shows the same offset at the instant [now] and
    [days] calendar days later. *)
Definition sameOffset (zone : Zone) (now days : Z) : Prop :=
  localTZA zone (LocalTime zone now + days * msPerDay) false = localTZA zone now true.

(** US Eastern time in 2024: five hours behind UTC, four from 10 March
    07:00 UTC to 3 November 06:00 UTC.  A local time the clock skips or
    shows twice is read with the offset before the change. *)
Definition easternUS2024 : Zone :=
  mkZone (λ t isUTC,
            if isUTC
            then if (1710054000000 <=? t) && (t <? 1730613600000)
                 then -14400000 else -18000000
            else if (1710039600000 <=? t) && (t <? 1730599200000)
                 then -14400000 else -18000000).

Record Snapshot := mkSnapshot {
  snap_title : string;
  snap_content : string;
  snap_type : string;
  snap_options : list string;
  snap_correctAnswer : string;
  snap_analysis : string;
  snap_difficulty : Z;
  snap_tags : list string;
  snap_category : string
}.

Record ReviewInfo := mkReviewInfo {
  reviewCount : Z;
  lastReviewDate : option Z;
  nextReviewDate : JsDate;
  reviewIntervals : list Z;
  consecutiveCorrect : Z
}.

Record ErrorStats := mkErrorStats {
  totalAttempts : Z;
  correctAttempts : Z;
  errorRate : Z
}.

Record Metadata := mkMetadata {
  isArchived : bool;
  archiveDate : option Z;
  isPublic : bool;
  viewCount : Z
}.

(** A document of the [MistakeBook] collection. *)
Record MistakeRecord := mkMistake {
  _id : Z;
  user : Z;
  question : Z;
  questionSnapshot : Snapshot;
  userAnswer : string;
  mistakeReason : string;
  tags : list string;
  importance : Z;
  masteryLevel : Z;
  reviewStatus : ReviewStatus;
  reviewInfo : ReviewInfo;
  errorStats : ErrorStats;
  source : Source;
  examRecord : option Z;
  updatedAt : Z;
  metadata : Metadata
}.

(** ** Field assignments *)

Definition with_reviewInfo (ri : ReviewInfo) (m : MistakeRecord) : MistakeRecord :=
  mkMistake (_id m) (user m) (question m) (questionSnapshot m) (userAnswer m)
    (mistakeReason m) (tags m) (importance m) (masteryLevel m) (reviewStatus m)
    ri (errorStats m) (source m) (examRecord m) (updatedAt m) (metadata m).

Definition with_errorStats (es : ErrorStats) (m : MistakeRecord) : MistakeRecord :=
  mkMistake (_id m) (user m) (question m) (questionSnapshot m) (userAnswer m)
    (mistakeReason m) (tags m) (importance m) (masteryLevel m) (reviewStatus m)
    (reviewInfo m) es (source m) (examRecord m) (updatedAt m) (metadata m).

Definition with_metadata (md : Metadata) (m : MistakeRecord) : MistakeRecord :=
  mkMistake (_id m) (user m) (question m) (questionSnapshot m) (userAnswer m)
    (mistakeReason m) (tags m) (importance m) (masteryLevel m) (reviewStatus m)
    (reviewInfo m) (errorStats m) (source m) (examRecord m) (updatedAt m) md.

Definition with_masteryLevel (v : Z) (m : MistakeRecord) : MistakeRecord :=
  mkMistake (_id m) (user m) (question m) (questionSnapshot m) (userAnswer m)
    (mistakeReason m) (tags m) (importance m) v (reviewStatus m)
    (reviewInfo m) (errorStats m) (source m) (examRecord m) (updatedAt m) (metadata m).

Definition with_reviewStatus (v : ReviewStatus) (m : MistakeRecord) : MistakeRecord :=
  mkMistake (_id m) (user m) (question m) (questionSnapshot m) (userAnswer m)
    (mistakeReason m) (tags m) (importance m) (masteryLevel m) v
    (reviewInfo m) (errorStats m) (source m) (examRecord m) (updatedAt m) (metadata m).

Definition with_updatedAt (v : Z) (m : MistakeRecord) : MistakeRecord :=
  mkMistake (_id m) (user m) (question m) (questionSnapshot m) (userAnswer m)
    (mistakeReason m) (tags m) (importance m) (masteryLevel m) (reviewStatus m)
    (reviewInfo m) (errorStats m) (source m) (examRecord m) v (metadata m).

Definition with_reviewCount (v : Z) (m : MistakeRecord) : MistakeRecord :=
  let ri := reviewInfo m in
  with_reviewInfo (mkReviewInfo v (lastReviewDate ri) (nextReviewDate ri)
                     (reviewIntervals ri) (consecutiveCorrect ri)) m.

Definition with_lastReviewDate (v : option Z) (m : MistakeRecord) : MistakeRecord :=
  let ri := reviewInfo m in
  with_reviewInfo (mkReviewInfo (reviewCount ri) v (nextReviewDate ri)
                     (reviewIntervals ri) (consecutiveCorrect ri)) m.

Definition with_nextReviewDate (v : JsDate) (m : MistakeRecord) : MistakeRecord :=
  let ri := reviewInfo m in
  with_reviewInfo (mkReviewInfo (reviewCount ri) (lastReviewDate ri) v
                     (reviewIntervals ri) (consecutiveCorrect ri)) m.

Definition with_consecutiveCorrect (v : Z) (m : MistakeRecord) : MistakeRecord :=
  let ri := reviewInfo m in
  with_reviewInfo (mkReviewInfo (reviewCount ri) (lastReviewDate ri)
                     (nextReviewDate ri) (reviewIntervals ri) v) m.

Definition with_totalAttempts (v : Z) (m : MistakeRecord) : MistakeRecord :=
  let es := errorStats m in
  with_errorStats (mkErrorStats v (correctAttempts es) (errorRate es)) m.

Definition with_correctAttempts (v : Z) (m : MistakeRecord) : MistakeRecord :=
  let es := errorStats m in
  with_errorStats (mkErrorStats (totalAttempts es) v (errorRate es)) m.

Definition with_errorRate (v : Z) (m : MistakeRecord) : MistakeRecord :=
  let es := errorStats m in
  with_errorStats (mkErrorStats (totalAttempts es) (correctAttempts es) v) m.

Definition archive (now : Z) (m : MistakeRecord) : MistakeRecord :=
  let md := metadata m in
  with_metadata (mkMetadata true (Some now) (isPublic md) (viewCount md)) m.

(** ** [mistakeBookSchema.pre('save')] *)

(** The error rate is recomputed when there is at least one attempt. *)
Definition refreshErrorRate (m : MistakeRecord) : MistakeRecord :=
  let es := errorStats m in
  if 0 <? totalAttempts es
  then with_errorRate
         (percent (totalAttempts es - correctAttempts es) (totalAttempts es)) m
  else m.

(** Three in a row raise the mastery level and restart the streak.  The
    hook and [recordReview] both carry this statement. *)
Definition promote (m : MistakeRecord) : MistakeRecord :=
  if 3 <=? consecutiveCorrect (reviewInfo m)
  then with_consecutiveCorrect 0 (with_masteryLevel (Z.min 5 (masteryLevel m + 1)) m)
  else m.

(** A record at level 5 that is not yet marked mastered is marked and
    archived. *)
Definition archiveAtFive (now : Z) (m : MistakeRecord) : MistakeRecord :=
  if (5 <=? masteryLevel m) && negb (bool_decide (reviewStatus m = mastered))
  then archive now (with_reviewStatus mastered m)
  else m.

Definition preSave (now : Z) (m : MistakeRecord) : MistakeRecord :=
  archiveAtFive now (promote (refreshErrorRate (with_updatedAt now m))).

(** What a step of the save hook leaves as it is: the identity of the
    document, the answer, the tags and the number of attempts. *)
Definition sameCore (m r : MistakeRecord) : Prop :=
  _id r = _id m ∧ user r = user m ∧ question r = question m
  ∧ userAnswer r = userAnswer m ∧ tags r = tags m
  ∧ totalAttempts (errorStats r) = totalAttempts (errorStats m)
  ∧ nextReviewDate (reviewInfo r) = nextReviewDate (reviewInfo m).

(** ** [recordReview] *)

Definition intervals : list Z := [1; 2; 4; 7; 15; 30; 60; 90].

(** First statement of the [isCorrect] branch: the streak (and the count
    of correct attempts) goes up by one. *)
Definition bumpStreak (m : MistakeRecord) : MistakeRecord :=
  with_correctAttempts (correctAttempts (errorStats m) + 1)
    (with_consecutiveCorrect (consecutiveCorrect (reviewInfo m) + 1) m).

(** The interval lookup and the new [nextReviewDate], read from the record
    as it stands when these statements run. *)
Definition scheduleNext (zone : Zone) (now : Z) (m : MistakeRecord) : MistakeRecord :=
  let intervalIndex :=
    Z.min (consecutiveCorrect (reviewInfo m) - 1) (Z.of_nat (length intervals) - 1) in
  let nextReviewDays := jsIndex intervals intervalIndex in
  with_nextReviewDate (setDate zone now nextReviewDays) m.

Definition reviewCorrect (zone : Zone) (now : Z) (m : MistakeRecord) : MistakeRecord :=
  promote (scheduleNext zone now (bumpStreak m)).

Definition reviewWrong (now : Z) (m : MistakeRecord) : MistakeRecord :=
  with_masteryLevel (Z.max 1 (masteryLevel m - 1))
    (with_nextReviewDate (ValidDate now) (with_consecutiveCorrect 0 m)).

(** The assignments [recordReview] makes to the document it found, up to
    the call of [save]. *)
Definition beforeSave (zone : Zone) (now : Z) (isCorrect : bool) (m : MistakeRecord)
  : MistakeRecord :=
  let m1 := with_lastReviewDate (Some now)
              (with_reviewCount (reviewCount (reviewInfo m) + 1) m) in
  let m2 := if isCorrect then reviewCorrect zone now m1 else reviewWrong now m1 in
  with_totalAttempts (totalAttempts (errorStats m2) + 1) m2.

(** The document as saved: the save hook runs on it last. *)
Definition reviewed (zone : Zone) (now : Z) (isCorrect : bool) (m : MistakeRecord)
  : MistakeRecord :=
  preSave now (beforeSave zone now isCorrect m).

(** [save] casts the paths that were assigned before it runs the hook: a
    [nextReviewDate] that is no valid date fails the cast, [save] rejects and
    nothing is written. *)
Definition castsToDate (m : MistakeRecord) : bool :=
  match nextReviewDate (reviewInfo m) with
  | ValidDate _ => true
  | InvalidDate => false
  end.

(** [findOne({ _id: mistakeId, user: userId })]: position and document. *)
Definition findById (store : list MistakeRecord) (mistakeId userId : Z)
  : option (nat * MistakeRecord) :=
  list_find (λ m, _id m = mistakeId ∧ user m = userId) store.

Definition recordReview (zone : Zone) (now : Z) (store : list MistakeRecord)
    (mistakeId userId : Z) (isCorrect : bool)
  : outcome (list MistakeRecord * MistakeRecord) :=
  match findById store mistakeId userId with
  | None => Err "记录复习情况失败: 错题记录不存在"
  | Some (i, m) =>
      if castsToDate (beforeSave zone now isCorrect m)
      then let m' := reviewed zone now isCorrect m in
           Ok (<[i := m']> store, m')
      else Err "记录复习情况失败: ValidationError"
  end.




(** A record used by the examples: user 7, question 42, the schema
    defaults elsewhere. *)
Definition sample (level streak : Z) (status : ReviewStatus) (archived : bool)
  : MistakeRecord :=
  mkMistake 1 7 42
    (mkSnapshot "t" "c" "single" [] "0" "" 2 [] "general")
    "1" "" [] 3 level status
    (mkReviewInfo 0 None (ValidDate 0) [] streak)
    (mkErrorStats 1 0 100) exam None 0
    (mkMetadata archived None false 0).

(** Two records of user 7 that differ in the review date only: one due
    since time 0, one due at time 9000. *)
Definition dueRecord : MistakeRecord := sample 1 0 unreviewed false.
Definition laterRecord : MistakeRecord :=
  with_nextReviewDate (ValidDate 9000) (sample 1 0 unreviewed false).

(** ** [createMistakeRecord] *)









(** ** [getRecommendedForReview] *)

Definition statusName (s : ReviewStatus) : string :=
  match s with
  | unreviewed => "unreviewed"
  | reviewing => "reviewing"
  | mastered => "mastered"
  end.

Definition num (z : Z) : Mongo.bson := Mongo.BNum (inject_Z z).

(** The stored document of a record.  The schema is strict: a stored
    document has the schema's paths and no others (in particular no
    [isOverdue] and no [reviewScore]). *)
Definition toDocument (m : MistakeRecord) : Mongo.document :=
  [ ("_id", Mongo.BObjectId (_id m));
    ("user", Mongo.BObjectId (user m));
    ("question", Mongo.BObjectId (question m));
    ("userAnswer", Mongo.BStr (userAnswer m));
    ("mistakeReason", Mongo.BStr (mistakeReason m));
    ("importance", num (importance m));
    ("masteryLevel", num (masteryLevel m));
    ("reviewStatus", Mongo.BStr (statusName (reviewStatus m)));
    ("reviewInfo.reviewCount", num (reviewCount (reviewInfo m)));
    ("reviewInfo.nextReviewDate",
       match nextReviewDate (reviewInfo m) with
       | ValidDate t => Mongo.BDate t
       | InvalidDate => Mongo.BNull
       end);
    ("reviewInfo.consecutiveCorrect", num (consecutiveCorrect (reviewInfo m)));
    ("errorStats.totalAttempts", num (totalAttempts (errorStats m)));
    ("errorStats.correctAttempts", num (correctAttempts (errorStats m)));
    ("errorStats.errorRate", num (errorRate (errorStats m)));
    ("metadata.isArchived", Mongo.BBool (isArchived (metadata m)));
    ("metadata.isPublic", Mongo.BBool (isPublic (metadata m)));
    ("metadata.viewCount", num (viewCount (metadata m))) ].

(** The [$addFields] stage of the recommendation pipeline. *)
Definition scoreFields (now : Z) : list (string * Mongo.expr) :=
  [ ("isOverdue",
       Mongo.ELt (Mongo.EField "reviewInfo.nextReviewDate")
                 (Mongo.EConst (Mongo.BDate now)));
    ("reviewScore",
       Mongo.EAdd
         [ Mongo.EMultiply [Mongo.EField "importance"; Mongo.EConst (num 20)];
           Mongo.EMultiply
             [ Mongo.ESubtract (Mongo.EConst (num 6)) (Mongo.EField "masteryLevel");
               Mongo.EConst (num 15) ];
           Mongo.ECond (Mongo.EField "isOverdue")
             (Mongo.EConst (num 50)) (Mongo.EConst (num 0));
           Mongo.EMultiply
             [ Mongo.EField "errorStats.errorRate";
               Mongo.EConst (Mongo.BNum (1 # 2)) ] ]) ].

Definition recommendPipeline (now userId : Z) (count : nat) : list Mongo.stage :=
  [ Mongo.SMatch
      [ ("user", Mongo.BObjectId userId);
        ("metadata.isArchived", Mongo.BBool false) ];
    Mongo.SAddFields (scoreFields now);
    Mongo.SSortDesc "reviewScore";
    Mongo.SLimit count ].

(** [count] is the limit the caller asks for (10 by default); with
    [count = 0] the server refuses the pipeline and the call throws. *)
Definition getRecommendedForReview (now : Z) (store : list MistakeRecord)
    (userId : Z) (count : nat) : outcome (list Mongo.document) :=
  if Mongo.accepted (recommendPipeline now userId count)
  then Ok (Mongo.aggregate (recommendPipeline now userId count) (map toDocument store))
  else Err "获取推荐复习题目失败: MongoServerError".

End MistakeBook.

Module ExamRecord.

Record Config := mkConfig {
  totalQuestions : Z;
  duration : Z;
  passingScore : Q;
  isRandom : bool
}.

Record Result := mkResult {
  score : Q;
  grade : string;
  correctCount : Z;
  wrongCount : Z;
  unansweredCount : Z;
  accuracy : Z;
  isPassed : bool
}.

Record ExamQuestion := mkExamQuestion {
  questionId : Z;
  q_type : string;
  q_isCorrect : bool;
  q_isMarked : bool;
  q_timeSpent : Q
}.

Record TypePerf := mkTypePerf { tp_correct : Z; tp_total : Z; tp_rate : Z }.

Record TypePerformance := mkTypePerformance {
  single : TypePerf;
  multiple : TypePerf;
  judge : TypePerf;
  fill : TypePerf;
  essay : TypePerf
}.

Record TimeAnalysis := mkTimeAnalysis {
  avgTimePerQuestion : Z;
  fastestQuestion : Q;
  slowestQuestion : Q
}.

Record Analysis := mkAnalysis {
  typePerformance : TypePerformance;
  timeAnalysis : TimeAnalysis
}.

Record Sharing := mkSharing {
  isPublic : bool;
  shareCode : option string;
  viewCount : Z
}.

(** A document of the [ExamRecord] collection (the paths the save hook
    reads or writes). *)
Record ExamRecord := mkExamRecord {
  user : Z;
  title : string;
  config : Config;
  result : Result;
  questions : list ExamQuestion;
  analysis : Analysis;
  sharing : Sharing
}.

Definition with_result (r : Result) (e : ExamRecord) : ExamRecord :=
  mkExamRecord (user e) (title e) (config e) r (questions e) (analysis e) (sharing e).

Definition with_analysis (a : Analysis) (e : ExamRecord) : ExamRecord :=
  mkExamRecord (user e) (title e) (config e) (result e) (questions e) a (sharing e).

Definition with_sharing (s : Sharing) (e : ExamRecord) : ExamRecord :=
  mkExamRecord (user e) (title e) (config e) (result e) (questions e) (analysis e) s.

Definition with_grade (g : string) (e : ExamRecord) : ExamRecord :=
  let r := result e in
  with_result (mkResult (score r) g (correctCount r) (wrongCount r)
                 (unansweredCount r) (accuracy r) (isPassed r)) e.

Definition with_isPassed (b : bool) (e : ExamRecord) : ExamRecord :=
  let r := result e in
  with_result (mkResult (score r) (grade r) (correctCount r) (wrongCount r)
                 (unansweredCount r) (accuracy r) b) e.

Definition with_accuracy (a : Z) (e : ExamRecord) : ExamRecord :=
  let r := result e in
  with_result (mkResult (score r) (grade r) (correctCount r) (wrongCount r)
                 (unansweredCount r) a (isPassed r)) e.

(** The threshold cascade at the head of the save hook. *)
Definition gradeOf (s : Q) : string :=
  if Qle_bool 90 s then "优秀"
  else if Qle_bool 80 s then "良好"
  else if Qle_bool 60 s then "及格"
  else "不及格".

Definition characters : string :=
  "ABCDEFGHIJKLMNOPQRSTUVWXYZabcdefghijklmnopqrstuvwxyz0123456789".

(** [picks] are the eight values of
    [Math.floor(Math.random() * characters.length)] the loop draws;
    [charAt] outside the string is the empty string. *)
Definition generateShareCode (picks : list nat) : string :=
  foldl (λ acc i,
           match String.get i characters with
           | Some c => acc +:+ String c EmptyString
           | None => acc
           end) "" (take 8 picks).

Definition typeStat (qs : list ExamQuestion) (ty : string) : TypePerf :=
  let total := Z.of_nat (length (filter (λ q, q_type q = ty) qs)) in
  let correct :=
    Z.of_nat (length (filter (λ q, q_type q = ty ∧ q_isCorrect q = true) qs)) in
  mkTypePerf correct total (if 0 <? total then percent correct total else 0).

Definition calculateTypePerformance (e : ExamRecord) : ExamRecord :=
  let qs := questions e in
  with_analysis
    (mkAnalysis
       (mkTypePerformance (typeStat qs "single") (typeStat qs "multiple")
          (typeStat qs "judge") (typeStat qs "fill") (typeStat qs "essay"))
       (timeAnalysis (analysis e))) e.

(** [Math.min] and [Math.max] of two Numbers. *)
Definition qmin (a b : Q) : Q := if Qle_bool a b then a else b.
Definition qmax (a b : Q) : Q := if Qle_bool a b then b else a.

(** The times are Numbers of seconds, whole or not; the total is summed
    from the left and the average alone is rounded. *)
Definition calculateTimeAnalysis (e : ExamRecord) : ExamRecord :=
  let timeSpentArray :=
    map q_timeSpent (filter (λ q, (0 < q_timeSpent q)%Q) (questions e)) in
  match timeSpentArray with
  | [] => e
  | t :: ts =>
      let totalTime := foldl Double.add 0%Q timeSpentArray in
      with_analysis
        (mkAnalysis (typePerformance (analysis e))
           (mkTimeAnalysis
              (Double.round
                 (Double.div totalTime (inject_Z (Z.of_nat (length timeSpentArray)))))
              (foldl qmin t ts) (foldl qmax t ts))) e
  end.

(** ** [examRecordSchema.pre('save')], statement by statement *)

Definition assignGrade (e : ExamRecord) : ExamRecord :=
  with_grade (gradeOf (score (result e))) e.

Definition assignPassed (e : ExamRecord) : ExamRecord :=
  with_isPassed (Qle_bool (passingScore (config e)) (score (result e))) e.

Definition assignAccuracy (e : ExamRecord) : ExamRecord :=
  if 0 <? totalQuestions (config e)
  then with_accuracy
         (percent (correctCount (result e)) (totalQuestions (config e))) e
  else e.

(** A public record without a share code gets one. *)
Definition assignShareCode (picks : list nat) (e : ExamRecord) : ExamRecord :=
  if isPublic (sharing e)
     && negb (bool_decide (is_Some (shareCode (sharing e))
                           ∧ shareCode (sharing e) ≠ Some ""))
  then with_sharing
         (mkSharing (isPublic (sharing e)) (Some (generateShareCode picks))
            (viewCount (sharing e))) e
  else e.

Definition preSave (picks : list nat) (e : ExamRecord) : ExamRecord :=
  calculateTimeAnalysis
    (calculateTypePerformance
       (assignShareCode picks (assignAccuracy (assignPassed (assignGrade e))))).

(** An exam used by the examples: 17 of 20 right, score 85. *)
Definition sampleExam : ExamRecord :=
  mkExamRecord 7 "t" (mkConfig 20 60 60 true)
    (mkResult 85 "不及格" 17 3 0 0 false)
    [mkExamQuestion 1 "single" true false 30; mkExamQuestion 2 "judge" false false 12]
    (mkAnalysis
       (mkTypePerformance (mkTypePerf 0 0 0) (mkTypePerf 0 0 0) (mkTypePerf 0 0 0)
          (mkTypePerf 0 0 0) (mkTypePerf 0 0 0))
       (mkTimeAnalysis 0 0 0))
    (mkSharing false None 0).

End ExamRecord.

(** * Client-side export and import

    The browser scripts work on [window.app] and on parsed JSON.  A record
    in a collection is an object whose [id] and [date] are primitive values;
    a property of a parsed document may hold a value of the wrong kind, so it
    is a [value]; a counter of the study statistics is a primitive value of
    any kind, and a Number in a document is whole; a question bank of the
    application is an array or is not there ([None]).  Downloads,
    notifications and the sync history kept in [localStorage] are left out: no
    rule below reads them. *)
Module Sync.

Inductive jsprim :=
| PUndefined
| PNull
| PBool (b : bool)
| PNum (n : Z)
| PStr (s : string).

#[global] Instance jsprim_eq_dec : EqDecision jsprim.
Proof. solve_decision. Defined.

Definition truthy (p : jsprim) : bool :=
  match p with
  | PUndefined | PNull => false
  | PBool b => b
  | PNum n => negb (n =? 0)
  | PStr s => negb (bool_decide (s = ""))
  end.

(** A property of a parsed document: a primitive ([undefined] when the
    property is absent), an array, or some other object. *)
Inductive value (A : Type) : Type :=
| VPrim (p : jsprim)
| VArray (xs : list A)
| VObject.
Arguments VPrim {A} p.
Arguments VArray {A} xs.
Arguments VObject {A}.

Definition isTruthy {A : Type} (v : value A) : bool :=
  match v with
  | VPrim p => truthy p
  | _ => true
  end.

Definition isArray {A : Type} (v : value A) : bool :=
  match v with
  | VArray _ => true
  | _ => false
  end.

(** What [JSON.parse] returns: a primitive or an object. *)
Inductive parsed (D : Type) : Type :=
| ParsedPrim (p : jsprim)
| ParsedObject (d : D).
Arguments ParsedPrim {D} p.
Arguments ParsedObject {D} d.

(** The text of a file: empty, not JSON, or JSON. *)
Inductive content (D : Type) : Type :=
| EmptyText
| BadJson
| Json (v : parsed D).
Arguments EmptyText {D}.
Arguments BadJson {D}.
Arguments Json {D} v.

Record File (D : Type) : Type := mkFile {
  fileName : string;
  fileSize : Z;
  fileText : content D
}.
Arguments mkFile {D} _ _ _.
Arguments fileName {D} _.
Arguments fileSize {D} _.
Arguments fileText {D} _.

Inductive fieldval :=
| FStr (s : string)
| FNum (n : Z)
| FList (l : list string).

(** A question, a mistake or an exam record. *)
Record Item := mkItem {
  id : jsprim;
  date : jsprim;
  props : list (string * fieldval)
}.

Record StudyStats := mkStudyStats {
  totalQuestions : jsprim;
  correctAnswers : jsprim;
  totalStudyTime : jsprim;
  examRecords : option (list Item)
}.

Record User := mkUser { userId : jsprim; username : string }.

(** [window.app]. *)
Record App := mkApp {
  currentUser : option User;
  publicQuestionBank : option (list Item);
  personalQuestionBank : option (list Item);
  mistakeBank : option (list Item);
  studyStats : option StudyStats;
  syncStatus : string;
  lastSyncTime : option string
}.

(** The [studyStats] object of a document. *)
Record StatsDoc := mkStatsDoc {
  sd_totalQuestions : jsprim;
  sd_correctAnswers : jsprim;
  sd_totalStudyTime : jsprim;
  sd_examRecords : value Item
}.

Inductive statsField :=
| SPrim (p : jsprim)
| SObj (s : StatsDoc).

(** ** The comparison [a > b] of two primitives

    Two strings are compared by their UTF-16 code units; otherwise both
    sides are converted with ToNumber and compared as Numbers, NaN comparing
    false. *)

Inductive number :=
| NaN
| Infinite (negative : bool)
| Finite (q : Q).

(** The double nearest to [q], or an infinity beyond the range. *)
Definition toDouble (q : Q) : number :=
  let r := Double.rnd q in
  if Qle_bool (Double.pow2 1024) r then Infinite false
  else if Qle_bool r (- Double.pow2 1024) then Infinite true
  else Finite r.

Definition digitValue (base : Z) (c : ascii) : option Z :=
  let n := Z.of_nat (nat_of_ascii c) in
  let v := if (48 <=? n) && (n <=? 57) then Some (n - 48)
           else if (97 <=? n) && (n <=? 102) then Some (n - 87)
           else if (65 <=? n) && (n <=? 70) then Some (n - 55)
           else None in
  match v with
  | Some d => if d <? base then Some d else None
  | None => None
  end.

(** The value of a run of digits, [None] when a character is no digit. *)
Fixpoint digitsValue (base acc : Z) (cs : list ascii) : option Z :=
  match cs with
  | [] => Some acc
  | c :: cs' =>
      match digitValue base c with
      | Some d => digitsValue base (acc * base + d) cs'
      | None => None
      end
  end.

(** The decimal digits at the head of [cs], and what follows them. *)
Fixpoint spanDigits (cs : list ascii) : list ascii * list ascii :=
  match cs with
  | [] => ([], [])
  | c :: cs' =>
      match digitValue 10 c with
      | Some _ => let '(ds, rest) := spanDigits cs' in (c :: ds, rest)
      | None => ([], cs)
      end
  end.

(** ExponentPart, or nothing: the exponent, [None] when the text is
    neither. *)
Definition exponentPart (cs : list ascii) : option Z :=
  match cs with
  | [] => Some 0
  | c :: rest =>
      if bool_decide (c = "e"%char ∨ c = "E"%char)
      then
        let '(negative, ds) :=
          match rest with
          | s :: rest' =>
              if bool_decide (s = "-"%char) then (true, rest')
              else if bool_decide (s = "+"%char) then (false, rest')
              else (false, rest)
          | [] => (false, [])
          end in
        match ds with
        | [] => None
        | _ => (λ v : Z, if negative : bool then - v else v) <$> digitsValue 10 0 ds
        end
      else None
  end.

(** StrUnsignedDecimalLiteral without [Infinity]: its mathematical value. *)
Definition unsignedDecimal (cs : list ascii) : option Q :=
  let '(whole, rest) := spanDigits cs in
  let '(fraction, rest') :=
    match rest with
    | c :: rest1 => if bool_decide (c = "."%char) then spanDigits rest1 else ([], rest)
    | [] => ([], [])
    end in
  match whole ++ fraction with
  | [] => None
  | ds =>
      match digitsValue 10 0 ds, exponentPart rest' with
      | Some n, Some e =>
          let k := e - Z.of_nat (length fraction) in
          Some (if 0 <=? k then inject_Z (n * 10 ^ k)
                else Qmake n (Z.to_pos (10 ^ (- k))))
      | _, _ => None
      end
  end.

(** NonDecimalIntegerLiteral: [0x], [0o] or [0b] and digits of that base. *)
Definition nonDecimal (cs : list ascii) : option Z :=
  match cs with
  | z :: b :: ds =>
      if bool_decide (z = "0"%char)
      then
        let base :=
          if bool_decide (b = "x"%char ∨ b = "X"%char) then Some 16
          else if bool_decide (b = "o"%char ∨ b = "O"%char) then Some 8
          else if bool_decide (b = "b"%char ∨ b = "B"%char) then Some 2
          else None in
        match base, ds with
        | Some base, _ :: _ => digitsValue base 0 ds
        | _, _ => None
        end
      else None
  | _ => None
  end.

(** StringToNumber. *)
Definition stringToNumber (s : string) : number :=
  let cs := list_ascii_of_string (trim s) in
  match cs with
  | [] => Finite 0
  | c :: rest =>
      match nonDecimal cs with
      | Some n => toDouble (inject_Z n)
      | None =>
          let '(negative, body) :=
            if bool_decide (c = "-"%char) then (true, rest)
            else if bool_decide (c = "+"%char) then (false, rest)
            else (false, cs) in
          if bool_decide (body = list_ascii_of_string "Infinity")
          then Infinite negative
          else match unsignedDecimal body with
               | Some q => toDouble (if negative then (- q)%Q else q)
               | None => NaN
               end
      end
  end.

(** ToNumber on a primitive. *)
Definition toNumber (p : jsprim) : number :=
  match p with
  | PUndefined => NaN
  | PNull => Finite 0
  | PBool b => Finite (if b then 1 else 0)
  | PNum n => Finite (inject_Z n)
  | PStr s => stringToNumber s
  end.

(** The UTF-16 code units of a string. *)
Fixpoint codeUnits (bs : list Z) : list Z :=
  match bs with
  | [] => []
  | b0 :: rest =>
      if b0 <? 192 then b0 :: codeUnits rest
      else if b0 <? 224
      then match rest with
           | b1 :: r => ((b0 - 192) * 64 + (b1 - 128)) :: codeUnits r
           | _ => b0 :: codeUnits rest
           end
      else if b0 <? 240
      then match rest with
           | b1 :: b2 :: r =>
               ((b0 - 224) * 4096 + (b1 - 128) * 64 + (b2 - 128)) :: codeUnits r
           | _ => b0 :: codeUnits rest
           end
      else match rest with
           | b1 :: b2 :: b3 :: r =>
               let cp := (b0 - 240) * 262144 + (b1 - 128) * 4096
                         + (b2 - 128) * 64 + (b3 - 128) - 65536 in
               (55296 + cp / 1024) :: (56320 + cp mod 1024) :: codeUnits r
           | _ => b0 :: codeUnits rest
           end
  end.

Fixpoint unitsBefore (a b : list Z) : bool :=
  match a, b with
  | _, [] => false
  | [], _ :: _ => true
  | x :: a', y :: b' => (x <? y) || ((x =? y) && unitsBefore a' b')
  end.

(** [x < y]. *)
Definition lessThan (x y : jsprim) : bool :=
  match x, y with
  | PStr a, PStr b =>
      unitsBefore (codeUnits (Z.of_nat <$> bytesOf a)) (codeUnits (Z.of_nat <$> bytesOf b))
  | _, _ =>
      match toNumber x, toNumber y with
      | NaN, _ | _, NaN => false
      | Infinite nx, Infinite ny => nx && negb ny
      | Infinite nx, Finite _ => nx
      | Finite _, Infinite ny => negb ny
      | Finite a, Finite b => bool_decide (a < b)%Q
      end
  end.

(** [incoming > current]. *)
Definition exceeds (incoming current : jsprim) : bool := lessThan current incoming.

(** [newItems.filter(x => !new Set(existing.map(key)).has(key(x)))]. *)
Definition absentBy (key : Item → jsprim) (newItems existing : list Item) : list Item :=
  let existingKeys := map key existing in
  filter (λ item, key item ∉ existingKeys) newItems.

(** [toLowerCase] on the ASCII letters, which is all a file extension
    needs. *)
Definition toLowerCase (s : string) : string :=
  string_of_list_ascii
    (map (λ c, let n := nat_of_ascii c in
               if (65 <=? n)%nat && (n <=? 90)%nat then ascii_of_nat (n + 32) else c)
       (list_ascii_of_string s)).

Definition endsWith (s suffix : string) : bool :=
  (String.length suffix <=? String.length s)%nat
  && String.eqb
       (String.substring (String.length s - String.length suffix)
          (String.length suffix) s) suffix.

(** Each of the three scalar counters takes the incoming value when that
    compares greater. *)
Definition mergeCounters (t : StudyStats) (s : StatsDoc) : StudyStats :=
  mkStudyStats
    (if exceeds (sd_totalQuestions s) (totalQuestions t)
     then sd_totalQuestions s else totalQuestions t)
    (if exceeds (sd_correctAnswers s) (correctAnswers t)
     then sd_correctAnswers s else correctAnswers t)
    (if exceeds (sd_totalStudyTime s) (totalStudyTime t)
     then sd_totalStudyTime s else totalStudyTime t)
    (examRecords t).

(** The three counters and where a document carries them. *)
Definition counters : list ((StudyStats → jsprim) * (StatsDoc → jsprim)) :=
  [ (totalQuestions, sd_totalQuestions); (correctAnswers, sd_correctAnswers);
    (totalStudyTime, sd_totalStudyTime) ].

Definition with_examRecords (rs : option (list Item)) (t : StudyStats) : StudyStats :=
  mkStudyStats (totalQuestions t) (correctAnswers t) (totalStudyTime t) rs.

(** ** SyncManager (the simplified manager) *)
Module SyncManager.

Record ImportDoc := mkImportDoc {
  doc_version : jsprim;
  doc_exportTime : jsprim;
  doc_deviceId : jsprim;
  doc_dataTypes : value jsprim;
  doc_publicQuestions : value Item;
  doc_personalQuestions : value Item;
  doc_mistakeBank : value Item;
  doc_studyStats : statsField
}.

Definition validDataTypes : list string :=
  ["publicQuestions"; "personalQuestions"; "mistakeBank"; "studyStats"].

Definition includesType (t : jsprim) : bool :=
  match t with
  | PStr s => bool_decide (s ∈ validDataTypes)
  | _ => false
  end.

(** A non-empty array drawn from the four type names. *)
Definition wellFormedTypes (v : value jsprim) : Prop :=
  ∃ types, v = VArray types ∧ types ≠ []
           ∧ Forall (λ t, ∃ s, t = PStr s ∧ s ∈ validDataTypes) types.

Definition validateImportData (data : parsed ImportDoc) : bool :=
  match data with
  | ParsedPrim _ => false
  | ParsedObject d =>
      if negb (truthy (doc_version d)) || negb (truthy (doc_exportTime d))
         || negb (truthy (doc_deviceId d))
      then false
      else if isTruthy (doc_dataTypes d)
      then match doc_dataTypes d with
           | VArray types =>
               if (length types =? 0)%nat then false else forallb includesType types
           | _ => false
           end
      else true
  end.

Definition removeDuplicates (newItems existingItems : list Item) : list Item :=
  absentBy id newItems existingItems.

(** [mergeStudyStats(targetStats, sourceStats)]: the target after the
    call and whether the call threw. *)
Definition mergeStudyStats (targetStats : option StudyStats) (sourceStats : StatsDoc)
  : option StudyStats * bool :=
  match targetStats with
  | None => (None, false)
  | Some t =>
      let t' := mergeCounters t sourceStats in
      match sd_examRecords sourceStats with
      | VArray records =>
          match examRecords t' with
          | Some existing =>
              (Some (with_examRecords (Some (existing ++ absentBy id records existing)) t'),
               false)
          | None => (Some t', true)
          end
      | _ => (Some t', false)
      end
  end.

Record Imported := mkImported {
  imp_publicQuestions : option nat;
  imp_personalQuestions : option nat;
  imp_mistakes : option nat;
  imp_studyStats : bool
}.

Record ImportResults := mkImportResults {
  success : bool;
  imported : Imported;
  errors : list string
}.

(** One guarded block of [importData]: the bank after it, the count it
    reports and the error it records.  [push] on a bank that is not
    there throws; the block catches it and records the label followed by
    the engine's message, of which the label is kept here. *)
Definition importBank (label : string) (incoming : value Item)
    (bank : option (list Item)) : option (list Item) * option nat * list string :=
  match incoming with
  | VArray newItems =>
      match bank with
      | Some existing =>
          let unique := removeDuplicates newItems existing in
          (Some (existing ++ unique), Some (length unique), [])
      | None => (None, None, [label])
      end
  | _ => (bank, None, [])
  end.

(** The body of [reader.onload] once the document passed validation. *)
Definition importInto (now : string) (d : ImportDoc) (app : App)
  : ImportResults * App :=
  let '(pub, nPub, e1) :=
    importBank "公共题库导入失败" (doc_publicQuestions d) (publicQuestionBank app) in
  let '(per, nPer, e2) :=
    importBank "个人题库导入失败" (doc_personalQuestions d) (personalQuestionBank app) in
  let '(mis, nMis, e3) :=
    importBank "错题本导入失败" (doc_mistakeBank d) (mistakeBank app) in
  let '(stats, okStats, e4) :=
    match doc_studyStats d with
    | SObj s =>
        let '(st, threw) := mergeStudyStats (studyStats app) s in
        if threw then (st, false, ["学习统计导入失败"]) else (st, true, [])
    | SPrim _ => (studyStats app, false, [])
    end in
  let errs := e1 ++ e2 ++ e3 ++ e4 in
  (mkImportResults (bool_decide (errs = [])) (mkImported nPub nPer nMis okStats) errs,
   mkApp (currentUser app) pub per mis stats "synced" (Some now)).

(** [importData(file)]: what the promise settles with, and [window.app]
    afterwards. *)
Definition importData (now : string) (file : option (File ImportDoc))
    (win : option App) : outcome ImportResults * option App :=
  match file with
  | None => (Err "未选择文件", win)
  | Some f =>
      if negb (endsWith (toLowerCase (fileName f)) ".json")
      then (Err "请选择JSON格式的同步数据文件", win)
      else if 10 * 1024 * 1024 <? fileSize f
      then (Err "文件大小不能超过10MB", win)
      else
        match fileText f with
        | EmptyText | BadJson => (Err "SyntaxError", win)
        | Json data =>
            if negb (validateImportData data)
            then (Err "无效的数据格式", win)
            else
              match data, win with
              | ParsedPrim _, _ => (Err "无效的数据格式", win)
              | ParsedObject _, None => (Err "应用实例未找到", win)
              | ParsedObject d, Some app =>
                  let '(results, app') := importInto now d app in
                  (Ok results, Some app')
              end
        end
  end.

(** *** [exportData] *)

Record ExportOptions := mkExportOptions {
  includePublic : bool;
  includePersonal : bool;
  includeMistakes : bool;
  includeStats : bool
}.

(** [exportData()] without arguments. *)
Definition defaultOptions : ExportOptions := mkExportOptions true true true true.

Record ExportStats := mkExportStats {
  st_publicQuestions : option nat;
  st_personalQuestions : option nat;
  st_mistakes : option nat;
  st_totalQuestions : nat
}.

Record DeviceInfo := mkDeviceInfo {
  userAgent : string;
  screenSize : string;
  language : string;
  platform : string
}.

Record ExportDoc := mkExportDoc {
  ex_version : string;
  ex_deviceId : string;
  ex_exportTime : string;
  ex_userId : jsprim;
  ex_username : string;
  ex_dataTypes : list string;
  ex_stats : ExportStats;
  ex_publicQuestions : option (list Item);
  ex_personalQuestions : option (list Item);
  ex_mistakeBank : option (list Item);
  ex_studyStats : option StudyStats;
  ex_deviceInfo : DeviceInfo;
  ex_isSampleData : bool
}.

(** What the browser supplies to one call: [Date.now()], the ISO text of
    the same instant, and the navigator and screen description. *)
Record Env := mkEnv {
  timestamp : Z;
  isoTime : string;
  device : DeviceInfo
}.

Definition decimal (z : Z) : string := NilZero.string_of_int (Z.to_int z).

Definition sampleQuestion (key content type : string) (options : option (list string))
    (answer analysis createTime : string) (difficulty : Z) (category : string)
    (tags : list string) : Item :=
  mkItem (PStr key) PUndefined
    ([("content", FStr content); ("type", FStr type)]
     ++ match options with Some os => [("options", FList os)] | None => [] end
     ++ [("answer", FStr answer); ("analysis", FStr analysis);
         ("source", FStr "system-sample"); ("createTime", FStr createTime);
         ("difficulty", FNum difficulty); ("category", FStr category);
         ("tags", FList tags)]).

Definition generateSampleData (env : Env) : list Item * list Item :=
  let ts := decimal (timestamp env) in
  let created := isoTime env in
  ([ sampleQuestion ("sample_pub_1_" +:+ ts)
       "HTML5中用于定义文档主要内容的标签是：" "single"
       (Some ["<header>"; "<main>"; "<section>"; "<article>"]) "1"
       "<main>标签定义文档的主要内容，一个文档中应该只有一个<main>元素。"
       created 2 "HTML5" ["HTML"; "语义化标签"];
     sampleQuestion ("sample_pub_2_" +:+ ts)
       "CSS中，哪个属性用于设置元素的外边距？" "single"
       (Some ["padding"; "border"; "margin"; "spacing"]) "2"
       "margin属性用于设置元素的外边距，控制元素与其他元素之间的距离。"
       created 1 "CSS基础" ["CSS"; "盒模型"];
     sampleQuestion ("sample_pub_3_" +:+ ts)
       "JavaScript中，以下哪个方法用于向数组末尾添加元素？" "single"
       (Some ["push()"; "pop()"; "shift()"; "unshift()"]) "0"
       "push()方法向数组末尾添加一个或多个元素，并返回新的长度。"
       created 1 "JavaScript" ["JS"; "数组方法"] ],
   [ sampleQuestion ("sample_per_1_" +:+ ts)
       "Vue组件的data选项必须是一个函数。" "judge" None "true"
       "在Vue组件中，data选项必须是一个函数，这样每个实例可以维护独立的数据副本，避免数据污染。"
       created 2 "Vue" ["Vue"; "组件"; "data选项"];
     sampleQuestion ("sample_per_2_" +:+ ts)
       "CSS Grid布局可以创建二维布局。" "judge" None "true"
       "CSS Grid是一个二维布局系统，可以同时处理行和列的布局，比Flexbox更强大。"
       created 3 "CSS高级" ["CSS"; "Grid布局"] ]).

(** [include && bank]: the collection goes into the document when the
    option is on and the application has the bank. *)
Definition exported {A : Type} (include : bool) (bank : option A) : option A :=
  if include then bank else None.

(** The document as it stands just before the sample-data check. *)
Definition collect (opts : ExportOptions) (deviceId : string) (env : Env)
    (app : App) (u : User) : ExportDoc :=
  let pub := exported (includePublic opts) (publicQuestionBank app) in
  let per := exported (includePersonal opts) (personalQuestionBank app) in
  let mis := exported (includeMistakes opts) (mistakeBank app) in
  let sts := exported (includeStats opts) (studyStats app) in
  let present {A : Type} (o : option A) (name : string) : list string :=
    match o with Some _ => [name] | None => [] end in
  mkExportDoc "1.0.0" deviceId (isoTime env) (userId u) (username u)
    (present pub "publicQuestions" ++ present per "personalQuestions"
     ++ present mis "mistakeBank" ++ present sts "studyStats")
    (mkExportStats (length <$> pub) (length <$> per) (length <$> mis)
       (default 0%nat (length <$> pub) + default 0%nat (length <$> per))%nat)
    pub per mis sts (device env) false.

(** The replacement made when there is nothing to export. *)
Definition withSampleData (env : Env) (doc : ExportDoc) : ExportDoc :=
  let sampleData := generateSampleData env in
  mkExportDoc (ex_version doc) (ex_deviceId doc) (ex_exportTime doc)
    (ex_userId doc) (ex_username doc)
    ["publicQuestions"; "personalQuestions"]
    (mkExportStats (Some (length (fst sampleData))) (Some (length (snd sampleData)))
       (st_mistakes (ex_stats doc))
       (length (fst sampleData) + length (snd sampleData))%nat)
    (Some (fst sampleData)) (Some (snd sampleData))
    (ex_mistakeBank doc) (ex_studyStats doc) (ex_deviceInfo doc) true.

Definition nothingToExport (doc : ExportDoc) : bool :=
  (length (ex_dataTypes doc) =? 0)%nat
  || (st_totalQuestions (ex_stats doc) =? 0)%nat.

Definition exportData (opts : ExportOptions) (deviceId : string) (env : Env)
    (win : option App) : outcome ExportDoc :=
  match win with
  | None => Err "应用实例未找到"
  | Some app =>
      match currentUser app with
      | None => Err "请先登录后再导出数据"
      | Some u =>
          let exportData := collect opts deviceId env app u in
          Ok (if nothingToExport exportData
              then withSampleData env exportData
              else exportData)
      end
  end.

End SyncManager.

(** ** CrossDeviceSync, final version *)
Module CrossDeviceSyncFinal.

Record DataDoc := mkDataDoc {
  data_publicQuestions : value Item;
  data_personalQuestions : value Item;
  data_mistakeBank : value Item;
  data_studyStats : statsField
}.

Inductive dataField :=
| DPrim (p : jsprim)
| DObj (d : DataDoc).

(** [doc_dataTypes] is carried by a document but never read here. *)
Record SyncDoc := mkSyncDoc {
  doc_version : jsprim;
  doc_deviceId : jsprim;
  doc_exportTime : jsprim;
  doc_dataTypes : value jsprim;
  doc_data : dataField
}.

Definition dataTruthy (f : dataField) : bool :=
  match f with
  | DPrim p => truthy p
  | DObj _ => true
  end.

Definition validateSyncData (data : parsed SyncDoc) : bool :=
  match data with
  | ParsedPrim _ => false
  | ParsedObject d =>
      if negb (truthy (doc_deviceId d)) || negb (truthy (doc_exportTime d))
         || negb (dataTruthy (doc_data d))
      then false
      else
        match doc_data d with
        | DPrim _ => false
        | DObj dd =>
            forallb (λ field : value Item, negb (isTruthy field && negb (isArray field)))
              [data_publicQuestions dd; data_personalQuestions dd;
               data_mistakeBank dd]
        end
  end.

(** The common body of [mergePublicQuestions], [mergePersonalQuestions]
    and [mergeMistakeBank]: the bank afterwards and the count returned. *)
Definition mergeBank (newItems : list Item) (bank : option (list Item))
  : option (list Item) * nat :=
  match bank with
  | None => (None, 0%nat)
  | Some current =>
      let toAdd := absentBy id newItems current in
      (Some (current ++ toAdd), length toAdd)
  end.

Definition mergePublicQuestions (newQuestions : list Item) (app : App) : App * nat :=
  let '(bank, n) := mergeBank newQuestions (publicQuestionBank app) in
  (mkApp (currentUser app) bank (personalQuestionBank app) (mistakeBank app)
     (studyStats app) (syncStatus app) (lastSyncTime app), n).

Definition mergePersonalQuestions (newQuestions : list Item) (app : App) : App * nat :=
  let '(bank, n) := mergeBank newQuestions (personalQuestionBank app) in
  (mkApp (currentUser app) (publicQuestionBank app) bank (mistakeBank app)
     (studyStats app) (syncStatus app) (lastSyncTime app), n).

Definition mergeMistakeBank (newMistakes : list Item) (app : App) : App * nat :=
  let '(bank, n) := mergeBank newMistakes (mistakeBank app) in
  (mkApp (currentUser app) (publicQuestionBank app) (personalQuestionBank app) bank
     (studyStats app) (syncStatus app) (lastSyncTime app), n).

(** [mergeStudyStats(importedStats)]: the application afterwards and
    whether the call threw.  Exam records are keyed by [date]. *)
Definition mergeStudyStats (importedStats : StatsDoc) (app : App) : App * bool :=
  match studyStats app with
  | None => (app, false)
  | Some appStats =>
      let merged := mergeCounters appStats importedStats in
      let '(stats, threw) :=
        match sd_examRecords importedStats with
        | VArray records =>
            match examRecords merged with
            | Some existing =>
                (with_examRecords
                   (Some (existing ++ absentBy date records existing)) merged, false)
            | None => (merged, true)
            end
        | _ => (merged, false)
        end in
      (mkApp (currentUser app) (publicQuestionBank app) (personalQuestionBank app)
         (mistakeBank app) (Some stats) (syncStatus app) (lastSyncTime app), threw)
  end.

Record ImportStats := mkImportStats {
  is_publicQuestions : nat;
  is_personalQuestions : nat;
  is_mistakes : nat;
  is_studyStats : bool
}.

Definition mergeIf (merge : list Item → App → App * nat) (field : value Item)
    (app : App) : App * nat :=
  match field with
  | VArray items => merge items app
  | _ => (app, 0%nat)
  end.

(** The body of [reader.onload] once the document passed validation. *)
Definition importInto (dd : DataDoc) (app0 : App) : outcome ImportStats * App :=
  let '(app1, nPub) := mergeIf mergePublicQuestions (data_publicQuestions dd) app0 in
  let '(app2, nPer) := mergeIf mergePersonalQuestions (data_personalQuestions dd) app1 in
  let '(app3, nMis) := mergeIf mergeMistakeBank (data_mistakeBank dd) app2 in
  match data_studyStats dd with
  | SObj s =>
      let '(app4, threw) := mergeStudyStats s app3 in
      if threw then (Err "TypeError", app4)
      else (Ok (mkImportStats nPub nPer nMis true), app4)
  | SPrim p =>
      (Ok (mkImportStats nPub nPer nMis (truthy p)), app3)
  end.

(** [importSyncData(file)]; [fileAPI] is [supportedMethods.fileAPI]. *)
Definition importSyncData (fileAPI : bool) (file : File SyncDoc) (win : option App)
  : outcome ImportStats * option App :=
  if negb fileAPI then (Err "当前浏览器不支持文件导入功能", win)
  else
    match win with
    | None => (Err "应用未初始化", win)
    | Some app =>
        if negb (endsWith (toLowerCase (fileName file)) ".json")
        then (Err "请选择正确的同步数据文件（.json格式）", win)
        else if 20 * 1024 * 1024 <? fileSize file
        then (Err "文件过大，请选择小于20MB的同步数据文件", win)
        else
          match fileText file with
          | EmptyText => (Err "文件内容读取失败", win)
          | BadJson => (Err "SyntaxError", win)
          | Json data =>
              if negb (validateSyncData data)
              then (Err "同步数据格式不正确或已损坏", win)
              else
                match data with
                | ParsedObject d =>
                    match doc_data d with
                    | DObj dd =>
                        let '(r, app') := importInto dd app in (r, Some app')
                    | DPrim _ => (Err "同步数据格式不正确或已损坏", win)
                    end
                | ParsedPrim _ => (Err "同步数据格式不正确或已损坏", win)
                end
          end
    end.

End CrossDeviceSyncFinal.

(** ** CrossDeviceSync, original version (cross-device-sync.js)

    Its documents are read as [exportSyncData] writes them: a collection
    is an array or is not there. *)
Module CrossDeviceSync.

Record SyncData := mkSyncData {
  doc_deviceId : jsprim;
  doc_exportTime : jsprim;
  doc_publicQuestions : option (list Item);
  doc_personalQuestions : option (list Item);
  doc_mistakeBank : option (list Item);
  doc_studyStats : option StatsDoc
}.

(** [field && field.length > 0]. *)
Definition nonEmpty (field : option (list Item)) : option (list Item) :=
  match field with
  | Some (x :: xs) => Some (x :: xs)
  | _ => None
  end.

(** [mergePublicQuestions(newQuestions)] with [window.app] present;
    [None] when reading the bank throws. *)
Definition mergePublicQuestions (newQuestions : list Item) (app : App) : option App :=
  match publicQuestionBank app with
  | None => None
  | Some currentQuestions =>
      let newQuestionsToAdd := absentBy id newQuestions currentQuestions in
      Some (mkApp (currentUser app) (Some (currentQuestions ++ newQuestionsToAdd))
              (personalQuestionBank app) (mistakeBank app) (studyStats app)
              (syncStatus app) (lastSyncTime app))
  end.

(** [mergeUserData(newUserData)], used for queued sync records. *)
Definition mergeUserData (newMistakes : option (list Item))
    (newExamRecords : option (list Item)) (app : App) : option App :=
  match
    match newMistakes with
    | Some ms =>
        match mistakeBank app with
        | Some current => Some (Some (current ++ absentBy id ms current))
        | None => None
        end
    | None => Some (mistakeBank app)
    end
  with
  | None => None
  | Some mistakes =>
      match newExamRecords with
      | Some rs =>
          match studyStats app with
          | Some st =>
              match examRecords st with
              | Some current =>
                  Some (mkApp (currentUser app) (publicQuestionBank app)
                          (personalQuestionBank app) mistakes
                          (Some (with_examRecords
                                   (Some (current ++ absentBy date rs current)) st))
                          (syncStatus app) (lastSyncTime app))
              | None => None
              end
          | None => None
          end
      | None =>
          Some (mkApp (currentUser app) (publicQuestionBank app)
                  (personalQuestionBank app) mistakes (studyStats app)
                  (syncStatus app) (lastSyncTime app))
      end
  end.

(** [bank.push(...items)]; [None] when the bank is not there. *)
Definition pushAll (items : list Item) (bank : option (list Item))
  : option (option (list Item)) :=
  match bank with
  | Some current => Some (Some (current ++ items))
  | None => None
  end.

(** The three blocks of [importSyncData] with [window.app] present. *)
Definition importInto (data : SyncData) (app0 : App) : outcome unit * App :=
  match
    match nonEmpty (doc_publicQuestions data) with
    | Some qs => mergePublicQuestions qs app0
    | None => Some app0
    end
  with
  | None => (Err "TypeError", app0)
  | Some app1 =>
      match
        match nonEmpty (doc_personalQuestions data) with
        | Some qs => pushAll qs (personalQuestionBank app1)
        | None => Some (personalQuestionBank app1)
        end
      with
      | None => (Err "TypeError", app1)
      | Some personal =>
          let app2 :=
            mkApp (currentUser app1) (publicQuestionBank app1) personal
              (mistakeBank app1) (studyStats app1) (syncStatus app1)
              (lastSyncTime app1) in
          match
            match nonEmpty (doc_mistakeBank data) with
            | Some ms => pushAll ms (mistakeBank app2)
            | None => Some (mistakeBank app2)
            end
          with
          | None => (Err "TypeError", app2)
          | Some mistakes =>
              (Ok tt,
               mkApp (currentUser app2) (publicQuestionBank app2)
                 (personalQuestionBank app2) mistakes (studyStats app2)
                 (syncStatus app2) (lastSyncTime app2))
          end
      end
  end.

(** [importSyncData(file)], from the text of the file. *)
Definition importSyncData (text : content SyncData) (win : option App)
  : outcome unit * option App :=
  match text with
  | EmptyText | BadJson => (Err "SyntaxError", win)
  | Json (ParsedPrim PNull) => (Err "TypeError", win)
  | Json (ParsedPrim _) => (Ok tt, win)
  | Json (ParsedObject data) =>
      match win with
      | Some app => let '(r, app') := importInto data app in (r, Some app')
      | None => (Ok tt, None)
      end
  end.

End CrossDeviceSync.

(** ** Data used by the examples *)

(** The four collections an import can add to. *)
Definition collections (win : option App)
  : option (option (list Item) * option (list Item) * option (list Item)
            * option (list Item)) :=
  match win with
  | Some app =>
      Some (publicQuestionBank app, personalQuestionBank app, mistakeBank app,
            match studyStats app with
            | Some st => examRecords st
            | None => None
            end)
  | None => None
  end.

Definition question (key : string) : Item :=
  mkItem (PStr key) PUndefined [("content", FStr "2 + 2 = ?"); ("answer", FStr "4")].

(** A logged-in application with empty banks. *)
Definition emptyApp : App :=
  mkApp (Some (mkUser (PNum 7) "ann")) (Some []) (Some []) (Some [])
    (Some (mkStudyStats (PNum 0) (PNum 0) (PNum 0) (Some []))) "idle" None.

(** A SyncManager document whose [dataTypes] is the number 0. *)
Definition zeroTypesFile : File SyncManager.ImportDoc :=
  mkFile "data.json" 200
    (Json (ParsedObject
             (SyncManager.mkImportDoc (PStr "1.0.0") (PStr "2024-01-01T00:00:00.000Z")
                (PStr "device_1") (VPrim (PNum 0))
                (VArray [question "q1"]) (VPrim PUndefined) (VPrim PUndefined)
                (SPrim PUndefined)))).

(** A SyncManager document without a device id. *)
Definition noDeviceFile : File SyncManager.ImportDoc :=
  mkFile "data.json" 200
    (Json (ParsedObject
             (SyncManager.mkImportDoc (PStr "1.0.0") (PStr "2024-01-01T00:00:00.000Z")
                PUndefined (VArray [PStr "publicQuestions"])
                (VArray [question "q1"]) (VPrim PUndefined) (VPrim PUndefined)
                (SPrim PUndefined)))).

(** A CrossDeviceSync document whose [dataTypes] names no known type. *)
Definition bogusTypesFile : File CrossDeviceSyncFinal.SyncDoc :=
  mkFile "sync.json" 200
    (Json (ParsedObject
             (CrossDeviceSyncFinal.mkSyncDoc (PStr "1.0.0") (PStr "device_1")
                (PStr "2024-01-01T00:00:00.000Z") (VArray [PStr "bogus"])
                (CrossDeviceSyncFinal.DObj
                   (CrossDeviceSyncFinal.mkDataDoc (VArray [question "q1"])
                      (VPrim PUndefined) (VPrim PUndefined) (SPrim PUndefined)))))).

(** A document of the original script with one personal question. *)
Definition onePersonalQuestion : content CrossDeviceSync.SyncData :=
  Json (ParsedObject
          (CrossDeviceSync.mkSyncData (PStr "device_1") (PStr "2024-01-01T00:00:00.000Z")
             None (Some [question "q1"]) None None)).

Definition sampleEnv : SyncManager.Env :=
  SyncManager.mkEnv 1700000000000 "2023-11-14T22:13:20.000Z"
    (SyncManager.mkDeviceInfo "Mozilla/5.0" "1920x1080" "zh-CN" "Linux x86_64").

End Sync.




(** * Files between devices

    What one device writes and the other reads, and the bookkeeping of the
    final CrossDeviceSync in [localStorage]. *)
Module SyncOps.
Import Sync.

(** ** A document written with [JSON.stringify] and read with [JSON.parse]

    A property that is not there is left out and reads as undefined; records
    and numbers come back as they were. *)

Definition writtenBank (bank : option (list Item)) : value Item :=
  match bank with
  | Some items => VArray items
  | None => VPrim PUndefined
  end.

Definition writtenStats (st : StudyStats) : StatsDoc :=
  mkStatsDoc (totalQuestions st) (correctAnswers st) (totalStudyTime st)
    (writtenBank (examRecords st)).

(** The file of [SyncManager.exportData] as [SyncManager.importData] parses
    it. *)
Definition writtenExport (doc : SyncManager.ExportDoc) : SyncManager.ImportDoc :=
  SyncManager.mkImportDoc
    (PStr (SyncManager.ex_version doc)) (PStr (SyncManager.ex_exportTime doc))
    (PStr (SyncManager.ex_deviceId doc))
    (VArray (map PStr (SyncManager.ex_dataTypes doc)))
    (writtenBank (SyncManager.ex_publicQuestions doc))
    (writtenBank (SyncManager.ex_personalQuestions doc))
    (writtenBank (SyncManager.ex_mistakeBank doc))
    (match SyncManager.ex_studyStats doc with
     | Some st => SObj (writtenStats st)
     | None => SPrim PUndefined
     end).

(** ** The final CrossDeviceSync: export *)

(** The filter of [removeDuplicateQuestions], [seen] being the ids met so
    far: a record without a truthy id is dropped, and so is one whose id was
    met before. *)
Fixpoint keepFirst (seen : list jsprim) (questions : list Item) : list Item :=
  match questions with
  | [] => []
  | question :: rest =>
      if negb (truthy (id question)) then keepFirst seen rest
      else if bool_decide (id question ∈ seen)
      then keepFirst (id question :: seen) rest
      else question :: keepFirst (id question :: seen) rest
  end.

(** [removeDuplicateQuestions(questions)] for an array. *)
Definition removeDuplicateQuestions (questions : list Item) : list Item :=
  keepFirst [] questions.

(** [Array.isArray(bank) ? [...bank] : []]. *)
Definition bankOrEmpty (bank : option (list Item)) : list Item := default [] bank.

(** The statistics written when the application has none. *)
Definition noStats : StudyStats := mkStudyStats (PNum 0) (PNum 0) (PNum 0) (Some []).

Record ExportCounts := mkExportCounts {
  publicQuestionCount : nat;
  personalQuestionCount : nat;
  mistakeCount : nat
}.

(** [exportSyncData()]: the document of the file as a reader parses it
    and the counts of its [metadata]; [size] is the length of the JSON
    text.  An error thrown while the text is made is wrapped once more. *)
Definition exportSyncData (fileAPI : bool) (deviceId exportTime : string) (size : Z)
    (win : option App) : outcome (CrossDeviceSyncFinal.SyncDoc * ExportCounts) :=
  if negb fileAPI then Err "当前浏览器不支持文件导出功能"
  else
    match win with
    | None => Err "应用未初始化"
    | Some app =>
        let uniquePublicQuestions :=
          removeDuplicateQuestions (bankOrEmpty (publicQuestionBank app)) in
        let uniquePersonalQuestions :=
          removeDuplicateQuestions (bankOrEmpty (personalQuestionBank app)) in
        let uniqueMistakes := removeDuplicateQuestions (bankOrEmpty (mistakeBank app)) in
        let stats := default noStats (studyStats app) in
        if 20 * 1024 * 1024 <? size
        then Err "数据序列化失败: 导出数据过大，请减少题目数量后重试"
        else
          Ok (CrossDeviceSyncFinal.mkSyncDoc (PStr "1.0.0") (PStr deviceId)
                (PStr exportTime) (VPrim PUndefined)
                (CrossDeviceSyncFinal.DObj
                   (CrossDeviceSyncFinal.mkDataDoc
                      (VArray uniquePublicQuestions) (VArray uniquePersonalQuestions)
                      (VArray uniqueMistakes) (SObj (writtenStats stats)))),
              mkExportCounts (length uniquePublicQuestions)
                (length uniquePersonalQuestions) (length uniqueMistakes))
    end.

(** ** The final CrossDeviceSync: the sync history in [localStorage] *)

Record SyncStatus := mkSyncStatus {
  ss_type : string;
  ss_timestamp : Z;
  ss_success : bool;
  ss_deviceId : string;
  ss_error : option string;
  ss_stats : option CrossDeviceSyncFinal.ImportStats
}.

(** The item [syncHistory] as [JSON.parse] reads it: not there (or
    empty), an array, or anything else (text that does not parse, or a
    value that is no array). *)
Inductive StoredHistory :=
| HistoryAbsent
| HistoryArray (history : list SyncStatus)
| HistoryOther.

Record Storage := mkStorage {
  syncHistory : StoredHistory;
  storedLastSyncTime : option string
}.

(** One call of [updateSyncStatus]: its arguments and the clock. *)
Record StatusCall := mkStatusCall {
  call_type : string;
  call_success : bool;
  call_errorMessage : option string;
  call_stats : option CrossDeviceSyncFinal.ImportStats;
  call_timestamp : Z;
  call_isoTime : string
}.

Definition statusOf (deviceId : string) (c : StatusCall) : SyncStatus :=
  mkSyncStatus (call_type c) (call_timestamp c) (call_success c) deviceId
    (match call_errorMessage c with
     | Some e => if bool_decide (e = "") then None else Some e
     | None => None
     end)
    (call_stats c).

(** [updateSyncStatus]: the new status goes to the front and the first
    ten entries are kept; when the stored history cannot be used the error
    is caught and nothing is written. *)
Definition updateSyncStatus (deviceId : string) (c : StatusCall) (s : Storage) : Storage :=
  let status := statusOf deviceId c in
  match syncHistory s with
  | HistoryAbsent => mkStorage (HistoryArray (take 10 [status])) (Some (call_isoTime c))
  | HistoryArray history =>
      mkStorage (HistoryArray (take 10 (status :: history))) (Some (call_isoTime c))
  | HistoryOther => s
  end.

(** The entries [updateSyncStatus] reads from the stored history. *)
Definition storedEntries (s : Storage) : list SyncStatus :=
  match syncHistory s with
  | HistoryArray history => history
  | _ => []
  end.

(** [updateSyncStatus] called once per element of [calls], in order. *)
Definition updateAll (deviceId : string) (calls : list StatusCall) (s : Storage) : Storage :=
  foldl (λ acc c, updateSyncStatus deviceId c acc) s calls.

(** A bank with two questions of one id and one without id. *)
Definition untidyApp : App :=
  mkApp (Some (mkUser (PNum 7) "ann"))
    (Some [question "q1"; question "q1"; mkItem PUndefined PUndefined []; question "q2"])
    (Some []) (Some []) (Some (mkStudyStats (PNum 4) (PNum 3) (PNum 60) (Some [])))
    "idle" None.

(** ** The files as they are downloaded

    A download carries the name the script gives it and the text of the
    document; [bytes] is the size of that text as the file stores it, in
    UTF-8. *)

(** [iso.split('T')[0]]. *)
Fixpoint datePart (iso : string) : string :=
  match iso with
  | EmptyString => EmptyString
  | String c rest => if bool_decide (c = "T"%char) then EmptyString
                     else String c (datePart rest)
  end.

(** The file of [SyncManager.exportData]. *)
Definition exportedFile (doc : SyncManager.ExportDoc) (env : SyncManager.Env) (bytes : Z)
  : File SyncManager.ImportDoc :=
  mkFile (((("smart_exam_data_" +:+ SyncManager.ex_username doc) +:+ "_")
           +:+ datePart (SyncManager.isoTime env)) +:+ ".json")
    bytes (Json (ParsedObject (writtenExport doc))).

(** The file of [exportSyncData]. *)
Definition syncFile (deviceId exportTime : string) (bytes : Z)
    (doc : CrossDeviceSyncFinal.SyncDoc) : File CrossDeviceSyncFinal.SyncDoc :=
  mkFile (((("smart_exam_sync_" +:+ deviceId) +:+ "_") +:+ datePart exportTime)
          +:+ ".json")
    bytes (Json (ParsedObject doc)).

End SyncOps.

(** * The other operations of the mistake book

    The virtual properties and the statics of models/MistakeBook.js that
    read, delete or archive documents, and a review session: a run of
    [recordReview] calls on one document with outcomes of either kind. *)
Module MistakeBookOps.
Import MistakeBook.

(** ** Virtual properties *)

(** [isDueForReview]: an invalid date compares false. *)
Definition isDueForReview (now : Z) (m : MistakeRecord) : bool :=
  match nextReviewDate (reviewInfo m) with
  | ValidDate t => t <=? now
  | InvalidDate => false
  end.


(** [reviewIntervalDays]; [None] stands for the NaN an invalid date gives. *)
Definition reviewIntervalDays (now : Z) (m : MistakeRecord) : option Z :=
  match nextReviewDate (reviewInfo m) with
  | ValidDate nextReview =>
      let diffTime := nextReview - now in
      let diffDays :=
        Double.ceil (Double.div (inject_Z diffTime) (inject_Z (1000 * 60 * 60 * 24))) in
      Some (Z.max 0 diffDays)
  | InvalidDate => None
  end.

(** ** Statics *)

Definition with_viewCount (v : Z) (m : MistakeRecord) : MistakeRecord :=
  let md := metadata m in
  with_metadata (mkMetadata (isArchived md) (archiveDate md) (isPublic md) v) m.

(** [getMistakeById]: the view is counted and the document saved.  The
    question and the exam record the document refers to are taken to exist,
    so that [populate] fills them. *)
Definition getMistakeById (now : Z) (store : list MistakeRecord) (mistakeId userId : Z)
  : outcome (list MistakeRecord * MistakeRecord) :=
  match findById store mistakeId userId with
  | None => Err "获取错题详情失败: 错题记录不存在"
  | Some (i, mistake) =>
      let m := preSave now (with_viewCount (viewCount (metadata mistake) + 1) mistake) in
      Ok (<[i := m]> store, m)
  end.

(** [deleteMistake]: the collection after [deleteOne]. *)
Definition deleteMistake (store : list MistakeRecord) (mistakeId userId : Z)
  : outcome (list MistakeRecord) :=
  match findById store mistakeId userId with
  | None => Err "删除错题记录失败: 错题记录不存在"
  | Some (i, _) => Ok (delete i store)
  end.

(** The filter of [deleteMany] and [updateMany]:
    [{ _id: { $in: mistakeIds }, user: userId }]. *)
Definition selected (mistakeIds : list Z) (userId : Z) (m : MistakeRecord) : Prop :=
  _id m ∈ mistakeIds ∧ user m = userId.

#[global] Instance selected_dec mistakeIds userId m :
  Decision (selected mistakeIds userId m).
Proof. unfold selected. apply _. Defined.

(** [deleteMistakes]: the collection afterwards and [deletedCount]. *)
Definition deleteMistakes (store : list MistakeRecord) (mistakeIds : list Z) (userId : Z)
  : list MistakeRecord * nat :=
  (filter (λ m, ¬ selected mistakeIds userId m) store,
   length (filter (selected mistakeIds userId) store)).

(** The three assignments of an archive. *)
Definition archived (now : Z) (m : MistakeRecord) : MistakeRecord :=
  with_reviewStatus mastered (archive now m).

(** [archiveMistake]: the document is archived, then saved. *)
Definition archiveMistake (now : Z) (store : list MistakeRecord) (mistakeId userId : Z)
  : outcome (list MistakeRecord) :=
  match findById store mistakeId userId with
  | None => Err "归档错题失败: 错题记录不存在"
  | Some (i, mistake) => Ok (<[i := preSave now (archived now mistake)]> store)
  end.

(** What [updateMany] writes to a selected document: the three fields of
    [$set] and, the schema having [timestamps] on, the modification time. *)
Definition bulkArchived (now : Z) (m : MistakeRecord) : MistakeRecord :=
  with_updatedAt now (archived now m).

(** [archiveMistakes]: [updateMany] runs no save hook.  The collection
    afterwards and [modifiedCount], the number of selected documents the
    update changed. *)
Definition archiveMistakes (now : Z) (store : list MistakeRecord) (mistakeIds : list Z)
    (userId : Z) : list MistakeRecord * nat :=
  (map (λ m, if decide (selected mistakeIds userId m) then bulkArchived now m else m) store,
   length (filter (λ m, selected mistakeIds userId m
                        ∧ ¬ (isArchived (metadata m) = true
                             ∧ archiveDate (metadata m) = Some now
                             ∧ reviewStatus m = mastered
                             ∧ updatedAt m = now)) store)).

(** The filter of [getDueForReview]. *)
Definition dueFor (now userId : Z) (m : MistakeRecord) : Prop :=
  user m = userId ∧ isArchived (metadata m) = false ∧ isDueForReview now m = true.

#[global] Instance dueFor_dec now userId m : Decision (dueFor now userId m).
Proof. unfold dueFor. apply _. Defined.

Definition dateBefore (a b : JsDate) : bool :=
  match a, b with
  | ValidDate x, ValidDate y => x <? y
  | _, _ => false
  end.

(** [a] comes strictly before [b] under
    [{ importance: -1, 'reviewInfo.nextReviewDate': 1 }]. *)
Definition dueBefore (a b : MistakeRecord) : bool :=
  (importance b <? importance a)
  || ((importance a =? importance b)
      && dateBefore (nextReviewDate (reviewInfo a)) (nextReviewDate (reviewInfo b))).

Fixpoint insertDue (m : MistakeRecord) (sorted : list MistakeRecord)
  : list MistakeRecord :=
  match sorted with
  | [] => [m]
  | x :: rest => if dueBefore x m then x :: insertDue m rest else m :: x :: rest
  end.

(** [limit(n)]: 0 means no limit. *)
Definition limitTo {A : Type} (n : nat) (l : list A) : list A :=
  match n with
  | O => l
  | _ => take n l
  end.

(** [getDueForReview(userId, limit)]. *)
Definition getDueForReview (now : Z) (store : list MistakeRecord) (userId : Z)
    (limit : nat) : list MistakeRecord :=
  limitTo limit (foldr insertDue [] (filter (dueFor now userId) store)).

(** The three counts of [getMistakeStats] and the rate made of them. *)
Record MistakeCounts := mkMistakeCounts {
  dueForReviewCount : nat;
  totalCount : nat;
  masteredCount : nat;
  masteryRate : Z
}.

Definition getMistakeCounts (now : Z) (store : list MistakeRecord) (userId : Z)
  : MistakeCounts :=
  let dueForReviewCount := length (filter (dueFor now userId) store) in
  let totalCount :=
    length (filter (λ m, user m = userId ∧ isArchived (metadata m) = false) store) in
  let masteredCount :=
    length (filter (λ m, user m = userId ∧ isArchived (metadata m) = true) store) in
  mkMistakeCounts dueForReviewCount totalCount masteredCount
    (if (0 <? totalCount)%nat
     then percent (Z.of_nat masteredCount) (Z.of_nat (totalCount + masteredCount))
     else 0).

(** ** A review session *)

(** [recordReview] called once per event, a clock reading and an outcome. *)
Fixpoint reviewSession (zone : Zone) (events : list (Z * bool))
    (store : list MistakeRecord) (mistakeId userId : Z) : outcome (list MistakeRecord) :=
  match events with
  | [] => Ok store
  | (now, isCorrect) :: rest =>
      match recordReview zone now store mistakeId userId isCorrect with
      | Err e => Err e
      | Ok (store', _) => reviewSession zone rest store' mistakeId userId
      end
  end.

(** The document after the events of a session. *)
Definition sessionResult (zone : Zone) (events : list (Z * bool)) (m : MistakeRecord)
  : MistakeRecord :=
  foldl (λ acc ev, reviewed zone (fst ev) (snd ev) acc) m events.

(** The counters of a record are in order: not more correct attempts than
    attempts, and at least one attempt. *)
Definition countersInOrder (m : MistakeRecord) : Prop :=
  0 <= correctAttempts (errorStats m) <= totalAttempts (errorStats m)
  ∧ 0 < totalAttempts (errorStats m).

(** Level and streak as every review leaves them. *)
Definition levelInRange (m : MistakeRecord) : Prop :=
  1 <= masteryLevel m <= 5 ∧ 0 <= consecutiveCorrect (reviewInfo m) <= 2.

(** No two documents share an id. *)
Definition uniqueIds (store : list MistakeRecord) : Prop :=
  ∀ i j a b, store !! i = Some a → store !! j = Some b → _id a = _id b → i = j.

(** [a] may stand before [b] in a list sorted by
    [{ importance: -1, 'reviewInfo.nextReviewDate': 1 }]. *)
Definition dueOrder (a b : MistakeRecord) : Prop := dueBefore b a = false.

(** The same in numbers: [b] is not more important than [a], and with equal
    importance it is not due earlier. *)
Definition notAfter (a b : MistakeRecord) : Prop :=
  importance b <= importance a
  ∧ (importance a = importance b →
     ∀ ta tb, nextReviewDate (reviewInfo a) = ValidDate ta →
              nextReviewDate (reviewInfo b) = ValidDate tb → ta <= tb).

End MistakeBookOps.


(** * Stored exam records

    The statics of models/ExamRecord.js that look a record up, change it
    or delete it.  A stored document carries its id and the [review] block
    beside the paths of the save hook. *)
Module ExamRecordOps.
Import ExamRecord.

(** [analysis.typePerformance[type]]. *)
Definition perfOf (t : TypePerformance) (ty : string) : option TypePerf :=
  if bool_decide (ty = "single") then Some (single t)
  else if bool_decide (ty = "multiple") then Some (multiple t)
  else if bool_decide (ty = "judge") then Some (judge t)
  else if bool_decide (ty = "fill") then Some (fill t)
  else if bool_decide (ty = "essay") then Some (essay t)
  else None.

Record Review := mkReview {
  reviewedAt : option Z;
  reviewNotes : string;
  reviewCount : Z
}.

Record ExamDoc := mkExamDoc {
  _id : Z;
  record : ExamRecord;
  review : Review
}.

Definition with_record (r : ExamRecord) (d : ExamDoc) : ExamDoc :=
  mkExamDoc (_id d) r (review d).

Definition with_review (r : Review) (d : ExamDoc) : ExamDoc :=
  mkExamDoc (_id d) (record d) r.

Definition with_shareCode (c : option string) (d : ExamDoc) : ExamDoc :=
  let s := sharing (record d) in
  with_record (with_sharing (mkSharing (isPublic s) c (viewCount s)) (record d)) d.

Definition with_viewCount (v : Z) (d : ExamDoc) : ExamDoc :=
  let s := sharing (record d) in
  with_record (with_sharing (mkSharing (isPublic s) (shareCode s) v) (record d)) d.

(** [record.save()]: the save hook runs with the random draws [picks]. *)
Definition save (picks : list nat) (d : ExamDoc) : ExamDoc :=
  with_record (preSave picks (record d)) d.

(** [!record.sharing.shareCode]: no code, or the empty string. *)
Definition noShareCode (d : ExamDoc) : bool :=
  negb (bool_decide (is_Some (shareCode (sharing (record d)))
                     ∧ shareCode (sharing (record d)) ≠ Some "")).

(** [findById(recordId)]. *)
Definition findById (store : list ExamDoc) (recordId : Z) : option (nat * ExamDoc) :=
  list_find (λ d, _id d = recordId) store.




(** The query of [getExamRecordById]: with a user id the record must be
    the user's own or public, without one it must be public. *)
Definition visibleTo (recordId : Z) (userId : option Z) (d : ExamDoc) : Prop :=
  _id d = recordId
  ∧ match userId with
    | Some u => user (record d) = u ∨ isPublic (sharing (record d)) = true
    | None => isPublic (sharing (record d)) = true
    end.

#[global] Instance visibleTo_dec recordId userId d : Decision (visibleTo recordId userId d).
Proof. unfold visibleTo. destruct userId; apply _. Defined.

(** [getExamRecordById(recordId, userId = null)]; the owner of the record
    is taken to exist, so that [populate] fills [record.user].  A view by
    somebody else is counted and saved; the owner's own is not. *)
Definition getExamRecordById (picks : list nat) (store : list ExamDoc)
    (recordId : Z) (userId : option Z) : outcome (list ExamDoc * ExamDoc) :=
  match list_find (visibleTo recordId userId) store with
  | None => Err "获取考试记录失败: 考试记录不存在"
  | Some (i, d) =>
      match userId with
      | Some u =>
          if bool_decide (u ≠ user (record d))
          then let d' := save picks
                           (with_viewCount (viewCount (sharing (record d)) + 1) d) in
               Ok (<[i := d']> store, d')
          else Ok (store, d)
      | None => Ok (store, d)
      end
  end.

(** The argument of [updateExamRecord], as far as the function reads it.
    [up_reviewNotes] is [updateData.review.reviewNotes] and [up_isPublic]
    is [updateData.sharing.isPublic] ([None]: undefined, otherwise its truth
    value).  The function copies the allowed fields, [title] and
    [description] among them, into a local object [update] that it never
    reads again. *)
Record UpdateData := mkUpdateData {
  up_title : option string;
  up_description : option string;
  up_reviewNotes : option string;
  up_isPublic : option bool
}.

(** [updateData.review && updateData.review.reviewNotes]. *)
Definition hasReviewNotes (u : UpdateData) : bool :=
  match up_reviewNotes u with
  | Some s => negb (bool_decide (s = ""))
  | None => false
  end.

(** The review counter goes up when notes are sent. *)
Definition noteReview (now : Z) (u : UpdateData) (d : ExamDoc) : ExamDoc :=
  if hasReviewNotes u
  then with_review (mkReview (Some now) (reviewNotes (review d))
                      (reviewCount (review d) + 1)) d
  else d.

(** A share code is made or cleared; [sharing.isPublic] itself is not
    assigned. *)
Definition adjustShareCode (picks : list nat) (u : UpdateData) (d : ExamDoc) : ExamDoc :=
  match up_isPublic u with
  | None => d
  | Some true =>
      if noShareCode d then with_shareCode (Some (generateShareCode picks)) d else d
  | Some false => with_shareCode None d
  end.

(** [updateExamRecord]; [record.role] is no path of the schema and reads
    as undefined, so the owner alone passes the permission check.
    [picks] are the draws of the call itself, [picks'] those of the save
    hook. *)
Definition updateExamRecord (now : Z) (picks picks' : list nat) (store : list ExamDoc)
    (recordId : Z) (updateData : UpdateData) (userId : Z)
  : outcome (list ExamDoc * ExamDoc) :=
  match findById store recordId with
  | None => Err "更新考试记录失败: 考试记录不存在"
  | Some (i, d) =>
      if bool_decide (user (record d) ≠ userId)
      then Err "更新考试记录失败: 没有权限修改此考试记录"
      else
        let d' := save picks' (adjustShareCode picks updateData (noteReview now updateData d)) in
        Ok (<[i := d']> store, d')
  end.

(** [deleteExamRecord]. *)
Definition deleteExamRecord (store : list ExamDoc) (recordId userId : Z)
  : outcome (list ExamDoc) :=
  match findById store recordId with
  | None => Err "删除考试记录失败: 考试记录不存在"
  | Some (i, d) =>
      if bool_decide (user (record d) ≠ userId)
      then Err "删除考试记录失败: 没有权限删除此考试记录"
      else Ok (delete i store)
  end.

(** The draws [Math.floor(Math.random() * 62)] can give: eight indices
    into the alphabet. *)
Definition validPicks (picks : list nat) : Prop :=
  length picks = 8%nat ∧ Forall (λ i, (i < 62)%nat) picks.

(** A stored exam used by the examples. *)
Definition sampleDoc (public : bool) (code : option string) : ExamDoc :=
  mkExamDoc 1
    (with_sharing (mkSharing public code 0) sampleExam)
    (mkReview None "" 0).

End ExamRecordOps.

(** * Properties of double-precision rounding

    Rounding never crosses a double: a value on one side of a double stays
    on that side.  It follows that a share of a whole, as a percentage, lies
    between 0 and 100. *)
Module DoubleSpec.
Import Double.
Local Open Scope Q_scope.

Lemma pow2_pos e : 0 < pow2 e.
Proof. apply Qpower_0_lt. reflexivity. Qed.

Lemma pow2_plus a b : pow2 (a + b) == pow2 a * pow2 b.
Proof. apply Qpower_plus. discriminate. Qed.

Lemma pow2_le a b : (a <= b)%Z -> pow2 a <= pow2 b.
Proof. intros H. apply Qpower_le_compat_l; [exact H | discriminate]. Qed.

Lemma pow2_lt a b : (a < b)%Z -> pow2 a < pow2 b.
Proof. intros H. apply Qpower_lt_compat_l; [exact H | reflexivity]. Qed.

Lemma pow2_lt_inv a b : pow2 a < pow2 b -> (a < b)%Z.
Proof. intros H. apply (Qpower_lt_compat_l_inv 2); [exact H | reflexivity]. Qed.

Lemma pow2_inject e : (0 <= e)%Z -> pow2 e == inject_Z (2 ^ e).
Proof. intros H. unfold pow2. rewrite Zpower_Qpower by exact H. reflexivity. Qed.

Lemma inject_le_pow2 n e : (0 <= e)%Z -> (n <= 2 ^ e)%Z -> inject_Z n <= pow2 e.
Proof. intros He H. rewrite pow2_inject by exact He. rewrite <- Zle_Qle. exact H. Qed.

Lemma inject_lt_pow2 n e : (0 <= e)%Z -> (n < 2 ^ e)%Z -> inject_Z n < pow2 e.
Proof. intros He H. rewrite pow2_inject by exact He. rewrite <- Zlt_Qlt. exact H. Qed.

Lemma pow2_le_inject n e : (0 <= e)%Z -> (2 ^ e <= n)%Z -> pow2 e <= inject_Z n.
Proof. intros He H. rewrite pow2_inject by exact He. rewrite <- Zle_Qle. exact H. Qed.

Lemma ilog2_bounds (n : Z) (d : positive) :
  (0 < n)%Z ->
  let l := (Z.log2 n - Z.log2 (Zpos d))%Z in
  pow2 (l - 1) <= n # d /\ n # d < pow2 (l + 1).
Proof.
  intros Hn l.
  pose proof (Z.log2_spec n Hn) as [Hn1 Hn2].
  pose proof (Z.log2_spec (Zpos d) eq_refl) as [Hd1 Hd2].
  pose proof (Z.log2_nonneg n) as Hln.
  pose proof (Z.log2_nonneg (Zpos d)) as Hld.
  assert (Hd : 0 < inject_Z (Zpos d)) by reflexivity.
  rewrite (Qmake_Qdiv n d).
  split.
  - apply Qle_shift_div_l; [exact Hd|].
    apply Qle_trans with (pow2 (l - 1) * pow2 (Z.log2 (Zpos d) + 1)).
    + apply Qmult_le_l; [apply pow2_pos|].
      apply Qlt_le_weak, inject_lt_pow2; [lia|]. rewrite <- Z.add_1_r in Hd2. exact Hd2.
    + rewrite <- pow2_plus. replace (l - 1 + (Z.log2 (Z.pos d) + 1))%Z with (Z.log2 n) by (unfold l; lia).
      apply pow2_le_inject; [lia | exact Hn1].
  - apply Qlt_shift_div_r; [exact Hd|].
    apply Qlt_le_trans with (pow2 (l + 1) * pow2 (Z.log2 (Zpos d))).
    + rewrite <- pow2_plus. replace (l + 1 + Z.log2 (Z.pos d))%Z with (Z.log2 n + 1)%Z by (unfold l; lia).
      apply inject_lt_pow2; [lia|]. rewrite <- Z.add_1_r in Hn2. exact Hn2.
    + apply Qmult_le_l; [apply pow2_pos|].
      apply pow2_le_inject; [lia | exact Hd1].
Qed.

Lemma ilog2_spec x : 0 < x -> pow2 (ilog2 x) <= x /\ x < pow2 (ilog2 x + 1).
Proof.
  intros Hx. destruct x as [n d].
  assert (Hn : (0 < n)%Z).
  { unfold Qlt in Hx. simpl in Hx. lia. }
  pose proof (ilog2_bounds n d Hn) as [HA HB]. cbv zeta in HA, HB.
  unfold ilog2. cbn [Qnum Qden].
  set (l := (Z.log2 n - Z.log2 (Z.pos d))%Z) in *.
  destruct (Qle_bool (pow2 l) (n # d)) eqn:E.
  - split; [now apply Qle_bool_iff | exact HB].
  - split; [exact HA|].
    replace (l - 1 + 1)%Z with l by lia.
    apply Qnot_le_lt. intros H. apply Qle_bool_iff in H. congruence.
Qed.

Lemma rne_floor x : (Qfloor x <= rne x <= Qfloor x + 1)%Z.
Proof.
  unfold rne. destruct (Qcompare _ _); [destruct (Z.even _)| |]; lia.
Qed.

Lemma rne_le x m : x <= inject_Z m -> (rne x <= m)%Z.
Proof.
  intros H. pose proof (Qfloor_le x) as Hf.
  unfold rne. destruct (Qcompare (x - inject_Z (Qfloor x)) (1 # 2)) eqn:E.
  - apply Qeq_alt in E.
    assert (inject_Z (Qfloor x) < inject_Z m) as Hlt by lra.
    rewrite <- Zlt_Qlt in Hlt. destruct (Z.even _); lia.
  - rewrite Zle_Qle. lra.
  - apply Qgt_alt in E.
    assert (inject_Z (Qfloor x) < inject_Z m) as Hlt by lra.
    rewrite <- Zlt_Qlt in Hlt. lia.
Qed.

Lemma rne_ge x m : inject_Z m <= x -> (m <= rne x)%Z.
Proof.
  intros H. pose proof (Qlt_floor x) as Hf. pose proof (rne_floor x) as Hr.
  assert (inject_Z m < inject_Z (Qfloor x + 1)) as Hlt by lra.
  rewrite <- Zlt_Qlt in Hlt. lia.
Qed.

Lemma rne_nonneg x : 0 <= x -> (0 <= rne x)%Z.
Proof. intros H. apply rne_ge. exact H. Qed.

Lemma scaled_lt x : 0 < x -> x / pow2 (Z.max (ilog2 x - 52) (-1074)) < pow2 53.
Proof.
  intros Hx. destruct (ilog2_spec x Hx) as [_ H2].
  set (e := Z.max _ _).
  apply Qlt_shift_div_r; [apply pow2_pos|].
  rewrite <- pow2_plus.
  apply Qlt_le_trans with (1 := H2). apply pow2_le. lia.
Qed.

Lemma rndPos_eq x :
  rndPos x == inject_Z (rne (x / pow2 (Z.max (ilog2 x - 52) (-1074))))
              * pow2 (Z.max (ilog2 x - 52) (-1074)).
Proof. unfold rndPos. cbv zeta. apply Qred_correct. Qed.

Lemma rndPos_nonneg x : 0 < x -> 0 <= rndPos x.
Proof.
  intros Hx. rewrite rndPos_eq. apply Qmult_le_0_compat.
  - change 0 with (inject_Z 0). rewrite <- Zle_Qle. apply rne_nonneg.
    apply Qle_shift_div_l; [apply pow2_pos|]. lra.
  - apply Qlt_le_weak, pow2_pos.
Qed.

Lemma rndPos_le x c mc ec :
  0 < x -> x <= c -> normal c mc ec -> rndPos x <= c.
Proof.
  intros Hx Hxc (Hc & Hmc & Hec).
  destruct (ilog2_spec x Hx) as [H1 H2].
  pose proof (scaled_lt x Hx) as Hs.
  rewrite rndPos_eq. set (e := Z.max (ilog2 x - 52) (-1074)) in *.
  assert (Hc53 : c < pow2 (53 + ec)).
  { rewrite Hc, pow2_plus. apply Qmult_lt_compat_r; [apply pow2_pos|].
    apply inject_lt_pow2; lia. }
  assert (He : (e <= ec)%Z).
  { assert (ilog2 x < 53 + ec)%Z by (apply pow2_lt_inv; lra). lia. }
  destruct (Z.eq_dec e ec) as [->|Hne].
  - rewrite Hc. apply Qmult_le_compat_r; [|apply Qlt_le_weak, pow2_pos].
    rewrite <- Zle_Qle. apply rne_le.
    apply Qle_shift_div_r; [apply pow2_pos|]. lra.
  - apply Qle_trans with (pow2 53 * pow2 e).
    + apply Qmult_le_compat_r; [|apply Qlt_le_weak, pow2_pos].
      rewrite (pow2_inject 53) by lia. rewrite <- Zle_Qle. apply rne_le.
      rewrite <- (pow2_inject 53) by lia. lra.
    + rewrite <- pow2_plus. apply Qle_trans with (pow2 (52 + ec)); [apply pow2_le; lia|].
      rewrite Hc, pow2_plus. apply Qmult_le_compat_r; [|apply Qlt_le_weak, pow2_pos].
      apply pow2_le_inject; lia.
Qed.

Lemma rndPos_ge x c mc ec :
  0 < x -> c <= x -> normal c mc ec -> c <= rndPos x.
Proof.
  intros Hx Hxc (Hc & Hmc & Hec).
  destruct (ilog2_spec x Hx) as [H1 H2].
  rewrite rndPos_eq. set (e := Z.max (ilog2 x - 52) (-1074)) in *.
  assert (Hc52 : pow2 (52 + ec) <= c).
  { rewrite Hc, pow2_plus. apply Qmult_le_compat_r; [|apply Qlt_le_weak, pow2_pos].
    apply pow2_le_inject; lia. }
  assert (He : (ec <= ilog2 x - 52)%Z).
  { assert (52 + ec < ilog2 x + 1)%Z by (apply pow2_lt_inv; lra). lia. }
  destruct (Z.eq_dec e ec) as [->|Hne].
  - rewrite Hc. apply Qmult_le_compat_r; [|apply Qlt_le_weak, pow2_pos].
    rewrite <- Zle_Qle. apply rne_ge.
    apply Qle_shift_div_l; [apply pow2_pos|]. lra.
  - assert (Hee : e = (ilog2 x - 52)%Z) by lia.
    apply Qle_trans with (pow2 52 * pow2 e).
    + rewrite <- pow2_plus. apply Qle_trans with (pow2 (53 + ec)); [|apply pow2_le; lia].
      rewrite Hc, pow2_plus. apply Qmult_le_compat_r; [|apply Qlt_le_weak, pow2_pos].
      apply Qlt_le_weak, inject_lt_pow2; lia.
    + apply Qmult_le_compat_r; [|apply Qlt_le_weak, pow2_pos].
      rewrite (pow2_inject 52) by lia. rewrite <- Zle_Qle. apply rne_ge.
      rewrite <- (pow2_inject 52) by lia.
      apply Qle_shift_div_l; [apply pow2_pos|].
      rewrite <- pow2_plus. replace (52 + e)%Z with (ilog2 x) by lia. exact H1.
Qed.

Lemma rnd_pos x : 0 < x -> rnd x = rndPos x.
Proof.
  intros Hx. destruct x as [n d]. unfold rnd. cbn [Qnum].
  destruct n; try reflexivity; unfold Qlt in Hx; simpl in Hx; lia.
Qed.

Lemma rnd_zero x : x == 0 -> rnd x = 0.
Proof.
  intros Hx. destruct x as [n d]. unfold rnd. cbn [Qnum].
  unfold Qeq in Hx. simpl in Hx. destruct n; try reflexivity; lia.
Qed.

Lemma rnd_nonneg x : 0 <= x -> 0 <= rnd x.
Proof.
  intros Hx. destruct (Qlt_le_dec 0 x) as [H|H].
  - rewrite rnd_pos by exact H. now apply rndPos_nonneg.
  - rewrite rnd_zero; [lra|]. lra.
Qed.

Lemma rnd_le x c mc ec : 0 <= x -> x <= c -> normal c mc ec -> rnd x <= c.
Proof.
  intros Hx Hxc Hn. destruct (Qlt_le_dec 0 x) as [H|H].
  - rewrite rnd_pos by exact H. now apply (rndPos_le x c mc ec).
  - rewrite rnd_zero; lra.
Qed.

Lemma rnd_ge x c mc ec : c <= x -> normal c mc ec -> c <= rnd x.
Proof.
  intros Hxc Hn.
  assert (Hc : 0 < c).
  { destruct Hn as (Hc & Hmc & _). rewrite Hc.
    apply Qmult_lt_0_compat; [|apply pow2_pos].
    change 0 with (inject_Z 0). rewrite <- Zlt_Qlt. lia. }
  rewrite rnd_pos by lra. apply (rndPos_ge x c mc ec); [lra|exact Hxc|exact Hn].
Qed.

Lemma rnd_nonpos x : x <= 0 -> rnd x <= 0.
Proof.
  intros Hx. destruct (Qlt_le_dec x 0) as [H|H].
  - destruct x as [n d]. unfold rnd. cbn [Qnum].
    assert (n < 0)%Z as Hn by (unfold Qlt in H; simpl in H; lia).
    destruct n as [|p|p]; try lia.
    rewrite Qred_correct.
    assert (0 <= rndPos (- (Z.neg p # d))) by (apply rndPos_nonneg; reflexivity).
    lra.
  - rewrite rnd_zero; lra.
Qed.

Lemma normal_1 : normal 1 (2 ^ 52) (-52).
Proof. split; [reflexivity | split; [split; [reflexivity | reflexivity] | discriminate]]. Qed.

Lemma normal_100 : normal 100 (25 * 2 ^ 48) (-46).
Proof. split; [reflexivity | split; [split; [discriminate | reflexivity] | discriminate]]. Qed.

Lemma round_inject n : round (inject_Z n) = n.
Proof.
  unfold round, Qfloor, inject_Z, Qplus. cbn [Qnum Qden].
  change (Z.pos (1 * 2)) with 2%Z.
  symmetry. apply (Z.div_unique _ 2 n 1); lia.
Qed.

Lemma round_mono x y : x <= y -> (round x <= round y)%Z.
Proof. intros H. apply Qfloor_resp_le. lra. Qed.


Lemma rnd_unit x : 0 <= x -> x <= 1 -> 0 <= rnd x /\ rnd x <= 1.
Proof.
  intros H0 H1. split; [now apply rnd_nonneg|].
  apply (rnd_le x 1 _ _ H0 H1 normal_1).
Qed.

Lemma percent_bounds a b : (0 <= a <= b)%Z -> (0 < b)%Z -> (0 <= percent a b <= 100)%Z.
Proof.
  intros Ha Hb. unfold percent, mul, div.
  assert (Hq : 0 <= inject_Z a / inject_Z b /\ inject_Z a / inject_Z b <= 1).
  { assert (0 < inject_Z b) by (change 0 with (inject_Z 0); rewrite <- Zlt_Qlt; lia).
    assert (0 <= inject_Z a) by (change 0 with (inject_Z 0); rewrite <- Zle_Qle; lia).
    assert (inject_Z a <= inject_Z b) by (rewrite <- Zle_Qle; lia).
    split.
    - apply Qle_shift_div_l; [assumption|]. lra.
    - apply Qle_shift_div_r; [assumption|]. lra. }
  destruct Hq as [Hq0 Hq1].
  destruct (rnd_unit _ Hq0 Hq1) as [Hr0 Hr1].
  set (q := rnd (inject_Z a / inject_Z b)) in *. clearbody q.
  assert (Hp0 : 0 <= rnd (q * 100)) by (apply rnd_nonneg; lra).
  assert (Hp1 : rnd (q * 100) <= 100).
  { eapply (rnd_le _ 100); [lra | lra | exact normal_100]. }
  split.
  - rewrite <- (round_inject 0). apply round_mono. exact Hp0.
  - rewrite <- (round_inject 100). apply round_mono. exact Hp1.
Qed.

Lemma percent_whole b : (0 < b)%Z -> percent b b = 100%Z.
Proof.
  intros Hb. unfold percent, mul, div.
  assert (Hq : inject_Z b / inject_Z b == 1).
  { apply Qmult_inv_r. intros H. 
    assert (0 < inject_Z b) by (change 0 with (inject_Z 0); rewrite <- Zlt_Qlt; lia). lra. }
  assert (H1 : rnd (inject_Z b / inject_Z b) <= 1).
  { eapply (rnd_le _ 1); [lra | lra | exact normal_1]. }
  assert (H2 : 1 <= rnd (inject_Z b / inject_Z b)).
  { eapply (rnd_ge _ 1); [lra | exact normal_1]. }
  set (q := rnd (inject_Z b / inject_Z b)) in *. clearbody q.
  assert (H3 : rnd (q * 100) <= 100).
  { eapply (rnd_le _ 100); [lra | lra | exact normal_100]. }
  assert (H4 : 100 <= rnd (q * 100)).
  { eapply (rnd_ge _ 100); [lra | exact normal_100]. }
  apply Z.le_antisymm.
  - rewrite <- (round_inject 100). apply round_mono. exact H3.
  - rewrite <- (round_inject 100) at 1. apply round_mono. exact H4.
Qed.

Lemma percent_none b : percent 0 b = 0%Z.
Proof. unfold percent, mul, div. destruct b; reflexivity. Qed.

Lemma normal_int n : (0 < n <= 2 ^ 53)%Z -> exists mc ec, normal (inject_Z n) mc ec.
Proof.
  intros Hn.
  destruct (Z.eq_dec n (2 ^ 53)%Z) as [->|Hne].
  - exists (2 ^ 52)%Z, 1%Z. split; [reflexivity | split; [split; reflexivity | discriminate]].
  - pose proof (Z.log2_spec n ltac:(lia)) as [H1 H2].
    pose proof (Z.log2_nonneg n) as H0.
    assert (Z.log2 n < 53)%Z as Hl by (apply Z.log2_lt_pow2; lia).
    set (k := (52 - Z.log2 n)%Z).
    exists (n * 2 ^ k)%Z, (- k)%Z. split; [|split].
    + rewrite inject_Z_mult, <- (pow2_inject k) by (unfold k; lia).
      rewrite <- Qmult_assoc, <- pow2_plus. replace (k + - k)%Z with 0%Z by lia.
      change (pow2 0) with 1. ring.
    + assert (2 ^ 52 = 2 ^ Z.log2 n * 2 ^ k)%Z as E52.
      { rewrite <- Z.pow_add_r by (unfold k; lia). f_equal. unfold k. lia. }
      assert (2 ^ 53 = 2 ^ Z.succ (Z.log2 n) * 2 ^ k)%Z as E53.
      { rewrite <- Z.pow_add_r by (unfold k; lia). f_equal. unfold k. lia. }
      assert (0 < 2 ^ k)%Z by (apply Z.pow_pos_nonneg; unfold k; lia).
      rewrite E52, E53. split; [apply Z.mul_le_mono_nonneg_r; lia|].
      apply Z.mul_lt_mono_pos_r; lia.
    + unfold k. lia.
Qed.

(** A whole number up to 2^53 is a double: rounding leaves it as it is. *)
Lemma rnd_int x n : x == inject_Z n -> (0 <= n <= 2 ^ 53)%Z -> rnd x == inject_Z n.
Proof.
  intros Hx Hn. destruct (Z.eq_dec n 0%Z) as [->|Hne].
  - rewrite rnd_zero by exact Hx. reflexivity.
  - destruct (normal_int n ltac:(lia)) as (mc & ec & Hnorm).
    apply Qle_antisym.
    + apply (rnd_le x (inject_Z n) mc ec); [|lra|exact Hnorm].
      rewrite Hx. change 0 with (inject_Z 0). rewrite <- Zle_Qle. lia.
    + apply (rnd_ge x (inject_Z n) mc ec); [lra|exact Hnorm].
Qed.

(** Whole numbers added from the left are added exactly as long as the
    total stays within 2^53. *)
Lemma sum_whole (ks : list Z) : forall (xs : list Q) (acc : Q) (a : Z),
  Forall2 (fun x k => x == inject_Z k /\ (0 <= k)%Z) xs ks ->
  acc == inject_Z a -> (0 <= a)%Z ->
  (a + foldr Z.add 0%Z ks <= 2 ^ 53)%Z ->
  foldl add acc xs == inject_Z (a + foldr Z.add 0%Z ks).
Proof.
  induction ks as [|k ks IH]; intros xs acc a HF Hacc Ha Hs.
  - inversion HF; subst. cbn. rewrite Z.add_0_r. exact Hacc.
  - inversion HF as [|x k' xs' ks' [Hx Hk] HF']; subst. cbn [foldl foldr] in *.
    assert (0 <= foldr Z.add 0%Z ks)%Z as Hpos.
    { clear -HF'. induction HF' as [|? ? ? ? [_ ?] _ IH']; cbn; lia. }
    rewrite (IH xs' (add acc x) (a + k)%Z HF'); [| |lia|lia].
    + rewrite Z.add_assoc. reflexivity.
    + unfold add. apply rnd_int; [|lia].
      rewrite Hacc, Hx, inject_Z_plus. reflexivity.
Qed.

End DoubleSpec.

(** * Properties of the mistake-review scheduler *)
Module MistakeBookSpec.
Import MistakeBook.

(** Reads a field through the assignments made before it; fields that are
    not asked for are dropped without being computed. *)
Ltac unfold_fields :=
  cbn beta iota zeta delta
    [with_consecutiveCorrect with_nextReviewDate with_reviewCount
     with_lastReviewDate with_totalAttempts with_correctAttempts with_errorRate
     with_masteryLevel with_reviewStatus with_updatedAt archive
     with_reviewInfo with_errorStats with_metadata
     bumpStreak scheduleNext reviewWrong
     _id user question questionSnapshot userAnswer mistakeReason tags importance
     masteryLevel reviewStatus reviewInfo errorStats source examRecord updatedAt
     metadata reviewCount lastReviewDate nextReviewDate reviewIntervals
     consecutiveCorrect totalAttempts correctAttempts errorRate isArchived
     archiveDate isPublic viewCount].

Lemma sameCore_trans a b c : sameCore a b → sameCore b c → sameCore a c.
Proof. unfold sameCore. intuition congruence. Qed.

Lemma with_updatedAt_frame now m :
  sameCore m (with_updatedAt now m)
  ∧ reviewInfo (with_updatedAt now m) = reviewInfo m
  ∧ masteryLevel (with_updatedAt now m) = masteryLevel m
  ∧ reviewStatus (with_updatedAt now m) = reviewStatus m
  ∧ metadata (with_updatedAt now m) = metadata m.
Proof. unfold sameCore. unfold_fields. repeat split; reflexivity. Qed.

Lemma refreshErrorRate_frame m :
  sameCore m (refreshErrorRate m)
  ∧ reviewInfo (refreshErrorRate m) = reviewInfo m
  ∧ masteryLevel (refreshErrorRate m) = masteryLevel m
  ∧ reviewStatus (refreshErrorRate m) = reviewStatus m
  ∧ metadata (refreshErrorRate m) = metadata m.
Proof.
  unfold sameCore, refreshErrorRate. cbv zeta.
  destruct (0 <? totalAttempts (errorStats m)); unfold_fields; repeat split; reflexivity.
Qed.

Lemma promote_frame m :
  sameCore m (promote m)
  ∧ reviewStatus (promote m) = reviewStatus m
  ∧ metadata (promote m) = metadata m
  ∧ masteryLevel (promote m)
    = (if 3 <=? consecutiveCorrect (reviewInfo m)
       then Z.min 5 (masteryLevel m + 1) else masteryLevel m)
  ∧ consecutiveCorrect (reviewInfo (promote m))
    = (if 3 <=? consecutiveCorrect (reviewInfo m)
       then 0 else consecutiveCorrect (reviewInfo m)).
Proof.
  unfold sameCore, promote.
  destruct (3 <=? consecutiveCorrect (reviewInfo m)); unfold_fields;
    repeat split; reflexivity.
Qed.

Lemma archiveAtFive_frame now m :
  sameCore m (archiveAtFive now m)
  ∧ reviewInfo (archiveAtFive now m) = reviewInfo m
  ∧ masteryLevel (archiveAtFive now m) = masteryLevel m
  ∧ (5 <= masteryLevel m → reviewStatus m ≠ mastered →
     reviewStatus (archiveAtFive now m) = mastered
     ∧ isArchived (metadata (archiveAtFive now m)) = true)
  ∧ (masteryLevel m < 5 ∨ reviewStatus m = mastered →
     reviewStatus (archiveAtFive now m) = reviewStatus m
     ∧ metadata (archiveAtFive now m) = metadata m).
Proof.
  unfold sameCore, archiveAtFive.
  destruct (5 <=? masteryLevel m) eqn:E5;
    destruct (bool_decide (reviewStatus m = mastered)) eqn:Es;
    [apply bool_decide_eq_true in Es | apply bool_decide_eq_false in Es
    |apply bool_decide_eq_true in Es | apply bool_decide_eq_false in Es];
    cbn [andb negb]; unfold_fields; repeat split; try reflexivity;
    intros; try lia; try congruence; intuition (try lia; try congruence).
Qed.

(** The save hook never touches the identity of a document, its answer,
    its tags, its attempts or its schedule. *)
Lemma preSave_keeps now m : sameCore m (preSave now m).
Proof.
  unfold preSave.
  destruct (with_updatedAt_frame now m) as (H1 & _).
  destruct (refreshErrorRate_frame (with_updatedAt now m)) as (H2 & _).
  destruct (promote_frame (refreshErrorRate (with_updatedAt now m))) as (H3 & _).
  destruct (archiveAtFive_frame now
              (promote (refreshErrorRate (with_updatedAt now m)))) as (H4 & _).
  eauto using sameCore_trans.
Qed.

(** What the hook does to level, streak, status and archive flag, in terms
    of the record it is given. *)
Lemma preSave_effect now m :
  let level := if 3 <=? consecutiveCorrect (reviewInfo m)
               then Z.min 5 (masteryLevel m + 1) else masteryLevel m in
  masteryLevel (preSave now m) = level
  ∧ consecutiveCorrect (reviewInfo (preSave now m))
    = (if 3 <=? consecutiveCorrect (reviewInfo m)
       then 0 else consecutiveCorrect (reviewInfo m))
  ∧ (5 <= level → reviewStatus m ≠ mastered →
     reviewStatus (preSave now m) = mastered
     ∧ isArchived (metadata (preSave now m)) = true)
  ∧ (level < 5 ∨ reviewStatus m = mastered →
     reviewStatus (preSave now m) = reviewStatus m
     ∧ metadata (preSave now m) = metadata m).
Proof.
  cbv zeta. unfold preSave.
  destruct (with_updatedAt_frame now m) as (_ & Hr1 & Hl1 & Hs1 & Hm1).
  set (m1 := with_updatedAt now m) in *.
  destruct (refreshErrorRate_frame m1) as (_ & Hr2 & Hl2 & Hs2 & Hm2).
  set (m2 := refreshErrorRate m1) in *.
  destruct (promote_frame m2) as (_ & Hs3 & Hm3 & Hl3 & Hc3).
  set (m3 := promote m2) in *.
  destruct (archiveAtFive_frame now m3) as (_ & Hr4 & Hl4 & Ha & Hk).
  rewrite Hr4, Hl4, Hc3, Hl3, Hr2, Hl2, Hr1, Hl1.
  assert (reviewStatus m3 = reviewStatus m) as Hs by congruence.
  assert (metadata m3 = metadata m) as Hm by congruence.
  assert (masteryLevel m3
          = if 3 <=? consecutiveCorrect (reviewInfo m)
            then Z.min 5 (masteryLevel m + 1) else masteryLevel m) as Hl.
  { rewrite Hl3, Hr2, Hl2, Hr1, Hl1. reflexivity. }
  rewrite Hl, Hs in Ha. rewrite Hl, Hs, Hm in Hk.
  split; [reflexivity|]. split; [reflexivity|]. split; [exact Ha | exact Hk].
Qed.

Lemma beforeSave_correct zone now m :
  let c := consecutiveCorrect (reviewInfo m) + 1 in
  let b := beforeSave zone now true m in
  nextReviewDate (reviewInfo b) = setDate zone now (jsIndex intervals (Z.min (c - 1) 7))
  ∧ consecutiveCorrect (reviewInfo b) = (if 3 <=? c then 0 else c)
  ∧ masteryLevel b = (if 3 <=? c then Z.min 5 (masteryLevel m + 1) else masteryLevel m)
  ∧ reviewStatus b = reviewStatus m
  ∧ metadata b = metadata m
  ∧ _id b = _id m ∧ user b = user m.
Proof.
  cbv zeta. unfold beforeSave, reviewCorrect.
  set (x := scheduleNext zone now _).
  destruct (promote_frame x) as ((Hid & Hu & _ & _ & _ & _ & Hn) & Hs & Hm & Hl & Hc).
  assert (consecutiveCorrect (reviewInfo x) = consecutiveCorrect (reviewInfo m) + 1)
    as Hcx by (subst x; unfold_fields; reflexivity).
  assert (masteryLevel x = masteryLevel m) as Hlx by (subst x; unfold_fields; reflexivity).
  assert (nextReviewDate (reviewInfo x)
          = setDate zone now (jsIndex intervals
                           (Z.min (consecutiveCorrect (reviewInfo m) + 1 - 1) 7)))
    as Hnx by (subst x; unfold_fields; reflexivity).
  assert (reviewStatus x = reviewStatus m) as Hsx by (subst x; unfold_fields; reflexivity).
  assert (metadata x = metadata m) as Hmx by (subst x; unfold_fields; reflexivity).
  assert (_id x = _id m ∧ user x = user m) as [Hix Hux]
    by (subst x; unfold_fields; split; reflexivity).
  rewrite Hcx, Hlx in *.
  unfold_fields. rewrite Hn, Hc, Hl, Hs, Hm, Hid, Hu.
  repeat split; assumption || reflexivity.
Qed.

Lemma beforeSave_wrong zone now m :
  let b := beforeSave zone now false m in
  nextReviewDate (reviewInfo b) = ValidDate now
  ∧ consecutiveCorrect (reviewInfo b) = 0
  ∧ masteryLevel b = Z.max 1 (masteryLevel m - 1)
  ∧ _id b = _id m ∧ user b = user m.
Proof.
  cbv zeta. unfold beforeSave. unfold_fields. repeat split; reflexivity.
Qed.

(** A review keeps the identity of the document, so the same query finds
    it again at the same place. *)
Lemma reviewed_identity zone now ok m :
  _id (reviewed zone now ok m) = _id m ∧ user (reviewed zone now ok m) = user m.
Proof.
  unfold reviewed.
  destruct (preSave_keeps now (beforeSave zone now ok m)) as (-> & -> & _).
  destruct ok.
  - destruct (beforeSave_correct zone now m) as (_ & _ & _ & _ & _ & -> & ->). done.
  - destruct (beforeSave_wrong zone now m) as (_ & _ & _ & -> & ->). done.
Qed.

Lemma findById_insert store mistakeId userId i m m' :
  findById store mistakeId userId = Some (i, m) →
  _id m' = _id m → user m' = user m →
  findById (<[i := m']> store) mistakeId userId = Some (i, m').
Proof.
  unfold findById. intros Hf Hid Hu.
  apply list_find_Some in Hf as (Hi & [Hp1 Hp2] & Hmin).
  apply list_find_insert_Some. right. left.
  split; [done|]. split; [done|].
  split; [by eapply lookup_lt_Some|].
  split; [split; congruence|].
  intros j z Hj Hlt. by apply Hmin with j.
Qed.

(** The table has an entry for every streak that is not negative, the one
    at the streak itself up to 7 and the last one beyond; a negative streak
    finds none. *)
Lemma intervals_entry c :
  0 <= c →
  jsIndex intervals (Z.min (c + 1 - 1) 7)
  = Some (nth (Z.to_nat (Z.min c 7)) [1; 2; 4; 7; 15; 30; 60; 90] 0).
Proof.
  intros Hc.
  assert (∃ k : nat, (k < 8)%nat ∧ Z.min (c + 1 - 1) 7 = Z.of_nat k
                     ∧ Z.to_nat (Z.min c 7) = k) as (k & Hk & -> & ->).
  { exists (Z.to_nat (Z.min c 7)). lia. }
  do 8 (destruct k as [|k]; [reflexivity|]). lia.
Qed.

Lemma intervals_none c : c < 0 → jsIndex intervals (Z.min (c + 1 - 1) 7) = None.
Proof.
  intros Hc. unfold jsIndex.
  destruct (Z.min (c + 1 - 1) 7 <? 0) eqn:E; [reflexivity | lia].
Qed.

(** The date a review assigns is a valid date unless the review is a
    correct one on a negative streak. *)
Lemma beforeSave_casts zone now ok m :
  castsToDate (beforeSave zone now ok m)
  = negb ok || (0 <=? consecutiveCorrect (reviewInfo m)).
Proof.
  unfold castsToDate. destruct ok.
  - destruct (beforeSave_correct zone now m) as (-> & _). cbn [negb orb].
    destruct (0 <=? consecutiveCorrect (reviewInfo m)) eqn:E.
    + by rewrite intervals_entry by lia.
    + by rewrite intervals_none by lia.
  - by destruct (beforeSave_wrong zone now m) as (-> & _).
Qed.

Lemma recordReview_found zone now store mistakeId userId ok i m :
  findById store mistakeId userId = Some (i, m) →
  (ok = true → 0 <= consecutiveCorrect (reviewInfo m)) →
  recordReview zone now store mistakeId userId ok
  = Ok (<[i := reviewed zone now ok m]> store, reviewed zone now ok m).
Proof.
  intros Hf Hc. unfold recordReview. rewrite Hf, beforeSave_casts.
  destruct ok; [|reflexivity]. cbn [negb orb].
  destruct (0 <=? consecutiveCorrect (reviewInfo m)) eqn:E; [reflexivity|].
  specialize (Hc eq_refl). lia.
Qed.



(** What one correct review does to schedule, streak and level, save hook
    included. *)
Lemma reviewed_correct zone now m :
  let c := consecutiveCorrect (reviewInfo m) + 1 in
  let r := reviewed zone now true m in
  nextReviewDate (reviewInfo r) = setDate zone now (jsIndex intervals (Z.min (c - 1) 7))
  ∧ consecutiveCorrect (reviewInfo r) = (if 3 <=? c then 0 else c)
  ∧ masteryLevel r = (if 3 <=? c then Z.min 5 (masteryLevel m + 1) else masteryLevel m).
Proof.
  cbv zeta. unfold reviewed.
  destruct (beforeSave_correct zone now m) as (Hn & Hc & Hm & _).
  cbv zeta in Hn, Hc, Hm.
  set (b := beforeSave zone now true m) in *.
  destruct (preSave_keeps now b) as (_ & _ & _ & _ & _ & _ & ->).
  destruct (preSave_effect now b) as (-> & -> & _).
  assert (consecutiveCorrect (reviewInfo b) < 3) as Hlt.
  { rewrite Hc. destruct (3 <=? _) eqn:E; lia. }
  destruct (3 <=? consecutiveCorrect (reviewInfo b)) eqn:E; [lia|].
  by rewrite Hn, Hc, Hm.
Qed.

Lemma reviewed_wrong zone now m :
  let r := reviewed zone now false m in
  nextReviewDate (reviewInfo r) = ValidDate now
  ∧ consecutiveCorrect (reviewInfo r) = 0
  ∧ masteryLevel r = Z.max 1 (masteryLevel m - 1).
Proof.
  cbv zeta. unfold reviewed.
  destruct (beforeSave_wrong zone now m) as (Hn & Hc & Hm & _).
  cbv zeta in Hn, Hc, Hm.
  set (b := beforeSave zone now false m) in *.
  destruct (preSave_keeps now b) as (_ & _ & _ & _ & _ & _ & ->).
  destruct (preSave_effect now b) as (-> & -> & _).
  rewrite Hc. cbn [Z.leb Z.compare]. by rewrite Hn, Hm.
Qed.


(** For a streak that is not negative the delay is the table entry at the
    streak (the last entry beyond 7), a whole number of days between 1 and
    90, and the new date shows the local time of the review that many
    calendar days later. *)
Lemma recordReview_correct_delay zone now m :
  0 <= consecutiveCorrect (reviewInfo m) →
  ∃ d, d = nth (Z.to_nat (Z.min (consecutiveCorrect (reviewInfo m)) 7))
             [1; 2; 4; 7; 15; 30; 60; 90] 0
       ∧ d ∈ intervals
       ∧ nextReviewDate (reviewInfo (reviewed zone now true m))
         = ValidDate (UTC zone (LocalTime zone now + d * msPerDay)).
Proof.
  intros Hc. destruct (reviewed_correct zone now m) as (Hn & _). cbv zeta in Hn.
  rewrite Hn, intervals_entry by exact Hc.
  eexists. split; [reflexivity|]. split; [|reflexivity].
  assert (∃ k : nat, (k < 8)%nat
            ∧ Z.to_nat (Z.min (consecutiveCorrect (reviewInfo m)) 7) = k)
    as (k & Hk & ->).
  { exists (Z.to_nat (Z.min (consecutiveCorrect (reviewInfo m)) 7)). lia. }
  do 8 (destruct k as [|k]; [apply list_elem_of_In; cbn; tauto|]).
  lia.
Qed.

(** Where the clock shows the same offset on both days, calendar days are
    days of 24 hours. *)
Lemma setDate_sameOffset zone now d :
  sameOffset zone now d → UTC zone (LocalTime zone now + d * msPerDay) = now + d * msPerDay.
Proof. unfold sameOffset, UTC, LocalTime. intros ->. lia. Qed.

Lemma sameOffset_fixedZone offset now d : sameOffset (fixedZone offset) now d.
Proof. reflexivity. Qed.

(** Across a change of the clock they are not: four calendar days from
    9 March 2024, noon in New York, are 95 hours. *)
Lemma setDate_across_clock_change :
  setDate easternUS2024 1710003600000 (Some 4) = ValidDate 1710345600000
  ∧ 1710345600000 = 1710003600000 + 4 * msPerDay - 3600000.
Proof. split; reflexivity. Qed.




(** C3, as the code has it. With level 1 and a streak of 2, one more
    correct review makes the streak 3, so the level becomes 2 and the
    streak is reset to 0; the next review is due 4 calendar days from now at
    the same local time of day, the table entry at index 2, because the
    index is read from the streak before the reset; where the local clock
    shows the same offset on both days that is [now] plus 4 times
    86400000 ms. *)
Theorem recordReview_third_correct zone now store mistakeId userId i m :
  findById store mistakeId userId = Some (i, m) →
  masteryLevel m = 1 →
  consecutiveCorrect (reviewInfo m) = 2 →
  ∃ m', recordReview zone now store mistakeId userId true = Ok (<[i := m']> store, m')
    ∧ masteryLevel m' = 2
    ∧ consecutiveCorrect (reviewInfo m') = 0
    ∧ nextReviewDate (reviewInfo m')
      = ValidDate (UTC zone (LocalTime zone now + 4 * msPerDay))
    ∧ (sameOffset zone now 4 →
       nextReviewDate (reviewInfo m') = ValidDate (now + 4 * msPerDay))
    ∧ jsIndex intervals 2 = Some 4.
Proof.
  intros Hf Hm Hc. exists (reviewed zone now true m).
  split; [apply recordReview_found; [exact Hf | lia]|].
  destruct (reviewed_correct zone now m) as (Hn & Hs & Hl). cbv zeta in Hn, Hs, Hl.
  rewrite Hc in Hn, Hs, Hl. rewrite Hm in Hl.
  change (setDate zone now (jsIndex intervals (Z.min (2 + 1 - 1) 7)))
    with (ValidDate (UTC zone (LocalTime zone now + 4 * msPerDay))) in Hn.
  split; [exact Hl|]. split; [exact Hs|]. split; [exact Hn|]. split; [|reflexivity].
  intros Hz. rewrite Hn. f_equal. by apply setDate_sameOffset.
Qed.

Lemma recordReview_third_correct_witness :
  ∃ m', recordReview utc 1000 [sample 1 2 reviewing false] 1 7 true
        = Ok (<[0%nat := m']> [sample 1 2 reviewing false], m')
    ∧ masteryLevel m' = 2
    ∧ nextReviewDate (reviewInfo m') = ValidDate (1000 + 4 * msPerDay).
Proof.
  destruct (recordReview_third_correct utc 1000 [sample 1 2 reviewing false] 1 7 0%nat
              (sample 1 2 reviewing false) eq_refl eq_refl eq_refl)
    as (m' & Hr & Hl & _ & _ & Hn & _).
  exists m'. split; [exact Hr|]. split; [exact Hl|]. apply Hn. reflexivity.
Defined.

(** C3 as the claim words it fails: on a record with level 1 and streak 2
    the next review is not due one day from now (table index 0). *)
Lemma recordReview_third_correct_not_one_day :
  ∃ store' m',
    recordReview utc 1000 [sample 1 2 reviewing false] 1 7 true = Ok (store', m')
    ∧ masteryLevel m' = 2
    ∧ consecutiveCorrect (reviewInfo m') = 0
    ∧ nextReviewDate (reviewInfo m') = ValidDate (1000 + 4 * msPerDay)
    ∧ nextReviewDate (reviewInfo m') ≠ ValidDate (1000 + 1 * msPerDay).
Proof.
  exists [reviewed utc 1000 true (sample 1 2 reviewing false)],
         (reviewed utc 1000 true (sample 1 2 reviewing false)).
  vm_compute. repeat split; try reflexivity. discriminate.
Qed.

(** C4. A wrong review resets the streak to 0, makes the record due now
    and lowers the level by one, not below 1. *)
Theorem recordReview_wrong zone now store mistakeId userId i m :
  findById store mistakeId userId = Some (i, m) →
  ∃ m', recordReview zone now store mistakeId userId false = Ok (<[i := m']> store, m')
    ∧ consecutiveCorrect (reviewInfo m') = 0
    ∧ nextReviewDate (reviewInfo m') = ValidDate now
    ∧ masteryLevel m' = Z.max 1 (masteryLevel m - 1).
Proof.
  intros Hf. exists (reviewed zone now false m).
  split; [by apply recordReview_found|].
  destruct (reviewed_wrong zone now m) as (Hn & Hc & Hl). cbv zeta in Hn, Hc, Hl.
  repeat split; assumption.
Qed.

Lemma recordReview_wrong_witness :
  ∃ m', recordReview utc 1000 [sample 3 2 reviewing false] 1 7 false
        = Ok (<[0%nat := m']> [sample 3 2 reviewing false], m')
    ∧ consecutiveCorrect (reviewInfo m') = 0
    ∧ nextReviewDate (reviewInfo m') = ValidDate 1000
    ∧ masteryLevel m' = 2.
Proof.
  exact (recordReview_wrong utc 1000 [sample 3 2 reviewing false] 1 7 0%nat
           (sample 3 2 reviewing false) eq_refl).
Defined.









(** ** [createMistakeRecord] *)






(** ** [getRecommendedForReview] *)

(** A stored document has no [isOverdue] field. *)
Lemma toDocument_no_isOverdue m :
  Mongo.getField (toDocument m) "isOverdue" = Mongo.BMissing.
Proof. reflexivity. Qed.

(** The score the stage stores: importance x 20 + (6 - level) x 15 +
    error rate x 0.5.  The overdue term is always 0, because [$isOverdue]
    is read from the stored document. *)
Lemma reviewScore_value now m :
  ∃ q, Mongo.getField (Mongo.addFields (scoreFields now) (toDocument m)) "reviewScore"
       = Mongo.BNum q
    ∧ (q == inject_Z (importance m) * 20 + (6 - inject_Z (masteryLevel m)) * 15
            + inject_Z (errorRate (errorStats m)) * (1 # 2))%Q.
Proof.
  eexists. split; [reflexivity|].
  rewrite !Qred_correct. unfold inject_Z. ring.
Qed.

(** The score of a record depends neither on its review date nor on the
    time of the call. *)
Lemma reviewScore_ignores_date now now' date m :
  Mongo.getField (Mongo.addFields (scoreFields now) (toDocument (with_nextReviewDate date m)))
    "reviewScore"
  = Mongo.getField (Mongo.addFields (scoreFields now') (toDocument m)) "reviewScore".
Proof. reflexivity. Qed.

Lemma compareBson_antisym a b :
  Mongo.compareBson b a = CompOpp (Mongo.compareBson a b).
Proof.
  destruct a, b; cbn [Mongo.compareBson Mongo.typeRank]; try reflexivity.
  - symmetry. apply Qcompare_antisym.
  - apply String.compare_antisym.
  - apply Z.compare_antisym.
  - by destruct b, b0.
  - apply Z.compare_antisym.
Qed.

Lemma insertDesc_sorted path d l :
  Sorted (Mongo.notBelow path) l → Sorted (Mongo.notBelow path) (Mongo.insertDesc path d l).
Proof.
  induction 1 as [|d' l Hs IH Hh]; cbn [Mongo.insertDesc].
  - repeat constructor.
  - destruct (Mongo.ltBson (Mongo.getField d path) (Mongo.getField d' path)) eqn:E.
    + constructor; [exact IH|].
      destruct l as [|d'' l]; cbn [Mongo.insertDesc].
      * constructor. unfold Mongo.notBelow, Mongo.ltBson in *.
        rewrite compareBson_antisym. by destruct (Mongo.compareBson _ _).
      * destruct (Mongo.ltBson (Mongo.getField d path) (Mongo.getField d'' path)).
        -- constructor. by inversion Hh.
        -- constructor. unfold Mongo.notBelow, Mongo.ltBson in *.
           rewrite compareBson_antisym. by destruct (Mongo.compareBson _ _).
    + constructor; [by constructor|]. by constructor.
Qed.

Lemma sortDesc_sorted path ds : Sorted (Mongo.notBelow path) (Mongo.sortDesc path ds).
Proof.
  unfold Mongo.sortDesc. induction ds as [|d ds IH]; cbn [foldr].
  - constructor.
  - by apply insertDesc_sorted.
Qed.

Lemma Sorted_take_prefix {A : Type} (R : A → A → Prop) n : ∀ l,
  Sorted R l → Sorted R (take n l).
Proof.
  induction n as [|n IH]; intros l Hs; [constructor|].
  destruct l as [|a l]; [constructor|]. cbn [take].
  apply Sorted_inv in Hs as [Hs Hh]. constructor; [by apply IH|].
  destruct l as [|b l]; [by destruct n; constructor|]. destruct n; [constructor|].
  cbn [take]. constructor. by inversion Hh.
Qed.

(** The pipeline is accepted exactly when the limit is positive. *)
Lemma recommendPipeline_accepted now userId count :
  Mongo.accepted (recommendPipeline now userId count) = negb (count =? 0)%nat.
Proof. by destruct count. Qed.

Lemma getRecommendedForReview_positive now store userId count :
  (0 < count)%nat →
  getRecommendedForReview now store userId count
  = Ok (Mongo.aggregate (recommendPipeline now userId count) (map toDocument store)).
Proof.
  intros Hc. unfold getRecommendedForReview. rewrite recommendPipeline_accepted.
  destruct count; [lia | reflexivity].
Qed.

(** The documents come back in descending order of the stored score. *)
Lemma getRecommendedForReview_sorted now store userId count ds :
  getRecommendedForReview now store userId count = Ok ds →
  Sorted (Mongo.notBelow "reviewScore") ds.
Proof.
  unfold getRecommendedForReview. destruct (Mongo.accepted _); [|discriminate].
  intros [= <-]. unfold recommendPipeline, Mongo.aggregate.
  cbn [foldl Mongo.runStage]. apply Sorted_take_prefix, sortDesc_sorted.
Qed.

(** The result never has more documents than asked for. *)
Lemma getRecommendedForReview_length now store userId count ds :
  getRecommendedForReview now store userId count = Ok ds →
  (length ds <= count)%nat.
Proof.
  unfold getRecommendedForReview. destruct (Mongo.accepted _); [|discriminate].
  intros [= <-]. unfold recommendPipeline, Mongo.aggregate.
  cbn [foldl Mongo.runStage]. rewrite length_take. lia.
Qed.

(** C7, on the code. Two records of one user that differ only in being
    overdue come back with the same score, 185 = 3 x 20 + 5 x 15 + 100 x 0.5:
    the overdue record, marked [isOverdue], does not get 50 points more. *)
Theorem getRecommendedForReview_overdue_scores_equal :
  ∃ ds, getRecommendedForReview 5000 [dueRecord; laterRecord] 7 10 = Ok ds
    ∧ map (λ d, (Mongo.getField d "isOverdue", Mongo.getField d "reviewScore")) ds
      = [(Mongo.BBool true, Mongo.BNum 185); (Mongo.BBool false, Mongo.BNum 185)].
Proof. eexists. split; vm_compute; reflexivity. Qed.

End MistakeBookSpec.

(** * Properties of the exam grade *)
Module ExamRecordSpec.
Import ExamRecord.

Lemma calculateTimeAnalysis_result e : result (calculateTimeAnalysis e) = result e.
Proof. unfold calculateTimeAnalysis. cbv zeta. by destruct (map _ _). Qed.

Lemma calculateTypePerformance_result e : result (calculateTypePerformance e) = result e.
Proof. reflexivity. Qed.

Lemma assignShareCode_result picks e : result (assignShareCode picks e) = result e.
Proof. unfold assignShareCode. by destruct (_ && _). Qed.

Lemma assignAccuracy_grade e :
  grade (result (assignAccuracy e)) = grade (result e).
Proof. unfold assignAccuracy. by destruct (0 <? _). Qed.

Lemma assignPassed_grade e : grade (result (assignPassed e)) = grade (result e).
Proof. reflexivity. Qed.

Lemma assignGrade_grade e : grade (result (assignGrade e)) = gradeOf (score (result e)).
Proof. reflexivity. Qed.

Lemma preSave_grade_is picks e :
  grade (result (preSave picks e)) = gradeOf (score (result e)).
Proof.
  unfold preSave.
  rewrite calculateTimeAnalysis_result, calculateTypePerformance_result,
    assignShareCode_result, assignAccuracy_grade, assignPassed_grade.
  apply assignGrade_grade.
Qed.

Lemma Qle_bool_false (a b : Q) : (b < a)%Q → Qle_bool a b = false.
Proof.
  intros Hlt. destruct (Qle_bool a b) eqn:E; [|reflexivity].
  apply Qle_bool_iff in E. exfalso. by apply (Qlt_not_le b a).
Qed.

Lemma Qle_bool_true (a b : Q) : (a <= b)%Q → Qle_bool a b = true.
Proof. apply Qle_bool_iff. Qed.

(** The grade depends on the value of the score only. *)
Lemma gradeOf_proper (s t : Q) : (s == t)%Q → gradeOf s = gradeOf t.
Proof.
  intros E. unfold gradeOf.
  assert (∀ c, Qle_bool c s = Qle_bool c t) as H.
  { intros c. destruct (Qle_bool c t) eqn:Et.
    - apply Qle_bool_iff. apply Qle_bool_iff in Et. by rewrite E.
    - destruct (Qle_bool c s) eqn:Es; [|reflexivity].
      apply Qle_bool_iff in Es. rewrite E in Es. apply Qle_bool_iff in Es. congruence. }
  by rewrite !H.
Qed.

(** C8. Saving an exam record sets the grade from the score alone: 90 and
    above is excellent, 80 up to 90 good, 60 up to 80 pass, below 60 fail. *)
Theorem preSave_grade picks e :
  grade (result (preSave picks e)) = gradeOf (score (result e))
  ∧ (∀ picks' e', (score (result e') == score (result e))%Q →
       grade (result (preSave picks' e')) = grade (result (preSave picks e)))
  ∧ ((90 <= score (result e))%Q → grade (result (preSave picks e)) = "优秀")
  ∧ ((80 <= score (result e))%Q → (score (result e) < 90)%Q →
       grade (result (preSave picks e)) = "良好")
  ∧ ((60 <= score (result e))%Q → (score (result e) < 80)%Q →
       grade (result (preSave picks e)) = "及格")
  ∧ ((score (result e) < 60)%Q → grade (result (preSave picks e)) = "不及格").
Proof.
  rewrite preSave_grade_is. split; [reflexivity|]. split.
  { intros picks' e' E. rewrite preSave_grade_is. by apply gradeOf_proper. }
  unfold gradeOf. repeat split.
  - intros H. by rewrite (Qle_bool_true _ _ H).
  - intros H1 H2. by rewrite (Qle_bool_false _ _ H2), (Qle_bool_true _ _ H1).
  - intros H1 H2.
    assert (score (result e) < 90)%Q as H3 by (eapply Qlt_trans; [exact H2|reflexivity]).
    by rewrite (Qle_bool_false _ _ H3), (Qle_bool_false _ _ H2), (Qle_bool_true _ _ H1).
  - intros H.
    assert (score (result e) < 80)%Q as H2 by (eapply Qlt_trans; [exact H|reflexivity]).
    assert (score (result e) < 90)%Q as H3 by (eapply Qlt_trans; [exact H|reflexivity]).
    by rewrite (Qle_bool_false _ _ H3), (Qle_bool_false _ _ H2), (Qle_bool_false _ _ H).
Qed.

Lemma preSave_grade_witness :
  grade (result (preSave [] sampleExam)) = "良好".
Proof.
  apply (proj1 (proj2 (proj2 (proj2 (preSave_grade [] sampleExam)))));
    unfold Qle, Qlt; cbn; lia.
Defined.

End ExamRecordSpec.

(** * Properties of export and import *)
Module SyncSpec.
Import Sync.

(** ** Merging by key *)

Lemma absentBy_nil_iff key newItems existing :
  absentBy key newItems existing = []
  ↔ ∀ x, x ∈ newItems → key x ∈ map key existing.
Proof.
  unfold absentBy. induction newItems as [|y l IH].
  - split; [|done]. intros _ x Hx. by apply elem_of_nil in Hx.
  - rewrite filter_cons. destruct (decide (key y ∉ map key existing)) as [Hy|Hy].
    + split; [discriminate|]. intros H. exfalso. apply Hy, H. by left.
    + rewrite IH. split.
      * intros H x Hx. apply elem_of_cons in Hx as [E|Hx]; [|by apply H].
        subst x. by destruct (decide (key y ∈ map key existing)).
      * intros H x Hx. apply H. by right.
Qed.

(** Once the absent items were appended, none of the incoming items is
    absent any more. *)
Lemma absentBy_idem key newItems existing :
  absentBy key newItems (existing ++ absentBy key newItems existing) = [].
Proof.
  apply absentBy_nil_iff. intros x Hx. rewrite map_app, elem_of_app.
  destruct (decide (key x ∈ map key existing)) as [Hin|Hout]; [by left|].
  right. apply list_elem_of_fmap_2. unfold absentBy. by apply list_elem_of_filter.
Qed.

(** A merge keeps every local record, in place. *)
Lemma merge_keeps_local key newItems existing :
  existing `prefix_of` existing ++ absentBy key newItems existing.
Proof. by apply prefix_app_r. Qed.

Lemma mergeCounters_idem t s : mergeCounters (mergeCounters t s) s = mergeCounters t s.
Proof.
  unfold mergeCounters. cbn [totalQuestions correctAnswers totalStudyTime examRecords].
  assert (∀ v c : jsprim,
            (if exceeds v (if exceeds v c then v else c)
             then v else (if exceeds v c then v else c))
            = (if exceeds v c then v else c)) as H.
  { intros v c. destruct (exceeds v c) eqn:E; [by destruct (exceeds v v) | by rewrite E]. }
  by rewrite !H.
Qed.

(** ** SyncManager.importData *)

Lemma SyncManager_importBank_again label v bank :
  (SyncManager.importBank label v (SyncManager.importBank label v bank).1.1).1.1
  = (SyncManager.importBank label v bank).1.1
  ∧ ((SyncManager.importBank label v (SyncManager.importBank label v bank).1.1).1.2
     = Some 0%nat
     ∨ (SyncManager.importBank label v (SyncManager.importBank label v bank).1.1).1.2
       = None).
Proof.
  unfold SyncManager.importBank, SyncManager.removeDuplicates.
  destruct v as [p|newItems|], bank as [existing|]; cbn [fst snd]; auto.
  rewrite absentBy_idem, app_nil_r. auto.
Qed.

Lemma mergeCounters_with_examRecords rs t s :
  mergeCounters (with_examRecords rs t) s = with_examRecords rs (mergeCounters t s).
Proof. reflexivity. Qed.

Lemma SyncManager_mergeStudyStats_again t s :
  (SyncManager.mergeStudyStats (SyncManager.mergeStudyStats t s).1 s).1
  = (SyncManager.mergeStudyStats t s).1.
Proof.
  unfold SyncManager.mergeStudyStats. destruct t as [t|]; [|reflexivity].
  destruct (sd_examRecords s) as [p|records|]; cbn [fst];
    try (by rewrite mergeCounters_idem).
  change (examRecords (mergeCounters t s)) with (examRecords t).
  destruct (examRecords t) as [existing|] eqn:E; cbn [fst].
  - rewrite mergeCounters_with_examRecords, mergeCounters_idem.
    cbn [examRecords with_examRecords]. by rewrite absentBy_idem, app_nil_r.
  - rewrite mergeCounters_idem.
    change (examRecords (mergeCounters t s)) with (examRecords t). by rewrite E.
Qed.

Lemma SyncManager_importInto_fields now d app :
  let app' := (SyncManager.importInto now d app).2 in
  publicQuestionBank app'
  = (SyncManager.importBank "公共题库导入失败" (SyncManager.doc_publicQuestions d)
       (publicQuestionBank app)).1.1
  ∧ personalQuestionBank app'
    = (SyncManager.importBank "个人题库导入失败" (SyncManager.doc_personalQuestions d)
         (personalQuestionBank app)).1.1
  ∧ mistakeBank app'
    = (SyncManager.importBank "错题本导入失败" (SyncManager.doc_mistakeBank d)
         (mistakeBank app)).1.1
  ∧ studyStats app'
    = match SyncManager.doc_studyStats d with
      | SObj s => (SyncManager.mergeStudyStats (studyStats app) s).1
      | SPrim _ => studyStats app
      end.
Proof.
  cbv zeta. unfold SyncManager.importInto.
  destruct (SyncManager.importBank _ (SyncManager.doc_publicQuestions d) _) as [[? ?] ?].
  destruct (SyncManager.importBank _ (SyncManager.doc_personalQuestions d) _) as [[? ?] ?].
  destruct (SyncManager.importBank _ (SyncManager.doc_mistakeBank d) _) as [[? ?] ?].
  destruct (SyncManager.doc_studyStats d) as [p|st].
  - repeat split; reflexivity.
  - destruct (SyncManager.mergeStudyStats (studyStats app) st) as [? []];
      repeat split; reflexivity.
Qed.

Lemma SyncManager_importInto_counts now d app :
  let r := (SyncManager.importInto now d app).1 in
  SyncManager.imp_publicQuestions (SyncManager.imported r)
  = (SyncManager.importBank "公共题库导入失败" (SyncManager.doc_publicQuestions d)
       (publicQuestionBank app)).1.2
  ∧ SyncManager.imp_personalQuestions (SyncManager.imported r)
    = (SyncManager.importBank "个人题库导入失败" (SyncManager.doc_personalQuestions d)
         (personalQuestionBank app)).1.2
  ∧ SyncManager.imp_mistakes (SyncManager.imported r)
    = (SyncManager.importBank "错题本导入失败" (SyncManager.doc_mistakeBank d)
         (mistakeBank app)).1.2.
Proof.
  cbv zeta. unfold SyncManager.importInto.
  destruct (SyncManager.importBank _ (SyncManager.doc_publicQuestions d) _) as [[? ?] ?].
  destruct (SyncManager.importBank _ (SyncManager.doc_personalQuestions d) _) as [[? ?] ?].
  destruct (SyncManager.importBank _ (SyncManager.doc_mistakeBank d) _) as [[? ?] ?].
  destruct (SyncManager.doc_studyStats d) as [p|st].
  - repeat split; reflexivity.
  - destruct (SyncManager.mergeStudyStats (studyStats app) st) as [? []];
      repeat split; reflexivity.
Qed.

(** The second import of a document into what the first import left adds
    nothing to any collection. *)
Lemma SyncManager_importInto_again now1 now2 d app :
  collections (Some (SyncManager.importInto now2 d (SyncManager.importInto now1 d app).2).2)
  = collections (Some (SyncManager.importInto now1 d app).2).
Proof.
  destruct (SyncManager_importInto_fields now1 d app) as (Hp & Hq & Hm & Hs).
  destruct (SyncManager_importInto_fields now2 d (SyncManager.importInto now1 d app).2)
    as (Hp' & Hq' & Hm' & Hs').
  cbv zeta in *. unfold collections.
  rewrite Hp', Hq', Hm', Hs', Hp, Hq, Hm, Hs.
  rewrite (proj1 (SyncManager_importBank_again _ _ _)).
  rewrite (proj1 (SyncManager_importBank_again _ _ _)).
  rewrite (proj1 (SyncManager_importBank_again _ _ _)).
  destruct (SyncManager.doc_studyStats d) as [p|st]; [reflexivity|].
  by rewrite SyncManager_mergeStudyStats_again.
Qed.

(** What [importData] does, by cases: it rejects and leaves [window.app]
    alone, or it merges a validated document. *)
Lemma SyncManager_importData_cases now file win :
  (∃ msg, SyncManager.importData now file win = (Err msg, win))
  ∨ (∃ f d app,
       file = Some f ∧ fileText f = Json (ParsedObject d) ∧ win = Some app
       ∧ SyncManager.validateImportData (ParsedObject d) = true
       ∧ ∀ now', SyncManager.importData now' file win
                 = (Ok (SyncManager.importInto now' d app).1,
                    Some (SyncManager.importInto now' d app).2)).
Proof.
  unfold SyncManager.importData.
  destruct file as [f|]; [|left; eauto].
  destruct (endsWith _ _); cbn [negb]; [|left; eauto].
  destruct (10 * 1024 * 1024 <? fileSize f); [left; eauto|].
  destruct (fileText f) as [| |data] eqn:Et; [left; eauto|left; eauto|].
  destruct (SyncManager.validateImportData data) eqn:Ev; cbn [negb]; [|left; eauto].
  destruct data as [p|d]; [left; eauto|].
  destruct win as [app|]; [|left; eauto].
  right. exists f, d, app. repeat split; try reflexivity; try assumption.
  intros now'. by destruct (SyncManager.importInto now' d app).
Qed.

(** Importing a file twice with SyncManager: the second import adds no
    record to any collection. *)
Lemma SyncManager_importData_twice now1 now2 file win :
  collections (SyncManager.importData now2 file
                 (SyncManager.importData now1 file win).2).2
  = collections (SyncManager.importData now1 file win).2.
Proof.
  destruct (SyncManager_importData_cases now1 file win)
    as [[msg Hr]|(f & d & app & -> & Ht & -> & Hv & Hok)].
  - rewrite Hr. cbn [snd].
    destruct (SyncManager_importData_cases now2 file win)
      as [[msg' Hr']|(f & d & app & -> & Ht & -> & Hv & Hok)].
    + by rewrite Hr'.
    + rewrite Hok in Hr. discriminate.
  - rewrite Hok. cbn [snd].
    destruct (SyncManager_importData_cases now2 (Some f)
                (Some (SyncManager.importInto now1 d app).2))
      as [[msg' Hr']|(f' & d' & app' & Hf & Ht' & Happ & Hv' & Hok')].
    + by rewrite Hr'.
    + rewrite Hok'. cbn [snd]. injection Hf as <-. injection Happ as <-.
      rewrite Ht in Ht'. injection Ht' as <-.
      apply SyncManager_importInto_again.
Qed.

(** ** CrossDeviceSync, final version *)

Lemma Final_mergeBank_again items bank :
  (CrossDeviceSyncFinal.mergeBank items (CrossDeviceSyncFinal.mergeBank items bank).1).1
  = (CrossDeviceSyncFinal.mergeBank items bank).1
  ∧ (CrossDeviceSyncFinal.mergeBank items (CrossDeviceSyncFinal.mergeBank items bank).1).2
    = 0%nat.
Proof.
  unfold CrossDeviceSyncFinal.mergeBank. destruct bank as [current|]; cbn [fst snd].
  - by rewrite absentBy_idem, app_nil_r.
  - done.
Qed.

Lemma Final_mergeStudyStats_fields s app :
  let app' := (CrossDeviceSyncFinal.mergeStudyStats s app).1 in
  publicQuestionBank app' = publicQuestionBank app
  ∧ personalQuestionBank app' = personalQuestionBank app
  ∧ mistakeBank app' = mistakeBank app
  ∧ studyStats app'
    = match studyStats app with
      | None => None
      | Some st =>
          Some match sd_examRecords s with
               | VArray records =>
                   match examRecords st with
                   | Some existing =>
                       with_examRecords
                         (Some (existing ++ absentBy date records existing))
                         (mergeCounters st s)
                   | None => mergeCounters st s
                   end
               | _ => mergeCounters st s
               end
      end.
Proof.
  cbv zeta. unfold CrossDeviceSyncFinal.mergeStudyStats.
  destruct (studyStats app) as [st|] eqn:E;
    [|cbn [fst]; repeat split; try reflexivity; exact E].
  change (examRecords (mergeCounters st s)) with (examRecords st).
  destruct (sd_examRecords s) as [p|records|]; try (repeat split; reflexivity).
  destruct (examRecords st); repeat split; reflexivity.
Qed.

Lemma Final_mergeIf_fields (field : value Item) app :
  let a1 := (CrossDeviceSyncFinal.mergeIf CrossDeviceSyncFinal.mergePublicQuestions
               field app).1 in
  let a2 := (CrossDeviceSyncFinal.mergeIf CrossDeviceSyncFinal.mergePersonalQuestions
               field app).1 in
  let a3 := (CrossDeviceSyncFinal.mergeIf CrossDeviceSyncFinal.mergeMistakeBank
               field app).1 in
  let merged bank :=
    match field with
    | VArray items => (CrossDeviceSyncFinal.mergeBank items bank).1
    | _ => bank
    end in
  (publicQuestionBank a1 = merged (publicQuestionBank app)
   ∧ personalQuestionBank a1 = personalQuestionBank app
   ∧ mistakeBank a1 = mistakeBank app ∧ studyStats a1 = studyStats app)
  ∧ (publicQuestionBank a2 = publicQuestionBank app
     ∧ personalQuestionBank a2 = merged (personalQuestionBank app)
     ∧ mistakeBank a2 = mistakeBank app ∧ studyStats a2 = studyStats app)
  ∧ (publicQuestionBank a3 = publicQuestionBank app
     ∧ personalQuestionBank a3 = personalQuestionBank app
     ∧ mistakeBank a3 = merged (mistakeBank app) ∧ studyStats a3 = studyStats app).
Proof.
  cbv zeta. unfold CrossDeviceSyncFinal.mergeIf.
  destruct field as [p|items|]; try (repeat split; reflexivity).
  unfold CrossDeviceSyncFinal.mergePublicQuestions,
    CrossDeviceSyncFinal.mergePersonalQuestions, CrossDeviceSyncFinal.mergeMistakeBank.
  destruct (CrossDeviceSyncFinal.mergeBank items (publicQuestionBank app)).
  destruct (CrossDeviceSyncFinal.mergeBank items (personalQuestionBank app)).
  destruct (CrossDeviceSyncFinal.mergeBank items (mistakeBank app)).
  repeat split; reflexivity.
Qed.

(** The collections after [importInto], in terms of the collections
    before. *)
Lemma Final_importInto_collections dd app :
  let merged (field : value Item) bank :=
    match field with
    | VArray items => (CrossDeviceSyncFinal.mergeBank items bank).1
    | _ => bank
    end in
  collections (Some (CrossDeviceSyncFinal.importInto dd app).2)
  = Some (merged (CrossDeviceSyncFinal.data_publicQuestions dd) (publicQuestionBank app),
          merged (CrossDeviceSyncFinal.data_personalQuestions dd) (personalQuestionBank app),
          merged (CrossDeviceSyncFinal.data_mistakeBank dd) (mistakeBank app),
          match studyStats app with
          | None => None
          | Some st =>
              match CrossDeviceSyncFinal.data_studyStats dd with
              | SObj s =>
                  match sd_examRecords s, examRecords st with
                  | VArray records, Some existing =>
                      Some (existing ++ absentBy date records existing)
                  | _, _ => examRecords st
                  end
              | SPrim _ => examRecords st
              end
          end).
Proof.
  cbv zeta. unfold CrossDeviceSyncFinal.importInto.
  destruct (Final_mergeIf_fields (CrossDeviceSyncFinal.data_publicQuestions dd) app)
    as ((P1 & P2 & P3 & P4) & _ & _). cbv zeta in P1, P2, P3, P4.
  destruct (CrossDeviceSyncFinal.mergeIf CrossDeviceSyncFinal.mergePublicQuestions
              (CrossDeviceSyncFinal.data_publicQuestions dd) app) as [app1 n1].
  cbn [fst] in P1, P2, P3, P4.
  destruct (Final_mergeIf_fields (CrossDeviceSyncFinal.data_personalQuestions dd) app1)
    as (_ & (Q1 & Q2 & Q3 & Q4) & _). cbv zeta in Q1, Q2, Q3, Q4.
  destruct (CrossDeviceSyncFinal.mergeIf CrossDeviceSyncFinal.mergePersonalQuestions
              (CrossDeviceSyncFinal.data_personalQuestions dd) app1) as [app2 n2].
  cbn [fst] in Q1, Q2, Q3, Q4.
  destruct (Final_mergeIf_fields (CrossDeviceSyncFinal.data_mistakeBank dd) app2)
    as (_ & _ & (M1 & M2 & M3 & M4)). cbv zeta in M1, M2, M3, M4.
  destruct (CrossDeviceSyncFinal.mergeIf CrossDeviceSyncFinal.mergeMistakeBank
              (CrossDeviceSyncFinal.data_mistakeBank dd) app2) as [app3 n3].
  cbn [fst] in M1, M2, M3, M4.
  assert (studyStats app3 = studyStats app) as S3 by congruence.
  destruct (CrossDeviceSyncFinal.data_studyStats dd) as [p|s].
  - cbn [snd]. unfold collections.
    rewrite M1, M2, M3, S3, Q1, Q2, Q3, P1, P2, P3.
    by destruct (studyStats app).
  - destruct (Final_mergeStudyStats_fields s app3) as (S1 & S2 & S4 & S5).
    cbv zeta in S1, S2, S4, S5.
    destruct (CrossDeviceSyncFinal.mergeStudyStats s app3) as [app4 threw].
    cbn [fst] in S1, S2, S4, S5.
    assert (collections (Some app4)
            = Some (publicQuestionBank app3, personalQuestionBank app3, mistakeBank app3,
                    match studyStats app with
                    | None => None
                    | Some st =>
                        match sd_examRecords s, examRecords st with
                        | VArray records, Some existing =>
                            Some (existing ++ absentBy date records existing)
                        | _, _ => examRecords st
                        end
                    end)) as Hc.
    { unfold collections. rewrite S1, S2, S4, S5, S3.
      destruct (studyStats app) as [st|]; [|reflexivity].
      destruct (sd_examRecords s) as [p|records|]; try reflexivity.
      destruct (examRecords st) as [existing|] eqn:Ee;
        cbn [examRecords mergeCounters with_examRecords]; [reflexivity | by rewrite Ee]. }
    rewrite M1, M2, M3, Q1, Q2, Q3, P1, P2, P3 in Hc.
    destruct threw; cbn [snd]; exact Hc.
Qed.

Lemma Final_importInto_again dd app :
  collections (Some (CrossDeviceSyncFinal.importInto dd
                       (CrossDeviceSyncFinal.importInto dd app).2).2)
  = collections (Some (CrossDeviceSyncFinal.importInto dd app).2).
Proof.
  pose proof (Final_importInto_collections dd app) as H. cbv zeta in H.
  remember (CrossDeviceSyncFinal.importInto dd app).2 as app1 eqn:E1. clear E1.
  rewrite (Final_importInto_collections dd app1). cbv zeta.
  unfold collections in H |- *. injection H as Hp Hq Hm Hs.
  f_equal. f_equal; [f_equal; [f_equal|]|].
  - rewrite Hp. destruct (CrossDeviceSyncFinal.data_publicQuestions dd); try reflexivity.
    apply Final_mergeBank_again.
  - rewrite Hq. destruct (CrossDeviceSyncFinal.data_personalQuestions dd); try reflexivity.
    apply Final_mergeBank_again.
  - rewrite Hm. destruct (CrossDeviceSyncFinal.data_mistakeBank dd); try reflexivity.
    apply Final_mergeBank_again.
  - destruct (studyStats app1) as [st'|]; [|reflexivity].
    destruct (CrossDeviceSyncFinal.data_studyStats dd) as [p|s]; [reflexivity|].
    destruct (sd_examRecords s) as [p|records|]; try reflexivity.
    destruct (examRecords st') as [existing'|]; [|reflexivity].
    destruct (studyStats app) as [st|]; [|discriminate].
    destruct (examRecords st) as [existing|]; [|discriminate].
    injection Hs as ->. by rewrite absentBy_idem, app_nil_r.
Qed.

(** What [importSyncData] does, by cases. *)
Lemma Final_importSyncData_cases fileAPI file win :
  (∃ msg, CrossDeviceSyncFinal.importSyncData fileAPI file win = (Err msg, win))
  ∨ (∃ d dd app,
       fileText file = Json (ParsedObject d)
       ∧ CrossDeviceSyncFinal.doc_data d = CrossDeviceSyncFinal.DObj dd
       ∧ win = Some app
       ∧ CrossDeviceSyncFinal.validateSyncData (ParsedObject d) = true
       ∧ CrossDeviceSyncFinal.importSyncData fileAPI file win
         = ((CrossDeviceSyncFinal.importInto dd app).1,
            Some (CrossDeviceSyncFinal.importInto dd app).2)).
Proof.
  unfold CrossDeviceSyncFinal.importSyncData.
  destruct fileAPI; cbn [negb]; [|left; eauto].
  destruct win as [app|]; [|left; eauto].
  destruct (endsWith _ _); cbn [negb]; [|left; eauto].
  destruct (20 * 1024 * 1024 <? fileSize file); [left; eauto|].
  destruct (fileText file) as [| |data] eqn:Et; [left; eauto|left; eauto|].
  destruct (CrossDeviceSyncFinal.validateSyncData data) eqn:Ev; cbn [negb];
    [|left; eauto].
  destruct data as [p|d]; [left; eauto|].
  destruct (CrossDeviceSyncFinal.doc_data d) as [p|dd] eqn:Ed; [left; eauto|].
  right. exists d, dd, app. repeat split; try reflexivity; try assumption.
  by destruct (CrossDeviceSyncFinal.importInto dd app).
Qed.

(** Importing a file twice with the final CrossDeviceSync: the second
    import adds no record to any collection. *)
Lemma Final_importSyncData_twice fileAPI file win :
  collections (CrossDeviceSyncFinal.importSyncData fileAPI file
                 (CrossDeviceSyncFinal.importSyncData fileAPI file win).2).2
  = collections (CrossDeviceSyncFinal.importSyncData fileAPI file win).2.
Proof.
  destruct (Final_importSyncData_cases fileAPI file win)
    as [[msg Hr]|(d & dd & app & Ht & Hd & -> & Hv & Hok)].
  - rewrite Hr. cbn [snd]. by rewrite Hr.
  - rewrite Hok. cbn [snd].
    destruct (Final_importSyncData_cases fileAPI file
                (Some (CrossDeviceSyncFinal.importInto dd app).2))
      as [[msg' Hr']|(d' & dd' & app' & Ht' & Hd' & Happ & Hv' & Hok')].
    + by rewrite Hr'.
    + rewrite Hok'. cbn [snd]. injection Happ as <-.
      rewrite Ht in Ht'. injection Ht' as <-.
      rewrite Hd in Hd'. injection Hd' as <-.
      apply Final_importInto_again.
Qed.

(** ** CrossDeviceSync, original version *)

(** Its public questions are merged by id: a second merge adds nothing. *)
Lemma Original_mergePublicQuestions_again qs app app1 :
  CrossDeviceSync.mergePublicQuestions qs app = Some app1 →
  ∃ app2, CrossDeviceSync.mergePublicQuestions qs app1 = Some app2
          ∧ collections (Some app2) = collections (Some app1).
Proof.
  unfold CrossDeviceSync.mergePublicQuestions.
  destruct (publicQuestionBank app) as [current|]; [|discriminate].
  intros [= <-]. cbn [publicQuestionBank]. eexists. split; [reflexivity|].
  unfold collections. cbn. by rewrite absentBy_idem, app_nil_r.
Qed.

(** So are the mistakes and exam records of a queued update. *)
Lemma Original_mergeUserData_again ms rs app app1 :
  CrossDeviceSync.mergeUserData ms rs app = Some app1 →
  ∃ app2, CrossDeviceSync.mergeUserData ms rs app1 = Some app2
          ∧ collections (Some app2) = collections (Some app1).
Proof.
  unfold CrossDeviceSync.mergeUserData.
  destruct ms as [ms|], rs as [rs|];
    destruct (mistakeBank app) as [current|] eqn:Em; try discriminate;
    destruct (studyStats app) as [st|] eqn:Es; try discriminate;
    try destruct (examRecords st) as [ex|] eqn:Ee; try discriminate;
    intros [= <-]; cbn [mistakeBank studyStats examRecords with_examRecords];
    rewrite ?Em, ?Es, ?Ee; cbn [examRecords];
    eexists; (split; [reflexivity|]); unfold collections; cbn;
    rewrite ?absentBy_idem, ?app_nil_r, ?Ee; reflexivity.
Qed.

(** Personal questions and mistakes are pushed as they come: with both
    banks in place, every import of a document with personal questions
    appends all of them again. *)
Lemma Original_import_appends_personal data app app1 bank q qs :
  personalQuestionBank app = Some bank →
  CrossDeviceSync.doc_personalQuestions data = Some (q :: qs) →
  CrossDeviceSync.importInto data app = (Ok tt, app1) →
  personalQuestionBank app1 = Some (bank ++ q :: qs).
Proof.
  intros Hb Hq. unfold CrossDeviceSync.importInto. rewrite Hq. cbn [CrossDeviceSync.nonEmpty].
  destruct (match CrossDeviceSync.nonEmpty (CrossDeviceSync.doc_publicQuestions data) with
            | Some qs0 => CrossDeviceSync.mergePublicQuestions qs0 app
            | None => Some app
            end) as [a1|] eqn:E1; [|discriminate].
  assert (personalQuestionBank a1 = Some bank) as Hb1.
  { destruct (CrossDeviceSync.nonEmpty _); [|by injection E1 as <-].
    unfold CrossDeviceSync.mergePublicQuestions in E1.
    destruct (publicQuestionBank app); [|discriminate]. by injection E1 as <-. }
  rewrite Hb1. cbn [CrossDeviceSync.pushAll mistakeBank personalQuestionBank].
  destruct (match CrossDeviceSync.nonEmpty (CrossDeviceSync.doc_mistakeBank data) with
            | Some ms => CrossDeviceSync.pushAll ms (mistakeBank a1)
            | None => Some (mistakeBank a1)
            end); [|discriminate].
  by intros [= <-].
Qed.

(** C5, on the code. The original [importSyncData] run twice on a document
    with one personal question leaves that question twice in the personal
    bank: the second import adds a record. *)
Theorem Original_importSyncData_twice_duplicates :
  collections (Some emptyApp) = Some (Some [], Some [], Some [], Some [])
  ∧ collections (CrossDeviceSync.importSyncData onePersonalQuestion (Some emptyApp)).2
    = Some (Some [], Some [question "q1"], Some [], Some [])
  ∧ collections
      (CrossDeviceSync.importSyncData onePersonalQuestion
         (CrossDeviceSync.importSyncData onePersonalQuestion (Some emptyApp)).2).2
    = Some (Some [], Some [question "q1"; question "q1"], Some [], Some []).
Proof. vm_compute. repeat split; reflexivity. Qed.

(** ** Validation *)

Lemma includesType_spec t :
  SyncManager.includesType t = true ↔ ∃ s, t = PStr s ∧ s ∈ SyncManager.validDataTypes.
Proof.
  destruct t as [| |b|n|s]; cbn; try (split; [discriminate|by intros (? & ? & _)]).
  rewrite bool_decide_eq_true. split; [eauto|]. by intros (? & [= <-] & ?).
Qed.

(** What makes [validateImportData] fail. *)
Lemma SyncManager_validate_rejects d :
  truthy (SyncManager.doc_version d) = false
  ∨ truthy (SyncManager.doc_exportTime d) = false
  ∨ truthy (SyncManager.doc_deviceId d) = false
  ∨ (isTruthy (SyncManager.doc_dataTypes d) = true
     ∧ ¬ SyncManager.wellFormedTypes (SyncManager.doc_dataTypes d)) →
  SyncManager.validateImportData (ParsedObject d) = false.
Proof.
  unfold SyncManager.validateImportData.
  intros [H|[H|[H|[Ht Hw]]]]; rewrite ?H; cbn [negb orb]; try by rewrite ?orb_true_r.
  destruct (_ || _); [reflexivity|]. rewrite Ht.
  destruct (SyncManager.doc_dataTypes d) as [p|types|] eqn:E; try reflexivity.
  destruct types as [|t types]; [reflexivity|]. cbn [length Nat.eqb].
  destruct (forallb _ _) eqn:Ef; [|reflexivity].
  exfalso. apply Hw. exists (t :: types). split; [reflexivity|]. split; [discriminate|].
  apply Forall_forall. intros x Hx. apply includesType_spec.
  rewrite forallb_forall in Ef. apply Ef. by apply list_elem_of_In.
Qed.

(** What makes [validateSyncData] fail. *)
Lemma Final_validate_rejects d :
  truthy (CrossDeviceSyncFinal.doc_deviceId d) = false
  ∨ truthy (CrossDeviceSyncFinal.doc_exportTime d) = false
  ∨ (∀ dd, CrossDeviceSyncFinal.doc_data d ≠ CrossDeviceSyncFinal.DObj dd) →
  CrossDeviceSyncFinal.validateSyncData (ParsedObject d) = false.
Proof.
  unfold CrossDeviceSyncFinal.validateSyncData.
  intros [H|[H|H]]; rewrite ?H; cbn [negb orb]; try by rewrite ?orb_true_r.
  destruct (_ || _); [reflexivity|].
  destruct (CrossDeviceSyncFinal.doc_data d) as [p|dd]; [reflexivity|].
  by destruct (H dd).
Qed.

(** C6, as the code has it. SyncManager rejects a document that lacks a
    version, an export time or a device id, or whose [dataTypes] holds a
    truthy value that is not a non-empty array of the four type names; the
    final CrossDeviceSync rejects a document that lacks a device id, an
    export time or a data object. A rejected import reports an error and
    leaves the application as it was. *)
Theorem import_rejects_invalid :
  (∀ now (file : File SyncManager.ImportDoc) win d,
     fileText file = Json (ParsedObject d) →
     truthy (SyncManager.doc_version d) = false
     ∨ truthy (SyncManager.doc_exportTime d) = false
     ∨ truthy (SyncManager.doc_deviceId d) = false
     ∨ (isTruthy (SyncManager.doc_dataTypes d) = true
        ∧ ¬ SyncManager.wellFormedTypes (SyncManager.doc_dataTypes d)) →
     ∃ msg, SyncManager.importData now (Some file) win = (Err msg, win))
  ∧ (∀ fileAPI (file : File CrossDeviceSyncFinal.SyncDoc) win d,
       fileText file = Json (ParsedObject d) →
       truthy (CrossDeviceSyncFinal.doc_deviceId d) = false
       ∨ truthy (CrossDeviceSyncFinal.doc_exportTime d) = false
       ∨ (∀ dd, CrossDeviceSyncFinal.doc_data d ≠ CrossDeviceSyncFinal.DObj dd) →
       ∃ msg, CrossDeviceSyncFinal.importSyncData fileAPI file win = (Err msg, win)).
Proof.
  split.
  - intros now file win d Ht Hbad.
    pose proof (SyncManager_validate_rejects d Hbad) as Hv.
    unfold SyncManager.importData.
    destruct (endsWith _ _); cbn [negb]; [|eauto].
    destruct (10 * 1024 * 1024 <? fileSize file); [eauto|].
    rewrite Ht, Hv. cbn [negb]. eauto.
  - intros fileAPI file win d Ht Hbad.
    pose proof (Final_validate_rejects d Hbad) as Hv.
    unfold CrossDeviceSyncFinal.importSyncData.
    destruct fileAPI; cbn [negb]; [|eauto].
    destruct win as [app|]; [|eauto].
    destruct (endsWith _ _); cbn [negb]; [|eauto].
    destruct (20 * 1024 * 1024 <? fileSize file); [eauto|].
    rewrite Ht, Hv. cbn [negb]. eauto.
Qed.

Lemma import_rejects_invalid_witness :
  ∃ msg, SyncManager.importData "2024-01-02T00:00:00.000Z" (Some noDeviceFile)
           (Some emptyApp) = (Err msg, Some emptyApp).
Proof.
  apply (proj1 import_rejects_invalid "2024-01-02T00:00:00.000Z" noDeviceFile
           (Some emptyApp) _ eq_refl).
  right. right. left. reflexivity.
Defined.

(** C6 as the claim words it fails. SyncManager accepts a document whose
    [dataTypes] is the number 0, and the final CrossDeviceSync accepts one
    whose [dataTypes] is an array with an unknown name; both imports go
    through and add the document's question to the public bank. *)
Lemma import_accepts_other_dataTypes :
  ¬ SyncManager.wellFormedTypes (VPrim (PNum 0))
  ∧ ¬ SyncManager.wellFormedTypes (VArray [PStr "bogus"])
  ∧ (∃ r, (SyncManager.importData "2024-01-02T00:00:00.000Z" (Some zeroTypesFile)
             (Some emptyApp)).1 = Ok r)
  ∧ collections (SyncManager.importData "2024-01-02T00:00:00.000Z" (Some zeroTypesFile)
                   (Some emptyApp)).2
    = Some (Some [question "q1"], Some [], Some [], Some [])
  ∧ (∃ r, (CrossDeviceSyncFinal.importSyncData true bogusTypesFile (Some emptyApp)).1
          = Ok r)
  ∧ collections (CrossDeviceSyncFinal.importSyncData true bogusTypesFile
                   (Some emptyApp)).2
    = Some (Some [question "q1"], Some [], Some [], Some [])
  ∧ collections (Some emptyApp) = Some (Some [], Some [], Some [], Some []).
Proof.
  split; [by intros (types & ? & _)|].
  split.
  { intros (types & [= <-] & _ & Hall). apply Forall_cons in Hall as [(s & [= <-] & Hs) _].
    vm_compute in Hs. apply list_elem_of_In in Hs. cbn in Hs.
    repeat (destruct Hs as [Hs|Hs]; [discriminate Hs|]). exact Hs. }
  vm_compute. repeat split; try reflexivity; eexists; reflexivity.
Qed.

(** ** SyncManager.exportData *)

Lemma generateSampleData_sizes env :
  length (SyncManager.generateSampleData env).1 = 3%nat
  ∧ length (SyncManager.generateSampleData env).2 = 2%nat.
Proof. split; reflexivity. Qed.

(** A store whose question banks are empty or missing has nothing to
    export, whatever the options. *)
Lemma empty_banks_nothingToExport opts deviceId env app u :
  default [] (publicQuestionBank app) = [] →
  default [] (personalQuestionBank app) = [] →
  SyncManager.nothingToExport (SyncManager.collect opts deviceId env app u) = true.
Proof.
  intros Hp Hq. unfold SyncManager.nothingToExport, SyncManager.collect.
  cbn [SyncManager.ex_dataTypes SyncManager.ex_stats SyncManager.st_totalQuestions].
  apply orb_true_iff. right. apply Nat.eqb_eq.
  assert (∀ (b : bool) (bank : option (list Item)),
            default [] bank = [] →
            default 0%nat (length <$> SyncManager.exported b bank) = 0%nat) as H.
  { intros b bank Hb. unfold SyncManager.exported.
    destruct b, bank as [l|]; cbn in *; try reflexivity. by rewrite Hb. }
  by rewrite (H _ _ Hp), (H _ _ Hq).
Qed.

(** C10. With a user logged in, an export that finds no data type to
    export or no question at all does not return the empty snapshot: the
    document carries the generated samples, three public and two personal
    questions, and is marked as sample data.  A store without questions is
    such a case. *)
Theorem exportData_substitutes_samples opts deviceId env app u :
  currentUser app = Some u →
  SyncManager.nothingToExport (SyncManager.collect opts deviceId env app u) = true
  ∨ (default [] (publicQuestionBank app) = []
     ∧ default [] (personalQuestionBank app) = []) →
  ∃ doc, SyncManager.exportData opts deviceId env (Some app) = Ok doc
    ∧ SyncManager.ex_isSampleData doc = true
    ∧ SyncManager.ex_publicQuestions doc = Some (SyncManager.generateSampleData env).1
    ∧ SyncManager.ex_personalQuestions doc = Some (SyncManager.generateSampleData env).2
    ∧ length (SyncManager.generateSampleData env).1 = 3%nat
    ∧ length (SyncManager.generateSampleData env).2 = 2%nat
    ∧ SyncManager.ex_dataTypes doc = ["publicQuestions"; "personalQuestions"]
    ∧ SyncManager.st_totalQuestions (SyncManager.ex_stats doc) = 5%nat.
Proof.
  intros Hu Hempty.
  assert (SyncManager.nothingToExport (SyncManager.collect opts deviceId env app u) = true)
    as Hn.
  { destruct Hempty as [H|[Hp Hq]]; [exact H|]. by apply empty_banks_nothingToExport. }
  unfold SyncManager.exportData. rewrite Hu, Hn.
  eexists. split; [reflexivity|]. repeat split; reflexivity.
Qed.

Lemma exportData_substitutes_samples_witness :
  ∃ doc, SyncManager.exportData SyncManager.defaultOptions "device_1" sampleEnv
           (Some emptyApp) = Ok doc
    ∧ SyncManager.ex_isSampleData doc = true
    ∧ SyncManager.st_totalQuestions (SyncManager.ex_stats doc) = 5%nat.
Proof.
  destruct (exportData_substitutes_samples SyncManager.defaultOptions "device_1" sampleEnv
              emptyApp (mkUser (PNum 7) "ann") eq_refl (or_intror (conj eq_refl eq_refl)))
    as (doc & Hd & Hs & _ & _ & _ & _ & _ & Ht).
  exists doc. repeat split; assumption.
Defined.

(** Otherwise the document is the snapshot itself. *)
Lemma exportData_snapshot opts deviceId env app u :
  currentUser app = Some u →
  SyncManager.nothingToExport (SyncManager.collect opts deviceId env app u) = false →
  SyncManager.exportData opts deviceId env (Some app)
  = Ok (SyncManager.collect opts deviceId env app u).
Proof. intros Hu Hn. unfold SyncManager.exportData. by rewrite Hu, Hn. Qed.

End SyncSpec.

(** * Properties of the other mistake-book operations *)
Module MistakeBookOpsSpec.
Import MistakeBook MistakeBookOps MistakeBookSpec.

(** What the save hook leaves alone beside the core of a document. *)
Lemma preSave_keeps_counts now m :
  reviewCount (reviewInfo (preSave now m)) = reviewCount (reviewInfo m)
  ∧ correctAttempts (errorStats (preSave now m)) = correctAttempts (errorStats m)
  ∧ importance (preSave now m) = importance m
  ∧ viewCount (metadata (preSave now m)) = viewCount (metadata m)
  ∧ (isArchived (metadata m) = true → isArchived (metadata (preSave now m)) = true).
Proof.
  unfold preSave.
  set (m1 := with_updatedAt now m).
  assert (reviewCount (reviewInfo m1) = reviewCount (reviewInfo m)
          ∧ correctAttempts (errorStats m1) = correctAttempts (errorStats m)
          ∧ importance m1 = importance m ∧ metadata m1 = metadata m)
    as (A1 & A2 & A3 & A4) by (subst m1; unfold_fields; repeat split; reflexivity).
  set (m2 := refreshErrorRate m1).
  assert (reviewCount (reviewInfo m2) = reviewCount (reviewInfo m1)
          ∧ correctAttempts (errorStats m2) = correctAttempts (errorStats m1)
          ∧ importance m2 = importance m1 ∧ metadata m2 = metadata m1)
    as (B1 & B2 & B3 & B4).
  { subst m2. unfold refreshErrorRate. cbv zeta.
    destruct (0 <? totalAttempts (errorStats m1)); unfold_fields;
      repeat split; reflexivity. }
  set (m3 := promote m2).
  assert (reviewCount (reviewInfo m3) = reviewCount (reviewInfo m2)
          ∧ correctAttempts (errorStats m3) = correctAttempts (errorStats m2)
          ∧ importance m3 = importance m2 ∧ metadata m3 = metadata m2)
    as (C1 & C2 & C3 & C4).
  { subst m3. unfold promote.
    destruct (3 <=? consecutiveCorrect (reviewInfo m2)); unfold_fields;
      repeat split; reflexivity. }
  assert (reviewCount (reviewInfo (archiveAtFive now m3)) = reviewCount (reviewInfo m3)
          ∧ correctAttempts (errorStats (archiveAtFive now m3))
            = correctAttempts (errorStats m3)
          ∧ importance (archiveAtFive now m3) = importance m3
          ∧ viewCount (metadata (archiveAtFive now m3)) = viewCount (metadata m3)
          ∧ (isArchived (metadata m3) = true
             → isArchived (metadata (archiveAtFive now m3)) = true))
    as (D1 & D2 & D3 & D4 & D5).
  { unfold archiveAtFive. destruct (_ && _); unfold_fields;
      repeat split; try reflexivity; auto. }
  rewrite D1, D2, D3, D4, C1, C2, C3, C4, B1, B2, B3, B4, A1, A2, A3, A4.
  repeat split; try reflexivity. intros H. apply D5. congruence.
Qed.

(** The rounded percentage of a part of a whole lies between 0 and 100. *)
Lemma percent_range n d :
  0 < d → 0 <= n <= d → 0 <= percent n d <= 100.
Proof. intros Hd Hn. by apply DoubleSpec.percent_bounds. Qed.

Lemma findById_none store mistakeId userId :
  (∀ m, m ∈ store → _id m = mistakeId → user m ≠ userId) →
  findById store mistakeId userId = None.
Proof.
  intros H. unfold findById. apply list_find_None, Forall_forall.
  intros m Hm [Hid Hu]. by apply (H m Hm Hid).
Qed.

(** X1. A document that is not there, or that belongs to another user, is
    reported as not found by [recordReview], [getMistakeById],
    [deleteMistake] and [archiveMistake] alike: the call fails and writes
    nothing. *)
Theorem statics_report_not_found zone now store mistakeId userId isCorrect :
  (∀ m, m ∈ store → _id m = mistakeId → user m ≠ userId) →
  recordReview zone now store mistakeId userId isCorrect
  = Err "记录复习情况失败: 错题记录不存在"
  ∧ getMistakeById now store mistakeId userId = Err "获取错题详情失败: 错题记录不存在"
  ∧ deleteMistake store mistakeId userId = Err "删除错题记录失败: 错题记录不存在"
  ∧ archiveMistake now store mistakeId userId = Err "归档错题失败: 错题记录不存在".
Proof.
  intros H. pose proof (findById_none store mistakeId userId H) as Hf.
  unfold recordReview, getMistakeById, deleteMistake, archiveMistake.
  by rewrite Hf.
Qed.

Lemma statics_report_not_found_witness :
  recordReview utc 1000 [sample 1 0 unreviewed false] 1 8 true
  = Err "记录复习情况失败: 错题记录不存在"
  ∧ deleteMistake [sample 1 0 unreviewed false] 1 8
    = Err "删除错题记录失败: 错题记录不存在".
Proof.
  destruct (statics_report_not_found utc 1000 [sample 1 0 unreviewed false] 1 8 true)
    as (H1 & _ & H3 & _).
  - intros m Hm _. apply list_elem_of_singleton in Hm as ->. cbn. lia.
  - split; assumption.
Defined.

Lemma promote_counts m :
  reviewCount (reviewInfo (promote m)) = reviewCount (reviewInfo m)
  ∧ errorStats (promote m) = errorStats m
  ∧ importance (promote m) = importance m.
Proof.
  unfold promote. destruct (3 <=? consecutiveCorrect (reviewInfo m)); unfold_fields;
    repeat split; reflexivity.
Qed.

(** Counters, status and flags of the document handed to the save hook by
    a review. *)
Lemma beforeSave_counts zone now ok m :
  reviewCount (reviewInfo (beforeSave zone now ok m)) = reviewCount (reviewInfo m) + 1
  ∧ totalAttempts (errorStats (beforeSave zone now ok m)) = totalAttempts (errorStats m) + 1
  ∧ correctAttempts (errorStats (beforeSave zone now ok m))
    = correctAttempts (errorStats m) + (if ok then 1 else 0)
  ∧ metadata (beforeSave zone now ok m) = metadata m
  ∧ importance (beforeSave zone now ok m) = importance m.
Proof.
  unfold beforeSave. destruct ok.
  - unfold reviewCorrect. set (x := scheduleNext zone now _).
    destruct (promote_counts x) as (P1 & P2 & P3).
    destruct (promote_frame x) as (_ & _ & P4 & _).
    assert (reviewCount (reviewInfo x) = reviewCount (reviewInfo m) + 1
            ∧ totalAttempts (errorStats x) = totalAttempts (errorStats m)
            ∧ correctAttempts (errorStats x) = correctAttempts (errorStats m) + 1
            ∧ metadata x = metadata m ∧ importance x = importance m)
      as (X1 & X2 & X3 & X4 & X5)
      by (subst x; unfold_fields; repeat split; reflexivity).
    unfold_fields. rewrite P1, P2, P3, P4, X1, X2, X3, X4, X5.
    repeat split; reflexivity.
  - unfold_fields. rewrite Z.add_0_r. repeat split; reflexivity.
Qed.

Lemma preSave_errorRate now m :
  errorRate (errorStats (preSave now m))
  = if 0 <? totalAttempts (errorStats m)
    then percent (totalAttempts (errorStats m) - correctAttempts (errorStats m))
           (totalAttempts (errorStats m))
    else errorRate (errorStats m).
Proof.
  unfold preSave.
  set (m1 := with_updatedAt now m).
  assert (errorStats m1 = errorStats m) as A by (subst m1; unfold_fields; reflexivity).
  set (m2 := refreshErrorRate m1).
  destruct (promote_counts m2) as (_ & P & _).
  assert (errorStats (archiveAtFive now (promote m2)) = errorStats (promote m2)) as D.
  { unfold archiveAtFive. destruct (_ && _); unfold_fields; reflexivity. }
  rewrite D, P. subst m2. unfold refreshErrorRate. cbv zeta. rewrite A.
  destruct (0 <? totalAttempts (errorStats m)); unfold_fields; by rewrite ?A.
Qed.

(** What one review, of either outcome, does to the counters. *)
Lemma reviewed_counts zone now ok m :
  reviewCount (reviewInfo (reviewed zone now ok m)) = reviewCount (reviewInfo m) + 1
  ∧ totalAttempts (errorStats (reviewed zone now ok m)) = totalAttempts (errorStats m) + 1
  ∧ correctAttempts (errorStats (reviewed zone now ok m))
    = correctAttempts (errorStats m) + (if ok then 1 else 0)
  ∧ importance (reviewed zone now ok m) = importance m
  ∧ (isArchived (metadata m) = true → isArchived (metadata (reviewed zone now ok m)) = true).
Proof.
  unfold reviewed.
  destruct (beforeSave_counts zone now ok m) as (B1 & B2 & B3 & B4 & B5).
  destruct (preSave_keeps_counts now (beforeSave zone now ok m)) as (K1 & K2 & K3 & _ & K5).
  destruct (preSave_keeps now (beforeSave zone now ok m)) as (_ & _ & _ & _ & _ & K6 & _).
  rewrite K1, K2, K3, K6, B1, B2, B3, B5. repeat split; try reflexivity.
  intros H. apply K5. by rewrite B4.
Qed.

Lemma reviewed_levelInRange zone now ok m :
  levelInRange m → levelInRange (reviewed zone now ok m).
Proof.
  unfold levelInRange. intros [Hl Hc]. destruct ok.
  - destruct (reviewed_correct zone now m) as (_ & -> & ->).
    destruct (3 <=? consecutiveCorrect (reviewInfo m) + 1) eqn:E; lia.
  - destruct (reviewed_wrong zone now m) as (_ & -> & ->). lia.
Qed.

Lemma reviewed_countersInOrder zone now ok m :
  countersInOrder m →
  countersInOrder (reviewed zone now ok m)
  ∧ 0 <= errorRate (errorStats (reviewed zone now ok m)) <= 100
  ∧ errorRate (errorStats (reviewed zone now ok m))
    = percent (totalAttempts (errorStats (reviewed zone now ok m))
                 - correctAttempts (errorStats (reviewed zone now ok m)))
        (totalAttempts (errorStats (reviewed zone now ok m))).
Proof.
  unfold countersInOrder. intros [Hc Ht].
  destruct (reviewed_counts zone now ok m) as (_ & R2 & R3 & _).
  assert (0 <= correctAttempts (errorStats (reviewed zone now ok m))
          <= totalAttempts (errorStats (reviewed zone now ok m))
          ∧ 0 < totalAttempts (errorStats (reviewed zone now ok m))) as [Hc' Ht'].
  { rewrite R2, R3. destruct ok; lia. }
  split; [by split|].
  assert (errorRate (errorStats (reviewed zone now ok m))
          = percent (totalAttempts (errorStats (reviewed zone now ok m))
                       - correctAttempts (errorStats (reviewed zone now ok m)))
              (totalAttempts (errorStats (reviewed zone now ok m)))) as He.
  { unfold reviewed at 1. rewrite preSave_errorRate.
    destruct (beforeSave_counts zone now ok m) as (_ & B2 & B3 & _).
    rewrite B2, B3, R2, R3.
    destruct (0 <? totalAttempts (errorStats m) + 1) eqn:E; [reflexivity|lia]. }
  split; [|exact He]. rewrite He. apply percent_range; lia.
Qed.

(** No review leaves a negative streak behind. *)
Lemma reviewed_streak zone now ok m :
  0 <= consecutiveCorrect (reviewInfo m) →
  0 <= consecutiveCorrect (reviewInfo (reviewed zone now ok m)).
Proof.
  intros Hc. destruct ok.
  - destruct (reviewed_correct zone now m) as (_ & -> & _). destruct (3 <=? _); lia.
  - destruct (reviewed_wrong zone now m) as (_ & -> & _). lia.
Qed.

Lemma reviewSession_found zone events : ∀ store mistakeId userId i m,
  findById store mistakeId userId = Some (i, m) →
  0 <= consecutiveCorrect (reviewInfo m) →
  reviewSession zone events store mistakeId userId
  = Ok (<[i := sessionResult zone events m]> store).
Proof.
  induction events as [|[now ok] rest IH]; intros store mistakeId userId i m Hf Hc.
  - cbn. f_equal. symmetry. apply list_insert_id.
    unfold findById in Hf. by apply list_find_Some in Hf as (? & _).
  - cbn [reviewSession].
    rewrite (recordReview_found zone _ _ _ _ _ _ _ Hf (λ _, Hc)).
    destruct (reviewed_identity zone now ok m) as [Hid Hu].
    rewrite (IH _ _ _ _ _ (findById_insert _ _ _ _ _ _ Hf Hid Hu)
               (reviewed_streak zone now ok m Hc)).
    by rewrite list_insert_insert_eq.
Qed.

Lemma sessionResult_invariants zone events : ∀ m,
  levelInRange m → countersInOrder m →
  levelInRange (sessionResult zone events m)
  ∧ countersInOrder (sessionResult zone events m)
  ∧ reviewCount (reviewInfo (sessionResult zone events m))
    = reviewCount (reviewInfo m) + Z.of_nat (length events)
  ∧ totalAttempts (errorStats (sessionResult zone events m))
    = totalAttempts (errorStats m) + Z.of_nat (length events)
  ∧ correctAttempts (errorStats (sessionResult zone events m))
    = correctAttempts (errorStats m)
      + Z.of_nat (length (filter (λ ev, snd ev = true) events))
  ∧ importance (sessionResult zone events m) = importance m
  ∧ (isArchived (metadata m) = true →
     isArchived (metadata (sessionResult zone events m)) = true).
Proof.
  induction events as [|[now ok] rest IH]; intros m Hl Hc.
  - cbn. rewrite !Z.add_0_r. repeat split; try reflexivity; try apply Hl; try apply Hc.
    auto.
  - change (sessionResult zone ((now, ok) :: rest) m)
      with (sessionResult zone rest (reviewed zone now ok m)).
    destruct (reviewed_counts zone now ok m) as (R1 & R2 & R3 & R4 & R5).
    pose proof (reviewed_levelInRange zone now ok m Hl) as Hl1.
    destruct (reviewed_countersInOrder zone now ok m Hc) as (Hc1 & _).
    destruct (IH (reviewed zone now ok m) Hl1 Hc1) as (I1 & I2 & I3 & I4 & I5 & I6 & I7).
    rewrite I3, I4, I5, I6, R1, R2, R3, R4.
    rewrite filter_cons. cbn [snd length].
    split; [exact I1|]. split; [exact I2|].
    split; [lia|]. split; [lia|].
    split; [destruct ok; [rewrite decide_True by done|rewrite decide_False by done];
            cbn [length]; lia|].
    split; [reflexivity|]. intros H. by apply I7, R5.
Qed.

(** X2. Any run of reviews on one document, correct or wrong in any order,
    keeps the level between 1 and 5 and the streak between 0 and 2, counts
    every review (reviews and attempts go up by the number of calls, correct
    attempts by the number of correct ones), leaves the importance alone and
    never takes a document out of the archive. *)
Theorem reviewSession_invariants zone events store mistakeId userId i m :
  findById store mistakeId userId = Some (i, m) →
  levelInRange m → countersInOrder m →
  ∃ m', reviewSession zone events store mistakeId userId = Ok (<[i := m']> store)
    ∧ (1 <= masteryLevel m' <= 5 ∧ 0 <= consecutiveCorrect (reviewInfo m') <= 2)
    ∧ reviewCount (reviewInfo m') = reviewCount (reviewInfo m) + Z.of_nat (length events)
    ∧ totalAttempts (errorStats m')
      = totalAttempts (errorStats m) + Z.of_nat (length events)
    ∧ correctAttempts (errorStats m')
      = correctAttempts (errorStats m)
        + Z.of_nat (length (filter (λ ev, snd ev = true) events))
    ∧ 0 <= correctAttempts (errorStats m') <= totalAttempts (errorStats m')
    ∧ importance m' = importance m
    ∧ (isArchived (metadata m) = true → isArchived (metadata m') = true).
Proof.
  intros Hf Hl Hc. exists (sessionResult zone events m).
  split; [apply reviewSession_found; [exact Hf | apply Hl]|].
  destruct (sessionResult_invariants zone events m Hl Hc) as (I1 & I2 & I3 & I4 & I5 & I6 & I7).
  split; [exact I1|]. split; [exact I3|]. split; [exact I4|]. split; [exact I5|].
  split; [apply I2|]. split; [exact I6 | exact I7].
Qed.

Lemma reviewSession_invariants_witness :
  ∃ m', reviewSession utc [(1000, true); (2000, false); (3000, true)]
          [sample 5 2 reviewing false] 1 7
        = Ok (<[0%nat := m']> [sample 5 2 reviewing false])
    ∧ 1 <= masteryLevel m' <= 5
    ∧ totalAttempts (errorStats m') = 4.
Proof.
  destruct (reviewSession_invariants utc [(1000, true); (2000, false); (3000, true)]
              [sample 5 2 reviewing false] 1 7 0%nat (sample 5 2 reviewing false)
              eq_refl) as (m' & Hr & [Hl _] & _ & Ht & _).
  - unfold levelInRange. cbn. lia.
  - unfold countersInOrder. cbn. lia.
  - exists m'. split; [exact Hr|]. split; [exact Hl | exact Ht].
Defined.

(** X3. After every review that is saved (a wrong one, or a correct one
    on a streak that is not negative) the stored error rate is the share of
    wrong attempts among all attempts as the hook computes it,
    [Math.round(((total - correct) / total) * 100)] in double precision: a
    number between 0 and 100 as long as the record never had more correct
    attempts than attempts, 100 when no attempt was correct and 0 when all
    were. *)
Theorem recordReview_errorRate zone now store mistakeId userId isCorrect i m :
  findById store mistakeId userId = Some (i, m) →
  countersInOrder m →
  (isCorrect = true → 0 <= consecutiveCorrect (reviewInfo m)) →
  ∃ m', recordReview zone now store mistakeId userId isCorrect = Ok (<[i := m']> store, m')
    ∧ totalAttempts (errorStats m') = totalAttempts (errorStats m) + 1
    ∧ correctAttempts (errorStats m')
      = correctAttempts (errorStats m) + (if isCorrect then 1 else 0)
    ∧ errorRate (errorStats m')
      = Double.round
          (Double.mul
             (Double.div
                (inject_Z (totalAttempts (errorStats m') - correctAttempts (errorStats m')))
                (inject_Z (totalAttempts (errorStats m'))))
             100)
    ∧ 0 <= errorRate (errorStats m') <= 100
    ∧ (correctAttempts (errorStats m') = 0 → errorRate (errorStats m') = 100)
    ∧ (correctAttempts (errorStats m') = totalAttempts (errorStats m') →
       errorRate (errorStats m') = 0).
Proof.
  intros Hf Hc Hs. exists (reviewed zone now isCorrect m).
  split; [by apply recordReview_found|].
  destruct (reviewed_counts zone now isCorrect m) as (_ & R2 & R3 & _).
  destruct (reviewed_countersInOrder zone now isCorrect m Hc) as ((_ & Ht) & Hb & He).
  split; [exact R2|]. split; [exact R3|]. split; [exact He|]. split; [exact Hb|].
  split.
  - intros H0. rewrite He, H0, Z.sub_0_r. by apply DoubleSpec.percent_whole.
  - intros H1. rewrite He, H1, Z.sub_diag. apply DoubleSpec.percent_none.
Qed.

Lemma recordReview_errorRate_witness :
  ∃ m', recordReview utc 1000 [sample 1 0 unreviewed false] 1 7 true
        = Ok (<[0%nat := m']> [sample 1 0 unreviewed false], m')
    ∧ errorRate (errorStats m') = 50.
Proof.
  destruct (recordReview_errorRate utc 1000 [sample 1 0 unreviewed false] 1 7 true 0%nat
              (sample 1 0 unreviewed false) eq_refl) as (m' & Hr & Ht & Hc & He & _).
  - unfold countersInOrder. cbn. lia.
  - intros _. cbn. lia.
  - exists m'. split; [exact Hr|]. rewrite He, Ht, Hc. vm_compute. reflexivity.
Defined.

(** The double product differs from the exact one: of 40 attempts with 17
    correct, 23 are wrong, the exact share is 57.5 per cent and the hook
    stores 57. *)
Lemma percent_not_exact : percent 23 40 = 57 ∧ (2 * (23 * 100) + 40) / (2 * 40) = 58.
Proof. split; vm_compute; reflexivity. Qed.

Lemma with_errorRate_same x : with_errorRate (errorRate (errorStats x)) x = x.
Proof. by destruct x as [? ? ? ? ? ? ? ? ? ? ? [? ? ?] ? ? ? ?]. Qed.

(** X4. A save leaves a streak below three, and a second save changes
    nothing but the modification time: the level is not raised again and the
    archive date is not stamped again. *)
Theorem preSave_twice now now' m :
  consecutiveCorrect (reviewInfo (preSave now m)) < 3
  ∧ preSave now' (preSave now m) = with_updatedAt now' (preSave now m).
Proof.
  assert (consecutiveCorrect (reviewInfo (preSave now m)) < 3) as Hcc.
  { destruct (preSave_effect now m) as (_ & -> & _).
    destruct (3 <=? consecutiveCorrect (reviewInfo m)) eqn:E; lia. }
  split; [exact Hcc|].
  assert (5 <= masteryLevel (preSave now m) → reviewStatus (preSave now m) = mastered)
    as Hst.
  { destruct (preSave_effect now m) as (Hl & _ & Ha & Hk). cbv zeta in Hl, Ha, Hk.
    rewrite Hl. intros H5.
    destruct (decide (reviewStatus m = mastered)) as [Hm|Hm].
    - destruct (Hk (or_intror Hm)) as [-> _]. exact Hm.
    - by destruct (Ha H5 Hm). }
  assert (0 < totalAttempts (errorStats (preSave now m)) →
          percent (totalAttempts (errorStats (preSave now m))
                     - correctAttempts (errorStats (preSave now m)))
            (totalAttempts (errorStats (preSave now m)))
          = errorRate (errorStats (preSave now m))) as Her.
  { rewrite preSave_errorRate.
    destruct (preSave_keeps now m) as (_ & _ & _ & _ & _ & -> & _).
    destruct (preSave_keeps_counts now m) as (_ & -> & _).
    intros Ht. destruct (0 <? totalAttempts (errorStats m)) eqn:E; [reflexivity|lia]. }
  remember (preSave now m) as r eqn:Hr. clear Hr.
  unfold preSave.
  set (r1 := with_updatedAt now' r).
  assert (errorStats r1 = errorStats r ∧ reviewInfo r1 = reviewInfo r
          ∧ masteryLevel r1 = masteryLevel r ∧ reviewStatus r1 = reviewStatus r)
    as (E1 & E2 & E3 & E4) by (subst r1; unfold_fields; repeat split; reflexivity).
  assert (refreshErrorRate r1 = r1) as ->.
  { unfold refreshErrorRate. cbv zeta. rewrite E1.
    destruct (0 <? totalAttempts (errorStats r)) eqn:Et; [|reflexivity].
    rewrite Her by lia. rewrite <- E1. apply with_errorRate_same. }
  assert (promote r1 = r1) as ->.
  { unfold promote. rewrite E2.
    destruct (3 <=? consecutiveCorrect (reviewInfo r)) eqn:E; [lia|reflexivity]. }
  unfold archiveAtFive. rewrite E3, E4.
  destruct (5 <=? masteryLevel r) eqn:E5; [|reflexivity].
  rewrite Hst by lia. reflexivity.
Qed.

Lemma findById_Some store mistakeId userId i m :
  findById store mistakeId userId = Some (i, m) →
  store !! i = Some m ∧ _id m = mistakeId ∧ user m = userId.
Proof.
  unfold findById. intros (Hi & [Hid Hu] & _)%list_find_Some. done.
Qed.

Lemma elem_of_delete_unique store i m :
  uniqueIds store → store !! i = Some m →
  ∀ x, x ∈ delete i store ↔ x ∈ store ∧ _id x ≠ _id m.
Proof.
  intros Hu Hi x. split.
  - intros [j Hj]%list_elem_of_lookup_1. rewrite list_lookup_delete in Hj.
    destruct (decide (j < i)%nat) as [Hlt|Hge].
    + split; [by eapply list_elem_of_lookup_2|].
      intros E. pose proof (Hu j i x m Hj Hi E). lia.
    + split; [by eapply list_elem_of_lookup_2|].
      intros E. pose proof (Hu (S j) i x m Hj Hi E). lia.
  - intros [[j Hj]%list_elem_of_lookup_1 Hne].
    assert (j ≠ i) as Hji by (intros ->; congruence).
    destruct (decide (j < i)%nat) as [Hlt|Hge].
    + apply (list_elem_of_lookup_2 _ j). by rewrite list_lookup_delete_lt.
    + destruct j as [|j]; [lia|].
      apply (list_elem_of_lookup_2 _ j). rewrite list_lookup_delete_ge by lia. done.
Qed.

(** X5. Deleting a document of one's own removes that document and no
    other: the collection is one shorter, every document with another id is
    still there, and a later review or deletion of the same id reports the
    document as not found. *)
Theorem deleteMistake_removes zone now store mistakeId userId isCorrect i m :
  findById store mistakeId userId = Some (i, m) →
  uniqueIds store →
  ∃ store', deleteMistake store mistakeId userId = Ok store'
    ∧ S (length store') = length store
    ∧ (∀ x, x ∈ store' ↔ x ∈ store ∧ _id x ≠ mistakeId)
    ∧ recordReview zone now store' mistakeId userId isCorrect
      = Err "记录复习情况失败: 错题记录不存在"
    ∧ deleteMistake store' mistakeId userId = Err "删除错题记录失败: 错题记录不存在".
Proof.
  intros Hf Hu. exists (delete i store).
  destruct (findById_Some _ _ _ _ _ Hf) as (Hi & Hid & Huser).
  pose proof (elem_of_delete_unique store i m Hu Hi) as Hel. rewrite Hid in Hel.
  assert (findById (delete i store) mistakeId userId = None) as Hnone.
  { apply findById_none. intros x Hx Hxid. apply Hel in Hx as [_ Hx]. done. }
  split; [unfold deleteMistake; by rewrite Hf|].
  split.
  { rewrite length_delete by (by exists m).
    apply lookup_lt_Some in Hi. lia. }
  split; [exact Hel|].
  unfold recordReview, deleteMistake. by rewrite Hnone.
Qed.

Lemma deleteMistake_removes_witness :
  ∃ store', deleteMistake [sample 1 0 unreviewed false] 1 7 = Ok store'
    ∧ S (length store') = 1%nat.
Proof.
  destruct (deleteMistake_removes utc 0 [sample 1 0 unreviewed false] 1 7 true 0%nat
              (sample 1 0 unreviewed false) eq_refl) as (s' & Hd & Hl & _).
  - intros i j a b Hi Hj _.
    destruct i as [|i]; [|destruct i; discriminate Hi].
    destruct j as [|j]; [|destruct j; discriminate Hj].
    reflexivity.
  - exists s'. split; [exact Hd | exact Hl].
Defined.

Lemma filter_not_selected_twice ids uid (l : list MistakeRecord) :
  filter (selected ids uid) (filter (λ m, ¬ selected ids uid m) l) = [].
Proof.
  induction l as [|x l IH]; [reflexivity|].
  rewrite filter_cons. destruct (decide (¬ selected ids uid x)) as [Hn|Hn].
  - rewrite filter_cons. by rewrite decide_False.
  - exact IH.
Qed.

Lemma filter_split_length {A : Type} (P : A → Prop) `{∀ x, Decision (P x)} (l : list A) :
  (length (filter (λ x, ¬ P x) l) + length (filter P l) = length l)%nat.
Proof.
  induction l as [|x l IH]; [reflexivity|].
  rewrite !filter_cons. destruct (decide (P x)) as [Hp|Hp].
  - rewrite decide_False by tauto. cbn [length]. lia.
  - rewrite decide_True by done. cbn [length]. lia.
Qed.

(** X6. A bulk deletion removes exactly the listed documents of the user:
    what is left and what is reported as deleted add up to the collection,
    documents of other users stay even when their ids are listed, every
    listed id is afterwards not found for the user, and a second call with
    the same list deletes nothing. *)
Theorem deleteMistakes_effect store mistakeIds userId :
  (length (deleteMistakes store mistakeIds userId).1
   + (deleteMistakes store mistakeIds userId).2 = length store)%nat
  ∧ (∀ x, x ∈ store → user x ≠ userId → x ∈ (deleteMistakes store mistakeIds userId).1)
  ∧ (∀ x, x ∈ (deleteMistakes store mistakeIds userId).1
          ↔ x ∈ store ∧ ¬ (_id x ∈ mistakeIds ∧ user x = userId))
  ∧ (∀ mistakeId, mistakeId ∈ mistakeIds →
       deleteMistake (deleteMistakes store mistakeIds userId).1 mistakeId userId
       = Err "删除错题记录失败: 错题记录不存在")
  ∧ deleteMistakes (deleteMistakes store mistakeIds userId).1 mistakeIds userId
    = ((deleteMistakes store mistakeIds userId).1, 0%nat).
Proof.
  unfold deleteMistakes. cbn [fst snd].
  split; [apply filter_split_length|].
  split.
  { intros x Hx Hu. apply list_elem_of_filter. split; [|done].
    unfold selected. tauto. }
  split.
  { intros x. rewrite list_elem_of_filter. unfold selected. tauto. }
  split.
  { intros mistakeId Hin. unfold deleteMistake. rewrite findById_none; [done|].
    intros x Hx Hid Hu. apply list_elem_of_filter in Hx as [Hx _].
    apply Hx. unfold selected. by rewrite Hid. }
  f_equal.
  - apply list_filter_filter_l. intros x Hx. exact Hx.
  - by rewrite filter_not_selected_twice.
Qed.

Lemma deleteMistakes_effect_witness :
  sample 1 0 unreviewed false ∈ (deleteMistakes [sample 1 0 unreviewed false] [1] 8).1.
Proof.
  apply (proj1 (proj2 (deleteMistakes_effect [sample 1 0 unreviewed false] [1] 8))).
  - by left.
  - cbn. lia.
Defined.

(** A document whose streak is below three, whose level 5 (if reached) is
    already marked mastered and whose error rate is up to date goes through
    the save hook unchanged but for the modification time. *)
Lemma preSave_settled now m :
  consecutiveCorrect (reviewInfo m) < 3 →
  (5 <= masteryLevel m → reviewStatus m = mastered) →
  (0 < totalAttempts (errorStats m) →
   errorRate (errorStats m)
   = percent (totalAttempts (errorStats m) - correctAttempts (errorStats m))
       (totalAttempts (errorStats m))) →
  preSave now m = with_updatedAt now m.
Proof.
  intros Hcc Hst Her. unfold preSave.
  set (r1 := with_updatedAt now m).
  assert (errorStats r1 = errorStats m ∧ reviewInfo r1 = reviewInfo m
          ∧ masteryLevel r1 = masteryLevel m ∧ reviewStatus r1 = reviewStatus m)
    as (E1 & E2 & E3 & E4) by (subst r1; unfold_fields; repeat split; reflexivity).
  assert (refreshErrorRate r1 = r1) as ->.
  { unfold refreshErrorRate. cbv zeta. rewrite E1.
    destruct (0 <? totalAttempts (errorStats m)) eqn:Et; [|reflexivity].
    rewrite <- Her by lia. rewrite <- E1. apply with_errorRate_same. }
  assert (promote r1 = r1) as ->.
  { unfold promote. rewrite E2.
    destruct (3 <=? consecutiveCorrect (reviewInfo m)) eqn:E; [lia|reflexivity]. }
  unfold archiveAtFive. rewrite E3, E4.
  destruct (5 <=? masteryLevel m) eqn:E5; [|reflexivity].
  rewrite Hst by lia. reflexivity.
Qed.






(** The schema trims the reason of a mistake: blanks, tabs and line ends
    at either end go, also those beyond ASCII, and what is between stays. *)
Lemma trim_examples :
  trim " careless " = "careless"
  ∧ trim "two words" = "two words"
  ∧ trim "   " = ""
  ∧ trim (String (ascii_of_nat 9) "tab" +:+ String (ascii_of_nat 10) "") = "tab"
  ∧ trim (stringOf [227; 128; 128; 65; 194; 160]%nat) = "A".
Proof. repeat split; vm_compute; reflexivity. Qed.



Lemma with_viewCount_fields v m :
  sameCore m (with_viewCount v m)
  ∧ viewCount (metadata (with_viewCount v m)) = v
  ∧ isArchived (metadata (with_viewCount v m)) = isArchived (metadata m)
  ∧ reviewInfo (with_viewCount v m) = reviewInfo m
  ∧ errorStats (with_viewCount v m) = errorStats m
  ∧ masteryLevel (with_viewCount v m) = masteryLevel m
  ∧ reviewStatus (with_viewCount v m) = reviewStatus m.
Proof. unfold sameCore, with_viewCount. unfold_fields. repeat split; reflexivity. Qed.

(** X9. Reading a document by id counts the view: the stored view count
    goes up by one and identity, answer, tags, attempts and schedule stay;
    for a document as the save hook leaves it (streak below three, level 5
    only when marked mastered, error rate up to date) the view count and the
    modification time are the only fields that change. *)
Theorem getMistakeById_counts_view now store mistakeId userId i m :
  findById store mistakeId userId = Some (i, m) →
  ∃ m', getMistakeById now store mistakeId userId = Ok (<[i := m']> store, m')
    ∧ viewCount (metadata m') = viewCount (metadata m) + 1
    ∧ sameCore m m'
    ∧ (consecutiveCorrect (reviewInfo m) < 3 →
       (5 <= masteryLevel m → reviewStatus m = mastered) →
       (0 < totalAttempts (errorStats m) →
        errorRate (errorStats m)
        = percent (totalAttempts (errorStats m) - correctAttempts (errorStats m))
            (totalAttempts (errorStats m))) →
       m' = with_updatedAt now (with_viewCount (viewCount (metadata m) + 1) m)).
Proof.
  intros Hf.
  exists (preSave now (with_viewCount (viewCount (metadata m) + 1) m)).
  destruct (with_viewCount_fields (viewCount (metadata m) + 1) m)
    as (Hc & Hv & _ & Hr & He & Hl & Hs).
  split; [unfold getMistakeById; by rewrite Hf|].
  split.
  { destruct (preSave_keeps_counts now (with_viewCount (viewCount (metadata m) + 1) m))
      as (_ & _ & _ & -> & _). exact Hv. }
  split; [exact (sameCore_trans _ _ _ Hc (preSave_keeps now _))|].
  intros Hcc Hst Her. apply preSave_settled; rewrite ?Hr, ?He, ?Hl, ?Hs; assumption.
Qed.

Lemma getMistakeById_counts_view_witness :
  ∃ m', getMistakeById 5000 [sample 1 0 unreviewed false] 1 7
        = Ok (<[0%nat := m']> [sample 1 0 unreviewed false], m')
    ∧ viewCount (metadata m') = 1.
Proof.
  destruct (getMistakeById_counts_view 5000 [sample 1 0 unreviewed false] 1 7 0%nat
              (sample 1 0 unreviewed false) eq_refl) as (m' & Hg & Hv & _).
  exists m'. split; [exact Hg | exact Hv].
Defined.

Lemma dueOrder_notAfter a b : dueOrder a b → notAfter a b.
Proof.
  unfold dueOrder, dueBefore, notAfter. intros H.
  apply orb_false_iff in H as [H1 H2]. apply Z.ltb_ge in H1.
  split; [exact H1|]. intros E ta tb Ha Hb.
  rewrite Ha, Hb, E, Z.eqb_refl in H2. cbn in H2. by apply Z.ltb_ge in H2.
Qed.

Lemma dueFor_date now userId m :
  dueFor now userId m →
  ∃ t, nextReviewDate (reviewInfo m) = ValidDate t ∧ t <= now.
Proof.
  unfold dueFor, isDueForReview. intros (_ & _ & H).
  destruct (nextReviewDate (reviewInfo m)) as [t|]; [|discriminate].
  exists t. split; [reflexivity|]. by apply Z.leb_le.
Qed.

Lemma dueOrder_total now userId a b :
  dueFor now userId a → dueFor now userId b → dueBefore a b = true → dueOrder a b.
Proof.
  intros [ta [Ha _]]%dueFor_date [tb [Hb _]]%dueFor_date.
  unfold dueOrder, dueBefore. rewrite Ha, Hb. cbn [dateBefore].
  intros H. apply orb_true_iff in H as [H|[H1 H2]%andb_true_iff].
  - apply Z.ltb_lt in H. apply orb_false_iff. split; [apply Z.ltb_ge; lia|].
    apply andb_false_iff. left. apply Z.eqb_neq. lia.
  - apply Z.eqb_eq in H1. apply Z.ltb_lt in H2. apply orb_false_iff.
    split; [apply Z.ltb_ge; lia|]. apply andb_false_iff. right. apply Z.ltb_ge. lia.
Qed.

Lemma dueOrder_trans now userId a b c :
  dueFor now userId a → dueFor now userId b → dueFor now userId c →
  dueOrder a b → dueOrder b c → dueOrder a c.
Proof.
  intros [ta [Ha _]]%dueFor_date [tb [Hb _]]%dueFor_date [tc [Hc _]]%dueFor_date.
  unfold dueOrder, dueBefore. rewrite Ha, Hb, Hc. cbn [dateBefore].
  intros [H1 H2]%orb_false_iff [H3 H4]%orb_false_iff.
  apply Z.ltb_ge in H1, H3.
  apply orb_false_iff. split; [apply Z.ltb_ge; lia|].
  destruct (importance c =? importance a) eqn:E; [|reflexivity].
  apply Z.eqb_eq in E. cbn [andb]. apply Z.ltb_ge.
  assert (importance b = importance a) as Eb by lia.
  rewrite Eb, Z.eqb_refl in H2. rewrite E, Eb, Z.eqb_refl in H4.
  cbn [andb] in H2, H4. apply Z.ltb_ge in H2, H4. lia.
Qed.

Lemma insertDue_perm m l : insertDue m l ≡ₚ m :: l.
Proof.
  induction l as [|x l IH]; cbn [insertDue]; [reflexivity|].
  destruct (dueBefore x m); [|reflexivity].
  rewrite IH. apply Permutation_swap.
Qed.

Lemma insertDue_sorted now userId m l :
  dueFor now userId m → Forall (dueFor now userId) l →
  StronglySorted dueOrder l → StronglySorted dueOrder (insertDue m l).
Proof.
  intros Hm Hl Hs. induction Hs as [|x l Hs IH Hx]; cbn [insertDue].
  - repeat constructor.
  - apply Forall_cons in Hl as [Hdx Hl].
    destruct (dueBefore x m) eqn:E.
    + constructor; [by apply IH|].
      rewrite (insertDue_perm m l). constructor; [|exact Hx].
      by eapply dueOrder_total.
    + constructor; [by constructor|]. constructor; [exact E|].
      rewrite Forall_forall in Hx, Hl |- *. intros y Hy.
      eapply (dueOrder_trans now userId m x y); eauto. 
Qed.

Lemma sortDue_sorted now userId l :
  Forall (dueFor now userId) l →
  StronglySorted dueOrder (foldr insertDue [] l) ∧ foldr insertDue [] l ≡ₚ l.
Proof.
  induction l as [|x l IH]; intros Hl; cbn [foldr].
  - split; [constructor|reflexivity].
  - apply Forall_cons in Hl as [Hx Hl]. destruct (IH Hl) as [Hs Hp]. split.
    + eapply insertDue_sorted; eauto. by rewrite Hp.
    + by rewrite insertDue_perm, Hp.
Qed.

Lemma StronglySorted_app_between {A : Type} (R : A → A → Prop) l1 l2 a b :
  StronglySorted R (l1 ++ l2) → a ∈ l1 → b ∈ l2 → R a b.
Proof.
  induction l1 as [|x l1 IH]; cbn [app]; intros Hs Ha Hb.
  - by apply elem_of_nil in Ha.
  - apply StronglySorted_inv in Hs as [Hs Hx].
    apply elem_of_cons in Ha as [->|Ha]; [|by apply IH].
    rewrite Forall_forall in Hx. apply Hx, elem_of_app. by right.
Qed.

Lemma StronglySorted_before {A : Type} (R : A → A → Prop) l i j a b :
  StronglySorted R l → l !! i = Some a → l !! j = Some b → (i < j)%nat → R a b.
Proof.
  intros Hs Hi Hj Hij.
  rewrite <- (take_drop j l) in Hs.
  apply (StronglySorted_app_between R (take j l) (drop j l)); [exact Hs| |].
  - apply (list_elem_of_lookup_2 _ i). by rewrite lookup_take_lt.
  - apply (list_elem_of_lookup_2 _ 0%nat). by rewrite lookup_drop, Nat.add_0_r.
Qed.

Lemma limitTo_split {A : Type} n (l : list A) :
  ∃ rest, l = limitTo n l ++ rest ∧ (n = 0%nat → rest = []).
Proof.
  destruct n as [|n]; cbn [limitTo].
  - exists []. by rewrite app_nil_r.
  - exists (drop (S n) l). split; [by rewrite take_drop|]. lia.
Qed.

(** Whatever [getDueForReview] returns is a record of the user that is
    not archived and whose review date has come. *)
Lemma getDueForReview_elem now store userId limit m :
  m ∈ getDueForReview now store userId limit →
  m ∈ store ∧ user m = userId ∧ isArchived (metadata m) = false
  ∧ ∃ t, nextReviewDate (reviewInfo m) = ValidDate t ∧ t <= now.
Proof.
  unfold getDueForReview. intros Hm.
  assert (Forall (dueFor now userId) (filter (dueFor now userId) store)) as Hall.
  { apply Forall_forall. by intros x [? _]%list_elem_of_filter. }
  destruct (sortDue_sorted now userId _ Hall) as [_ Hp].
  destruct (limitTo_split limit (foldr insertDue [] (filter (dueFor now userId) store)))
    as (rest & Hsplit & _).
  assert (m ∈ filter (dueFor now userId) store) as Hin.
  { rewrite <- Hp, Hsplit. apply elem_of_app. by left. }
  apply list_elem_of_filter in Hin as [Hd Hin].
  split; [exact Hin|]. destruct (dueFor_date _ _ _ Hd) as [t Ht].
  destruct Hd as (Hu & Ha & _). eauto.
Qed.

(** X10. [getDueForReview] returns records of the user that are not
    archived and whose review date has come, never more than the limit;
    they are in order of falling importance and, within one importance, of
    rising review date; a due record that is left out by the limit is not
    more urgent than any record returned; and without a limit (or with one
    that is large enough) every due record is returned. *)
Theorem getDueForReview_result now store userId limit :
  (∀ m, m ∈ getDueForReview now store userId limit →
     m ∈ store ∧ user m = userId ∧ isArchived (metadata m) = false
     ∧ ∃ t, nextReviewDate (reviewInfo m) = ValidDate t ∧ t <= now)
  ∧ (limit ≠ 0%nat → (length (getDueForReview now store userId limit) ≤ limit)%nat)
  ∧ (∀ i j a b,
       getDueForReview now store userId limit !! i = Some a →
       getDueForReview now store userId limit !! j = Some b →
       (i < j)%nat → notAfter a b)
  ∧ (∀ a b, a ∈ getDueForReview now store userId limit →
       b ∈ store → dueFor now userId b →
       b ∉ getDueForReview now store userId limit → notAfter a b)
  ∧ (limit = 0%nat ∨ (length (filter (dueFor now userId) store) ≤ limit)%nat →
     getDueForReview now store userId limit ≡ₚ filter (dueFor now userId) store).
Proof.
  split; [intros m Hm; by apply (getDueForReview_elem now store userId limit)|].
  unfold getDueForReview.
  assert (Forall (dueFor now userId) (filter (dueFor now userId) store)) as Hall.
  { apply Forall_forall. by intros x [? _]%list_elem_of_filter. }
  destruct (sortDue_sorted now userId _ Hall) as [Hs Hp].
  set (sorted := foldr insertDue [] (filter (dueFor now userId) store)) in *.
  destruct (limitTo_split limit sorted) as (rest & Hsplit & Hrest).
  split.
  { intros Hl. destruct limit as [|n]; [done|]. cbn [limitTo]. rewrite length_take. lia. }
  split.
  { intros i j a b Hi Hj Hij. apply dueOrder_notAfter.
    rewrite Hsplit in Hs.
    apply (StronglySorted_before dueOrder (limitTo limit sorted ++ rest) i j); auto.
    - by apply lookup_app_l_Some.
    - by apply lookup_app_l_Some. }
  split.
  { intros a b Ha Hb Hd Hnot. apply dueOrder_notAfter.
    assert (b ∈ sorted) as Hbs by (rewrite Hp; by apply list_elem_of_filter).
    rewrite Hsplit in Hbs, Hs. apply elem_of_app in Hbs as [Hbs|Hbs]; [done|].
    by apply (StronglySorted_app_between dueOrder (limitTo limit sorted) rest). }
  intros [->|Hlen]; [exact Hp|].
  destruct limit as [|n]; [exact Hp|]. cbn [limitTo].
  rewrite firstn_all2; [exact Hp|]. rewrite Hp. exact Hlen.
Qed.

Lemma getDueForReview_result_witness :
  user dueRecord = 7 ∧ isArchived (metadata dueRecord) = false.
Proof.
  destruct (proj1 (getDueForReview_result 5000 [dueRecord; laterRecord] 7 0) dueRecord)
    as (_ & Hu & Ha & _).
  - by left.
  - split; [exact Hu | exact Ha].
Defined.

Lemma filter_length_le {A : Type} (P Q : A → Prop)
    `{∀ x, Decision (P x)} `{∀ x, Decision (Q x)} (l : list A) :
  (∀ x, P x → Q x) → (length (filter P l) ≤ length (filter Q l))%nat.
Proof.
  intros Hpq. induction l as [|x l IH]; [reflexivity|].
  rewrite !filter_cons. destruct (decide (P x)) as [Hp|Hp].
  - rewrite decide_True by auto. cbn [length]. lia.
  - destruct (decide (Q x)); cbn [length]; lia.
Qed.

Lemma active_archived_length userId (l : list MistakeRecord) :
  (length (filter (λ m, user m = userId ∧ isArchived (metadata m) = false) l)
   + length (filter (λ m, user m = userId ∧ isArchived (metadata m) = true) l)
   = length (filter (λ m, user m = userId) l))%nat.
Proof.
  induction l as [|x l IH]; [reflexivity|].
  rewrite !filter_cons.
  destruct (decide (user x = userId)) as [Hu|Hu].
  - destruct (isArchived (metadata x)) eqn:Ha.
    + rewrite decide_False by (intros [_ ?]; discriminate).
      rewrite decide_True by done. cbn [length]. lia.
    + rewrite decide_True by done.
      rewrite decide_False by (intros [_ ?]; discriminate). cbn [length]. lia.
  - rewrite !decide_False by tauto. exact IH.
Qed.

Lemma filter_none {A : Type} (P : A → Prop) `{∀ x, Decision (P x)} (l : list A) :
  (∀ x, x ∈ l → ¬ P x) → filter P l = [].
Proof.
  induction l as [|x l IH]; intros Hn; [reflexivity|].
  rewrite filter_cons, decide_False by (apply Hn; by left).
  apply IH. intros y Hy. apply Hn. by right.
Qed.

(** X11. The counts of [getMistakeStats]: the records due for review are
    among the active ones, active and archived records add up to the
    records of the user, and the mastery rate is a percentage between 0 and
    100; it is 0 for a user without active records, also when every record
    of the user is archived. *)
Theorem getMistakeCounts_bounds now store userId :
  (dueForReviewCount (getMistakeCounts now store userId)
   ≤ totalCount (getMistakeCounts now store userId))%nat
  ∧ (totalCount (getMistakeCounts now store userId)
     + masteredCount (getMistakeCounts now store userId)
     = length (filter (λ m, user m = userId) store))%nat
  ∧ 0 <= masteryRate (getMistakeCounts now store userId) <= 100
  ∧ ((∀ m, m ∈ store → user m = userId → isArchived (metadata m) = true) →
     masteryRate (getMistakeCounts now store userId) = 0).
Proof.
  unfold getMistakeCounts. cbn [dueForReviewCount totalCount masteredCount masteryRate].
  split.
  { apply filter_length_le. unfold dueFor. tauto. }
  split; [apply active_archived_length|].
  split.
  - destruct (0 <? _)%nat eqn:E; [|lia]. apply Nat.ltb_lt in E.
    apply percent_range; lia.
  - intros Hall.
    assert (filter (λ m, user m = userId ∧ isArchived (metadata m) = false) store = [])
      as ->; [|reflexivity].
    apply filter_none. intros m Hm [Hu Ha].
    rewrite (Hall m Hm Hu) in Ha. discriminate.
Qed.

Lemma getMistakeCounts_bounds_witness :
  masteryRate (getMistakeCounts 5000 [sample 5 0 mastered true] 7) = 0.
Proof.
  apply (proj2 (proj2 (proj2 (getMistakeCounts_bounds 5000 [sample 5 0 mastered true] 7)))).
  intros m Hm _. apply list_elem_of_singleton in Hm as ->. reflexivity.
Defined.

(** A whole number of days is read back as it is. *)
Lemma days_exact (n : Z) :
  0 <= n <= 2 ^ 53 →
  Double.ceil (Double.div (inject_Z (n * msPerDay)) (inject_Z (1000 * 60 * 60 * 24))) = n.
Proof.
  intros Hn. unfold Double.ceil, Double.div.
  rewrite (Qceiling_comp _ (inject_Z n)); [apply Qceiling_Z|].
  apply DoubleSpec.rnd_int; [|exact Hn].
  unfold msPerDay. rewrite inject_Z_mult. change (1000 * 60 * 60 * 24) with 86400000.
  field.
Qed.

(** No day is left exactly when the difference is not positive. *)
Lemma days_nonpos (n : Z) :
  Double.ceil (Double.div (inject_Z n) (inject_Z (1000 * 60 * 60 * 24))) <= 0 ↔ n <= 0.
Proof.
  unfold Double.ceil, Double.div. change (1000 * 60 * 60 * 24) with 86400000.
  assert (0 < inject_Z 86400000)%Q as Hd by reflexivity.
  split; intros H.
  - destruct (Z.le_gt_cases n 0) as [?|Hn]; [done|]. exfalso.
    assert (Double.pow2 (-27) <= inject_Z n / inject_Z 86400000)%Q as Hx.
    { apply Qle_shift_div_l; [exact Hd|].
      apply Qle_trans with 1%Q; [by vm_compute|].
      change 1%Q with (inject_Z 1). rewrite <- Zle_Qle. lia. }
    assert (Double.normal (Double.pow2 (-27)) (2 ^ 52) (-79)) as Hnorm.
    { split; [reflexivity|]. split; [split; reflexivity | discriminate]. }
    pose proof (DoubleSpec.rnd_ge _ _ _ _ Hx Hnorm) as Hr.
    pose proof (Qle_ceiling (Double.rnd (inject_Z n / inject_Z 86400000))) as Hc.
    assert (0 < inject_Z (Qceiling (Double.rnd (inject_Z n / inject_Z 86400000))))%Q as Hpos.
    { apply Qlt_le_trans with (Double.pow2 (-27)); [reflexivity|].
      by apply Qle_trans with (Double.rnd (inject_Z n / inject_Z 86400000)). }
    change 0%Q with (inject_Z 0) in Hpos. rewrite <- Zlt_Qlt in Hpos. lia.
  - rewrite <- (Qceiling_Z 0). apply Qceiling_resp_le. apply DoubleSpec.rnd_nonpos.
    assert (inject_Z n <= 0)%Q as Hn by (change 0%Q with (inject_Z 0); by rewrite <- Zle_Qle).
    apply Qle_shift_div_r; [exact Hd|]. lra.
Qed.

Lemma intervals_range d : d ∈ intervals → 1 <= d <= 90.
Proof.
  unfold intervals. rewrite !elem_of_cons, elem_of_nil. lia.
Qed.

(** The two virtual properties agree: no days are left exactly when the
    record is due. *)
Lemma reviewIntervalDays_due t m date :
  nextReviewDate (reviewInfo m) = ValidDate date →
  (reviewIntervalDays t m = Some 0 ↔ isDueForReview t m = true)
  ∧ (isDueForReview t m = true ↔ date <= t).
Proof.
  intros Hd. unfold reviewIntervalDays, isDueForReview. rewrite Hd. cbv zeta.
  rewrite Z.leb_le. split; [|reflexivity]. split.
  - intros [= H]. apply Z.max_l_iff in H. apply (proj1 (days_nonpos _)) in H. lia.
  - intros H. f_equal. apply Z.max_l, days_nonpos. lia.
Qed.

(** X12. What a review does to the schedule as the virtual properties show
    it.  After a correct answer on a streak that is not negative the record
    is due at the local time of the review [days] calendar days later,
    [days] being the entry of the interval table that was used (1 to 90);
    after a wrong answer it is due at once.  The record is due exactly from
    that moment on, and at every moment [reviewIntervalDays] is 0 exactly
    when [isDueForReview] holds.  Where the local clock shows the same offset
    on both days the due date is [now] plus [days] times 86400000 ms and
    [reviewIntervalDays], read at the time of the review, is [days]. *)
Theorem recordReview_then_due zone now store mistakeId userId isCorrect i m :
  findById store mistakeId userId = Some (i, m) →
  0 <= consecutiveCorrect (reviewInfo m) →
  ∃ m' days due,
    recordReview zone now store mistakeId userId isCorrect = Ok (<[i := m']> store, m')
    ∧ (if isCorrect
       then days ∈ intervals ∧ 1 <= days <= 90
            ∧ due = UTC zone (LocalTime zone now + days * msPerDay)
       else days = 0 ∧ due = now)
    ∧ nextReviewDate (reviewInfo m') = ValidDate due
    ∧ (∀ t, isDueForReview t m' = true ↔ due <= t)
    ∧ (∀ t, reviewIntervalDays t m' = Some 0 ↔ isDueForReview t m' = true)
    ∧ (sameOffset zone now days →
       due = now + days * msPerDay ∧ reviewIntervalDays now m' = Some days).
Proof.
  intros Hf Hc.
  assert (∃ days due,
            (if isCorrect
             then days ∈ intervals ∧ 1 <= days <= 90
                  ∧ due = UTC zone (LocalTime zone now + days * msPerDay)
             else days = 0 ∧ due = now)
            ∧ nextReviewDate (reviewInfo (reviewed zone now isCorrect m)) = ValidDate due)
    as (days & due & Hdays & Hdate).
  { destruct isCorrect.
    - destruct (recordReview_correct_delay zone now m Hc) as (d & _ & Hd & Hn).
      exists d, (UTC zone (LocalTime zone now + d * msPerDay)).
      split; [|exact Hn]. split; [exact Hd|]. split; [by apply intervals_range | reflexivity].
    - exists 0, now. split; [by split|].
      by destruct (reviewed_wrong zone now m) as (Hn & _). }
  exists (reviewed zone now isCorrect m), days, due.
  split; [by apply recordReview_found|]. split; [exact Hdays|]. split; [exact Hdate|].
  split; [intros t; by destruct (reviewIntervalDays_due t _ _ Hdate)|].
  split; [intros t; by destruct (reviewIntervalDays_due t _ _ Hdate)|].
  intros Hz.
  assert (due = now + days * msPerDay) as Hdue.
  { destruct isCorrect.
    - destruct Hdays as (_ & _ & ->). by apply setDate_sameOffset.
    - destruct Hdays as (-> & ->). lia. }
  split; [exact Hdue|].
  unfold reviewIntervalDays. rewrite Hdate, Hdue. cbv zeta.
  replace (now + days * msPerDay - now) with (days * msPerDay) by lia.
  rewrite days_exact; [f_equal; destruct isCorrect; lia|].
  destruct isCorrect; [destruct Hdays as (_ & ? & _) | destruct Hdays as (-> & _)]; lia.
Qed.

Lemma recordReview_then_due_witness :
  ∃ m' days,
    recordReview utc 1000 [sample 1 1 unreviewed false] 1 7 true
    = Ok (<[0%nat := m']> [sample 1 1 unreviewed false], m')
    ∧ nextReviewDate (reviewInfo m') = ValidDate (1000 + days * msPerDay)
    ∧ reviewIntervalDays 1000 m' = Some days.
Proof.
  destruct (recordReview_then_due utc 1000 [sample 1 1 unreviewed false] 1 7 true 0%nat
              (sample 1 1 unreviewed false) eq_refl ltac:(cbn; lia))
    as (m' & days & due & Hr & _ & Hn & _ & _ & Hz).
  destruct (Hz (sameOffset_fixedZone 0 1000 days)) as [Hdue Hdays].
  exists m', days. split; [exact Hr|]. split; [by rewrite Hn, Hdue | exact Hdays].
Defined.

(** Across the end of summer time a calendar day has 25 hours, and the
    number of days [reviewIntervalDays] shows is one more than the entry of
    the table.  New York, 2 November 2024, noon: one calendar day later is
    90000000 ms away, which rounds up to 2 days. *)
Lemma reviewIntervalDays_across_clock_change :
  nextReviewDate (reviewInfo (reviewed easternUS2024 1730563200000 true
                                (sample 1 0 unreviewed false)))
  = ValidDate (1730563200000 + 90000000)
  ∧ reviewIntervalDays 1730563200000
      (reviewed easternUS2024 1730563200000 true (sample 1 0 unreviewed false))
    = Some 2.
Proof. split; vm_compute; reflexivity. Qed.

Lemma bulkArchived_fields now m :
  sameCore m (bulkArchived now m)
  ∧ reviewStatus (bulkArchived now m) = mastered
  ∧ metadata (bulkArchived now m)
    = mkMetadata true (Some now) (isPublic (metadata m)) (viewCount (metadata m))
  ∧ masteryLevel (bulkArchived now m) = masteryLevel m
  ∧ reviewInfo (bulkArchived now m) = reviewInfo m
  ∧ errorStats (bulkArchived now m) = errorStats m.
Proof. unfold sameCore, bulkArchived, archived. unfold_fields. repeat split; reflexivity. Qed.

(** X13. A bulk archive marks every listed document of the user as
    archived and mastered with the date of the call and leaves every other
    document as it is; as no save hook runs, the archived documents keep
    their level, streak and error statistics as they are.  None of the
    listed documents is offered for review afterwards. *)
Theorem archiveMistakes_effect now store mistakeIds userId :
  length (archiveMistakes now store mistakeIds userId).1 = length store
  ∧ (∀ i m, store !! i = Some m →
       ∃ m', (archiveMistakes now store mistakeIds userId).1 !! i = Some m'
         ∧ sameCore m m'
         ∧ masteryLevel m' = masteryLevel m
         ∧ reviewInfo m' = reviewInfo m
         ∧ errorStats m' = errorStats m
         ∧ (_id m ∈ mistakeIds → user m = userId →
            isArchived (metadata m') = true ∧ archiveDate (metadata m') = Some now
            ∧ reviewStatus m' = mastered)
         ∧ (¬ (_id m ∈ mistakeIds ∧ user m = userId) → m' = m))
  ∧ (∀ now' limit m',
       m' ∈ getDueForReview now' (archiveMistakes now store mistakeIds userId).1
              userId limit →
       _id m' ∉ mistakeIds).
Proof.
  unfold archiveMistakes. cbn [fst].
  assert (∀ m, sameCore m (if decide (selected mistakeIds userId m)
                           then bulkArchived now m else m)) as Hcore.
  { intros m. destruct (decide _); [apply bulkArchived_fields|].
    unfold sameCore. repeat split; reflexivity. }
  split; [apply length_fmap|].
  split.
  - intros i m Hi. eexists. split; [by rewrite list_lookup_fmap, Hi|].
    split; [apply Hcore|].
    destruct (decide (selected mistakeIds userId m)) as [Hs|Hs].
    + destruct (bulkArchived_fields now m) as (_ & Hst & Hmd & Hl & Hr & He).
      rewrite Hmd, Hst, Hl, Hr, He. cbn [isArchived archiveDate].
      split; [reflexivity|]. split; [reflexivity|]. split; [reflexivity|].
      split; [done|]. intros Hn. by destruct Hn.
    + split; [reflexivity|]. split; [reflexivity|]. split; [reflexivity|].
      split; [|done]. intros Hid Hu. destruct Hs. by split.
  - intros now' limit m' Hm' Hid.
    destruct (getDueForReview_elem _ _ _ _ _ Hm') as (Hin & Hu & Ha & _).
    apply list_elem_of_fmap in Hin as (m & -> & Hm).
    destruct (Hcore m) as (Hid' & Hu' & _).
    destruct (decide (selected mistakeIds userId m)) as [Hs|Hs].
    + destruct (bulkArchived_fields now m) as (_ & _ & Hmd & _).
      rewrite Hmd in Ha. discriminate.
    + apply Hs. by split.
Qed.

Lemma archiveMistakes_effect_witness :
  ∃ m', (archiveMistakes 5000 [sample 1 0 unreviewed false] [1] 7).1 !! 0%nat = Some m'
    ∧ isArchived (metadata m') = true.
Proof.
  destruct (proj1 (proj2 (archiveMistakes_effect 5000 [sample 1 0 unreviewed false] [1] 7))
              0%nat (sample 1 0 unreviewed false) eq_refl)
    as (m' & Hm & _ & _ & _ & _ & Ha & _).
  exists m'. split; [exact Hm|]. apply Ha; [by left | reflexivity].
Defined.

Lemma insertDesc_perm path d l : Mongo.insertDesc path d l ≡ₚ d :: l.
Proof.
  induction l as [|x l IH]; cbn [Mongo.insertDesc]; [reflexivity|].
  destruct (Mongo.ltBson _ _); [|reflexivity].
  rewrite IH. apply Permutation_swap.
Qed.

Lemma sortDesc_perm path ds : Mongo.sortDesc path ds ≡ₚ ds.
Proof.
  unfold Mongo.sortDesc. induction ds as [|d ds IH]; cbn [foldr]; [reflexivity|].
  by rewrite insertDesc_perm, IH.
Qed.

(** The [$match] stage of the recommendation keeps the documents of the
    user that are not archived. *)
Lemma recommend_matches userId m :
  Mongo.matches [("user", Mongo.BObjectId userId);
                 ("metadata.isArchived", Mongo.BBool false)] (toDocument m) = true
  ↔ user m = userId ∧ isArchived (metadata m) = false.
Proof.
  unfold Mongo.matches. cbn. unfold Mongo.eqBson. cbn [Mongo.compareBson].
  rewrite andb_true_r, andb_true_iff. split.
  - intros [H1 H2]. split.
    + destruct (Z.compare_spec (user m) userId); congruence.
    + by destruct (isArchived (metadata m)).
  - intros [-> ->]. by rewrite Z.compare_refl.
Qed.

Lemma matched_documents userId (store : list MistakeRecord) :
  filter (λ d, Mongo.matches [("user", Mongo.BObjectId userId);
                              ("metadata.isArchived", Mongo.BBool false)] d = true)
    (map toDocument store)
  = map toDocument
      (filter (λ m, user m = userId ∧ isArchived (metadata m) = false) store).
Proof.
  induction store as [|m store IH]; [reflexivity|].
  cbn [map]. rewrite !filter_cons.
  destruct (decide (user m = userId ∧ isArchived (metadata m) = false)) as [H|H].
  - rewrite decide_True by (by apply recommend_matches). cbn [map]. by rewrite IH.
  - rewrite decide_False by (by rewrite recommend_matches). exact IH.
Qed.

(** X14. Asked for a positive number [count] of documents,
    [getRecommendedForReview] returns documents of records of the user that
    are not archived, each with its score importance x 20 + (6 - level) x 15
    + error rate x 0.5 added, in descending order of that score; it returns
    [count] of them, or all when there are fewer.  Asked for 0 documents it
    throws, because the database refuses a limit of 0. *)
Theorem getRecommendedForReview_result now store userId count :
  ((0 < count)%nat →
   ∃ ds, getRecommendedForReview now store userId count = Ok ds
     ∧ length ds
       = Nat.min count
           (length (filter (λ m, user m = userId ∧ isArchived (metadata m) = false) store))
     ∧ Sorted (Mongo.notBelow "reviewScore") ds
     ∧ ∀ d, d ∈ ds →
         ∃ m q, m ∈ store ∧ user m = userId ∧ isArchived (metadata m) = false
           ∧ d = Mongo.addFields (scoreFields now) (toDocument m)
           ∧ Mongo.getField d "_id" = Mongo.BObjectId (_id m)
           ∧ Mongo.getField d "reviewScore" = Mongo.BNum q
           ∧ (q == inject_Z (importance m) * 20 + (6 - inject_Z (masteryLevel m)) * 15
                   + inject_Z (errorRate (errorStats m)) * (1 # 2))%Q)
  ∧ (count = 0%nat →
     getRecommendedForReview now store userId count
     = Err "获取推荐复习题目失败: MongoServerError").
Proof.
  split; [|by intros ->].
  intros Hc. eexists. split; [by apply getRecommendedForReview_positive|].
  split; [|split].
  - unfold recommendPipeline, Mongo.aggregate. cbn [foldl Mongo.runStage].
    rewrite length_take, sortDesc_perm, length_map, matched_documents, length_map.
    reflexivity.
  - apply (getRecommendedForReview_sorted now store userId count).
    by apply getRecommendedForReview_positive.
  - unfold recommendPipeline, Mongo.aggregate.
    cbn [foldl Mongo.runStage]. intros d Hd.
    apply elem_of_take in Hd as (k & Hk & _).
    apply list_elem_of_lookup_2 in Hk. rewrite sortDesc_perm, matched_documents in Hk.
    apply list_elem_of_fmap in Hk as (d0 & -> & Hd0).
    apply list_elem_of_fmap in Hd0 as (m & -> & Hm).
    apply list_elem_of_filter in Hm as [[Hu Ha] Hm].
    destruct (reviewScore_value now m) as (q & Hq & Hv).
    exists m, q. repeat split; try assumption.
Qed.

Lemma getRecommendedForReview_result_witness :
  ∃ ds, getRecommendedForReview 5000 [dueRecord; laterRecord] 7 10 = Ok ds
    ∧ length ds = 2%nat.
Proof.
  destruct (proj1 (getRecommendedForReview_result 5000 [dueRecord; laterRecord] 7 10)
              ltac:(lia))
    as (ds & Hr & Hl & _).
  exists ds. split; [exact Hr | exact Hl].
Defined.

End MistakeBookOpsSpec.

(** * Properties of the exam save hook and of the stored exam records *)
Module ExamRecordOpsSpec.
Import ExamRecord ExamRecordOps ExamRecordSpec.

Lemma calculateTimeAnalysis_frame e :
  user (calculateTimeAnalysis e) = user e ∧ title (calculateTimeAnalysis e) = title e
  ∧ config (calculateTimeAnalysis e) = config e
  ∧ questions (calculateTimeAnalysis e) = questions e
  ∧ sharing (calculateTimeAnalysis e) = sharing e
  ∧ typePerformance (analysis (calculateTimeAnalysis e)) = typePerformance (analysis e).
Proof. unfold calculateTimeAnalysis. cbv zeta. by destruct (map _ _). Qed.

Lemma calculateTypePerformance_frame e :
  user (calculateTypePerformance e) = user e
  ∧ title (calculateTypePerformance e) = title e
  ∧ config (calculateTypePerformance e) = config e
  ∧ questions (calculateTypePerformance e) = questions e
  ∧ sharing (calculateTypePerformance e) = sharing e
  ∧ timeAnalysis (analysis (calculateTypePerformance e)) = timeAnalysis (analysis e).
Proof. repeat split; reflexivity. Qed.

Lemma assignShareCode_frame picks e :
  user (assignShareCode picks e) = user e ∧ title (assignShareCode picks e) = title e
  ∧ config (assignShareCode picks e) = config e
  ∧ questions (assignShareCode picks e) = questions e
  ∧ analysis (assignShareCode picks e) = analysis e
  ∧ isPublic (sharing (assignShareCode picks e)) = isPublic (sharing e)
  ∧ viewCount (sharing (assignShareCode picks e)) = viewCount (sharing e).
Proof. unfold assignShareCode. by destruct (_ && _). Qed.

Lemma assignAccuracy_frame e :
  user (assignAccuracy e) = user e ∧ title (assignAccuracy e) = title e
  ∧ config (assignAccuracy e) = config e
  ∧ questions (assignAccuracy e) = questions e
  ∧ analysis (assignAccuracy e) = analysis e
  ∧ sharing (assignAccuracy e) = sharing e
  ∧ score (result (assignAccuracy e)) = score (result e)
  ∧ correctCount (result (assignAccuracy e)) = correctCount (result e)
  ∧ isPassed (result (assignAccuracy e)) = isPassed (result e).
Proof. unfold assignAccuracy. by destruct (0 <? _). Qed.

(** The part of a record every step of the save hook leaves alone. *)
Lemma preSave_frame picks e :
  user (preSave picks e) = user e ∧ title (preSave picks e) = title e
  ∧ config (preSave picks e) = config e
  ∧ questions (preSave picks e) = questions e
  ∧ score (result (preSave picks e)) = score (result e)
  ∧ correctCount (result (preSave picks e)) = correctCount (result e)
  ∧ isPublic (sharing (preSave picks e)) = isPublic (sharing e)
  ∧ viewCount (sharing (preSave picks e)) = viewCount (sharing e).
Proof.
  unfold preSave.
  set (e1 := assignPassed (assignGrade e)).
  destruct (assignAccuracy_frame e1) as (A1 & A2 & A3 & A4 & _ & A6 & A7 & A8 & _).
  set (e2 := assignAccuracy e1) in *.
  destruct (assignShareCode_frame picks e2) as (B1 & B2 & B3 & B4 & _ & B6 & B7).
  pose proof (assignShareCode_result picks e2) as B8.
  set (e3 := assignShareCode picks e2) in *.
  destruct (calculateTypePerformance_frame e3) as (C1 & C2 & C3 & C4 & C5 & _).
  pose proof (calculateTypePerformance_result e3) as C6.
  set (e4 := calculateTypePerformance e3) in *.
  destruct (calculateTimeAnalysis_frame e4) as (D1 & D2 & D3 & D4 & D5 & _).
  rewrite (calculateTimeAnalysis_result e4).
  rewrite D1, D2, D3, D4, D5, C1, C2, C3, C4, C5, C6, B1, B2, B3, B4, B6, B7, B8,
    A1, A2, A3, A4, A6, A7, A8.
  repeat split; reflexivity.
Qed.

Lemma preSave_isPassed picks e :
  isPassed (result (preSave picks e)) = Qle_bool (passingScore (config e)) (score (result e)).
Proof.
  unfold preSave.
  rewrite calculateTimeAnalysis_result, calculateTypePerformance_result,
    assignShareCode_result.
  by destruct (assignAccuracy_frame (assignPassed (assignGrade e)))
    as (_ & _ & _ & _ & _ & _ & _ & _ & ->).
Qed.

Lemma preSave_accuracy picks e :
  accuracy (result (preSave picks e))
  = if 0 <? totalQuestions (config e)
    then percent (correctCount (result e)) (totalQuestions (config e))
    else accuracy (result e).
Proof.
  unfold preSave.
  rewrite calculateTimeAnalysis_result, calculateTypePerformance_result,
    assignShareCode_result.
  unfold assignAccuracy.
  change (totalQuestions (config (assignPassed (assignGrade e))))
    with (totalQuestions (config e)).
  by destruct (0 <? totalQuestions (config e)).
Qed.

Lemma gradeOf_fail (s : Q) : gradeOf s ≠ "不及格" ↔ (60 <= s)%Q.
Proof.
  unfold gradeOf.
  destruct (Qle_bool 90 s) eqn:E1; [apply Qle_bool_iff in E1|].
  { split; [|done]. intros _. eapply Qle_trans; [|exact E1]. by unfold Qle. }
  destruct (Qle_bool 80 s) eqn:E2; [apply Qle_bool_iff in E2|].
  { split; [|done]. intros _. eapply Qle_trans; [|exact E2]. by unfold Qle. }
  destruct (Qle_bool 60 s) eqn:E3.
  { apply Qle_bool_iff in E3. split; [done|]. done. }
  split; [done|]. intros H. apply Qle_bool_iff in H. congruence.
Qed.

(** X15. The result block after a save: the record is passed exactly when
    the score reaches the passing score of its configuration, so with the
    default passing score 60 it is passed exactly when the grade is not the
    failing one; with a positive [config.totalQuestions] the accuracy is
    [Math.round((correctCount / totalQuestions) * 100)] as double precision
    gives it (57 for 23 of 40, where the exact share is 57.5): between 0 and
    100 when the correct count does not exceed the total, 100 when all
    answers are correct and 0 when none is; it is left as it was when the
    total is not positive.  Score and correct count are never changed. *)
Theorem preSave_result picks e :
  (isPassed (result (preSave picks e)) = true
   ↔ (passingScore (config e) <= score (result e))%Q)
  ∧ ((passingScore (config e) == 60)%Q →
     (isPassed (result (preSave picks e)) = true
      ↔ grade (result (preSave picks e)) ≠ "不及格"))
  ∧ (0 < totalQuestions (config e) →
     accuracy (result (preSave picks e))
     = Double.round
         (Double.mul
            (Double.div (inject_Z (correctCount (result e)))
               (inject_Z (totalQuestions (config e))))
            100)
     ∧ (0 <= correctCount (result e) <= totalQuestions (config e) →
        0 <= accuracy (result (preSave picks e)) <= 100)
     ∧ (correctCount (result e) = totalQuestions (config e) →
        accuracy (result (preSave picks e)) = 100)
     ∧ (correctCount (result e) = 0 → accuracy (result (preSave picks e)) = 0))
  ∧ (totalQuestions (config e) <= 0 →
     accuracy (result (preSave picks e)) = accuracy (result e))
  ∧ score (result (preSave picks e)) = score (result e)
  ∧ correctCount (result (preSave picks e)) = correctCount (result e).
Proof.
  rewrite preSave_isPassed, preSave_accuracy, preSave_grade_is.
  destruct (preSave_frame picks e) as (_ & _ & _ & _ & -> & -> & _).
  split; [apply Qle_bool_iff|].
  split.
  { intros E. rewrite gradeOf_fail, Qle_bool_iff. by rewrite E. }
  split.
  { intros Ht. apply Z.ltb_lt in Ht as Ht'. rewrite Ht'.
    split; [reflexivity|]. split; [|split].
    - intros Hc. by apply MistakeBookOpsSpec.percent_range.
    - intros ->. by apply DoubleSpec.percent_whole.
    - intros ->. apply DoubleSpec.percent_none. }
  split; [|split; reflexivity].
  intros Ht. destruct (0 <? totalQuestions (config e)) eqn:E; [lia|reflexivity].
Qed.

Lemma preSave_result_witness :
  isPassed (result (preSave [] sampleExam)) = true
  ∧ accuracy (result (preSave [] sampleExam)) = 85.
Proof.
  destruct (preSave_result [] sampleExam) as (H1 & _ & H3 & _).
  split.
  - apply H1. unfold Qle. cbn. lia.
  - destruct H3 as [-> _]; [cbn; lia | vm_compute; reflexivity].
Defined.

(** The accuracy of 23 correct answers out of 40 is stored as 57. *)
Lemma accuracy_23_of_40 :
  accuracy (result (preSave []
                      (mkExamRecord 7 "t" (mkConfig 40 60 60 true)
                         (mkResult 57 "" 23 17 0 0 false) []
                         (analysis sampleExam) (sharing sampleExam)))) = 57.
Proof. vm_compute. reflexivity. Qed.

Lemma typeStat_bounds qs ty :
  tp_total (typeStat qs ty) = Z.of_nat (length (filter (λ q, q_type q = ty) qs))
  ∧ tp_correct (typeStat qs ty)
    = Z.of_nat (length (filter (λ q, q_type q = ty ∧ q_isCorrect q = true) qs))
  ∧ 0 <= tp_correct (typeStat qs ty) <= tp_total (typeStat qs ty)
  ∧ 0 <= tp_rate (typeStat qs ty) <= 100
  ∧ (tp_total (typeStat qs ty) = 0 → tp_rate (typeStat qs ty) = 0).
Proof.
  unfold typeStat. cbn [tp_total tp_correct tp_rate].
  pose proof (MistakeBookOpsSpec.filter_length_le
                (λ q, q_type q = ty ∧ q_isCorrect q = true) (λ q, q_type q = ty) qs)
    as Hle.
  split; [reflexivity|]. split; [reflexivity|].
  split; [split; [lia|]; apply inj_le, Hle; tauto|].
  split.
  - destruct (0 <? _) eqn:E; [|lia]. apply Z.ltb_lt in E.
    apply MistakeBookOpsSpec.percent_range; [exact E|].
    split; [lia|]. apply inj_le, Hle. tauto.
  - intros ->. reflexivity.
Qed.

Lemma preSave_typePerformance_is picks e :
  typePerformance (analysis (preSave picks e))
  = mkTypePerformance (typeStat (questions e) "single") (typeStat (questions e) "multiple")
      (typeStat (questions e) "judge") (typeStat (questions e) "fill")
      (typeStat (questions e) "essay").
Proof.
  unfold preSave.
  set (e3 := assignShareCode picks (assignAccuracy (assignPassed (assignGrade e)))).
  destruct (calculateTimeAnalysis_frame (calculateTypePerformance e3))
    as (_ & _ & _ & _ & _ & ->).
  assert (questions e3 = questions e) as Hq.
  { subst e3.
    destruct (assignShareCode_frame picks (assignAccuracy (assignPassed (assignGrade e))))
      as (_ & _ & _ & -> & _).
    by destruct (assignAccuracy_frame (assignPassed (assignGrade e)))
      as (_ & _ & _ & -> & _). }
  unfold calculateTypePerformance. cbn [analysis with_analysis typePerformance].
  by rewrite Hq.
Qed.

Lemma five_types_length (qs : list ExamQuestion) :
  (length (filter (λ q, q_type q = "single") qs)
   + length (filter (λ q, q_type q = "multiple") qs)
   + length (filter (λ q, q_type q = "judge") qs)
   + length (filter (λ q, q_type q = "fill") qs)
   + length (filter (λ q, q_type q = "essay") qs)
   = length (filter (λ q, q_type q ∈ ["single"; "multiple"; "judge"; "fill"; "essay"])
               qs))%nat.
Proof.
  induction qs as [|q qs IH]; [reflexivity|].
  rewrite !filter_cons.
  repeat case_decide;
    repeat match goal with
           | H : _ ∈ _ |- _ => rewrite !elem_of_cons, elem_of_nil in H
           | H : _ ∉ _ |- _ => rewrite !not_elem_of_cons in H
           end;
    try (exfalso; intuition congruence); cbn [length]; lia.
Qed.

(** X16. The per-type statistics after a save: for each of the five
    question types the total is the number of questions of that type, the
    correct count the number of those answered correctly, never above the
    total, and the rate a percentage between 0 and 100 (0 for a type without
    questions).  The five totals add up to the number of questions whose
    type is one of the five: a question of another type is counted
    nowhere. *)
Theorem preSave_typePerformance picks e :
  (∀ ty tp, perfOf (typePerformance (analysis (preSave picks e))) ty = Some tp →
     tp_total tp = Z.of_nat (length (filter (λ q, q_type q = ty) (questions e)))
     ∧ tp_correct tp
       = Z.of_nat (length (filter (λ q, q_type q = ty ∧ q_isCorrect q = true)
                             (questions e)))
     ∧ 0 <= tp_correct tp <= tp_total tp
     ∧ 0 <= tp_rate tp <= 100
     ∧ (tp_total tp = 0 → tp_rate tp = 0))
  ∧ tp_total (single (typePerformance (analysis (preSave picks e))))
    + tp_total (multiple (typePerformance (analysis (preSave picks e))))
    + tp_total (judge (typePerformance (analysis (preSave picks e))))
    + tp_total (fill (typePerformance (analysis (preSave picks e))))
    + tp_total (essay (typePerformance (analysis (preSave picks e))))
    = Z.of_nat (length (filter (λ q, q_type q ∈ ["single"; "multiple"; "judge"; "fill";
                                                 "essay"]) (questions e)))
  ∧ (length (filter (λ q, q_type q ∈ ["single"; "multiple"; "judge"; "fill"; "essay"])
               (questions e)) ≤ length (questions e))%nat.
Proof.
  rewrite preSave_typePerformance_is. split.
  - intros ty tp. unfold perfOf. cbn [single multiple judge fill essay].
    repeat case_bool_decide; intros [= <-]; subst ty; try apply typeStat_bounds.
  - split; [|apply length_filter].
    cbn [single multiple judge fill essay]. unfold typeStat. cbn [tp_total].
    rewrite <- !Nat2Z.inj_add. f_equal. apply five_types_length.
Qed.

Lemma preSave_typePerformance_witness :
  tp_total (single (typePerformance (analysis (preSave [] sampleExam)))) = 1
  ∧ tp_rate (single (typePerformance (analysis (preSave [] sampleExam)))) <= 100.
Proof.
  destruct (proj1 (preSave_typePerformance [] sampleExam) "single"
              (single (typePerformance (analysis (preSave [] sampleExam)))) eq_refl)
    as (Ht & _ & _ & Hr & _).
  split; [rewrite Ht; reflexivity | apply Hr].
Defined.

Lemma qmin_spec a b : (qmin a b = a ∨ qmin a b = b) ∧ (qmin a b <= a)%Q ∧ (qmin a b <= b)%Q.
Proof.
  unfold qmin. destruct (Qle_bool a b) eqn:E.
  - apply Qle_bool_iff in E. split; [by left|]. split; [apply Qle_refl | exact E].
  - assert (¬ (a <= b)%Q) as H by (rewrite <- Qle_bool_iff; congruence).
    apply Qnot_le_lt, Qlt_le_weak in H.
    split; [by right|]. split; [exact H | apply Qle_refl].
Qed.

Lemma qmax_spec a b : (qmax a b = a ∨ qmax a b = b) ∧ (a <= qmax a b)%Q ∧ (b <= qmax a b)%Q.
Proof.
  unfold qmax. destruct (Qle_bool a b) eqn:E.
  - apply Qle_bool_iff in E. split; [by right|]. split; [exact E | apply Qle_refl].
  - assert (¬ (a <= b)%Q) as H by (rewrite <- Qle_bool_iff; congruence).
    apply Qnot_le_lt, Qlt_le_weak in H.
    split; [by left|]. split; [apply Qle_refl | exact H].
Qed.

Lemma foldl_min_spec ts : ∀ t,
  foldl qmin t ts ∈ t :: ts ∧ ∀ x, x ∈ t :: ts → (foldl qmin t ts <= x)%Q.
Proof.
  induction ts as [|y ts IH]; intros t; cbn [foldl].
  - split; [by left|]. intros x Hx. apply list_elem_of_singleton in Hx as ->.
    apply Qle_refl.
  - destruct (IH (qmin t y)) as [Hin Hle].
    destruct (qmin_spec t y) as (Hor & Ht & Hy). split.
    + apply elem_of_cons in Hin as [->|Hin].
      * destruct Hor as [->| ->]; [by left|right; by left].
      * right. by right.
    + intros x Hx.
      pose proof (Hle (qmin t y) (ltac:(by left))) as H0.
      apply elem_of_cons in Hx as [->|Hx]; [by apply Qle_trans with (qmin t y)|].
      apply elem_of_cons in Hx as [->|Hx]; [by apply Qle_trans with (qmin t y)|].
      apply Hle. by right.
Qed.

Lemma foldl_max_spec ts : ∀ t,
  foldl qmax t ts ∈ t :: ts ∧ ∀ x, x ∈ t :: ts → (x <= foldl qmax t ts)%Q.
Proof.
  induction ts as [|y ts IH]; intros t; cbn [foldl].
  - split; [by left|]. intros x Hx. apply list_elem_of_singleton in Hx as ->.
    apply Qle_refl.
  - destruct (IH (qmax t y)) as [Hin Hle].
    destruct (qmax_spec t y) as (Hor & Ht & Hy). split.
    + apply elem_of_cons in Hin as [->|Hin].
      * destruct Hor as [->| ->]; [by left|right; by left].
      * right. by right.
    + intros x Hx.
      pose proof (Hle (qmax t y) (ltac:(by left))) as H0.
      apply elem_of_cons in Hx as [->|Hx]; [by apply Qle_trans with (qmax t y)|].
      apply elem_of_cons in Hx as [->|Hx]; [by apply Qle_trans with (qmax t y)|].
      apply Hle. by right.
Qed.

Lemma preSave_timeAnalysis_is picks e :
  timeAnalysis (analysis (preSave picks e))
  = match map q_timeSpent (filter (λ q, (0 < q_timeSpent q)%Q) (questions e)) with
    | [] => timeAnalysis (analysis e)
    | t :: ts =>
        mkTimeAnalysis
          (Double.round
             (Double.div (foldl Double.add 0%Q (t :: ts))
                (inject_Z (Z.of_nat (length (t :: ts))))))
          (foldl qmin t ts) (foldl qmax t ts)
    end.
Proof.
  unfold preSave.
  set (e2 := assignAccuracy (assignPassed (assignGrade e))).
  assert (questions e2 = questions e ∧ analysis e2 = analysis e) as [Hq Ha].
  { subst e2. by destruct (assignAccuracy_frame (assignPassed (assignGrade e)))
      as (_ & _ & _ & -> & -> & _). }
  destruct (assignShareCode_frame picks e2) as (_ & _ & _ & Hq3 & Ha3 & _).
  set (e3 := assignShareCode picks e2) in *.
  destruct (calculateTypePerformance_frame e3) as (_ & _ & _ & Hq4 & _ & Ht4).
  set (e4 := calculateTypePerformance e3) in *.
  unfold calculateTimeAnalysis. cbv zeta.
  rewrite Hq4, Hq3, Hq.
  destruct (map q_timeSpent _) as [|t ts]; [by rewrite Ht4, Ha3, Ha|reflexivity].
Qed.

(** The whole numbers of a list of times that are whole. *)
Lemma whole_times (xs : list Q) :
  (∀ x, x ∈ xs → (0 < x)%Q ∧ ∃ n : Z, (x == inject_Z n)%Q) →
  ∃ ks, Forall2 (λ x k, (x == inject_Z k)%Q ∧ 0 <= k) xs ks
    ∧ (foldr Qplus 0%Q xs == inject_Z (foldr Z.add 0%Z ks))%Q.
Proof.
  induction xs as [|x xs IH]; intros H.
  - exists []. split; [constructor | reflexivity].
  - destruct IH as (ks & HF & Hs); [intros y Hy; apply H; by right|].
    destruct (H x ltac:(by left)) as (Hpos & n & Hn).
    exists (n :: ks). split.
    + constructor; [|exact HF]. split; [exact Hn|].
      rewrite Hn in Hpos. change 0%Q with (inject_Z 0) in Hpos.
      rewrite <- Zlt_Qlt in Hpos. lia.
    + cbn [foldr]. rewrite Hs, Hn, inject_Z_plus. reflexivity.
Qed.

(** The exact sum of numbers between [lo] and [hi]. *)
Lemma sum_between (lo hi : Q) (xs : list Q) :
  (∀ x, x ∈ xs → (lo <= x <= hi)%Q) →
  (inject_Z (Z.of_nat (length xs)) * lo <= foldr Qplus 0 xs
   ∧ foldr Qplus 0 xs <= inject_Z (Z.of_nat (length xs)) * hi)%Q.
Proof.
  induction xs as [|x xs IH]; intros H.
  - cbn [length foldr]. change (inject_Z (Z.of_nat 0)) with 0%Q. lra.
  - destruct IH as [I1 I2]; [intros y Hy; apply H; by right|].
    destruct (H x ltac:(by left)) as [H1 H2].
    cbn [length foldr]. rewrite Nat2Z.inj_succ, <- Z.add_1_r, inject_Z_plus.
    change (inject_Z 1) with 1%Q. lra.
Qed.

Lemma sum_nonneg (xs : list Q) :
  (∀ x, x ∈ xs → (0 < x)%Q) → (0 <= foldr Qplus 0 xs)%Q.
Proof.
  induction xs as [|y l IH]; intros H; cbn [foldr]; [lra|].
  pose proof (H y ltac:(by left)).
  assert (0 <= foldr Qplus 0 l)%Q by (apply IH; intros x Hx; apply H; by right).
  lra.
Qed.

(** A positive number is not above a sum of positive numbers it is part
    of. *)
Lemma elem_le_sum (xs : list Q) c :
  (∀ x, x ∈ xs → (0 < x)%Q) → c ∈ xs → (c <= foldr Qplus 0 xs)%Q.
Proof.
  induction xs as [|y l IH]; intros H Hc; [by apply elem_of_nil in Hc|].
  cbn [foldr]. pose proof (H y ltac:(by left)) as Hy.
  assert (∀ x, x ∈ l → (0 < x)%Q) as Hl by (intros x Hx; apply H; by right).
  pose proof (sum_nonneg l Hl).
  apply elem_of_cons in Hc as [->|Hc]; [lra|].
  pose proof (IH Hl Hc). lra.
Qed.

(** The average of whole times whose total is within 2^53 is not below
    the least and not above the greatest of them. *)
Lemma average_between (t : Q) (ts : list Q) :
  (∀ x, x ∈ t :: ts → (0 < x)%Q ∧ ∃ n : Z, (x == inject_Z n)%Q) →
  (foldr Qplus 0 (t :: ts) <= inject_Z (2 ^ 53)%Z)%Q →
  (foldl qmin t ts
   <= inject_Z (Double.round
                  (Double.div (foldl Double.add 0 (t :: ts))
                     (inject_Z (Z.of_nat (length (t :: ts))))))
   <= foldl qmax t ts)%Q.
Proof.
  intros Hw Hsum.
  destruct (whole_times (t :: ts) Hw) as (ks & HF & Hs).
  assert (0 <= foldr Z.add 0%Z ks <= 2 ^ 53) as Hks.
  { split.
    - clear -HF. induction HF as [|? ? ? ? [_ ?] _ IH']; cbn; lia.
    - rewrite Hs in Hsum. by rewrite <- Zle_Qle in Hsum. }
  pose proof (DoubleSpec.sum_whole ks (t :: ts) 0%Q 0 HF ltac:(reflexivity) ltac:(lia)
                ltac:(lia)) as Htotal.
  rewrite Z.add_0_l, <- Hs in Htotal.
  destruct (foldl_min_spec ts t) as [Hmin_in Hmin].
  destruct (foldl_max_spec ts t) as [Hmax_in Hmax].
  set (lo := foldl qmin t ts) in *. set (hi := foldl qmax t ts) in *.
  set (n := inject_Z (Z.of_nat (length (t :: ts)))).
  assert (0 < n)%Q as Hn.
  { subst n. change 0%Q with (inject_Z 0). rewrite <- Zlt_Qlt. cbn [length]. lia. }
  destruct (sum_between lo hi (t :: ts)) as [S1 S2].
  { intros x Hx. split; [by apply Hmin | by apply Hmax]. }
  fold n in S1, S2.
  assert (∀ c, c ∈ t :: ts →
            ∃ k, (c == inject_Z k)%Q ∧ 0 < k <= 2 ^ 53) as Hrepr.
  { intros c Hc. destruct (Hw c Hc) as (Hpos & k & Hk). exists k. split; [exact Hk|].
    assert (0 < k) as Hk0.
    { rewrite Hk in Hpos. change 0%Q with (inject_Z 0) in Hpos.
      by rewrite <- Zlt_Qlt in Hpos. }
    split; [exact Hk0|].
    assert (c <= foldr Qplus 0 (t :: ts))%Q as Hle.
    { apply elem_le_sum; [|exact Hc]. intros x Hx. by destruct (Hw x Hx). }
    assert (inject_Z k <= inject_Z (2 ^ 53)%Z)%Q as Hk53 by (rewrite <- Hk; lra).
    by rewrite <- Zle_Qle in Hk53. }
  destruct (Hrepr lo Hmin_in) as (klo & Hklo & Hlo).
  destruct (Hrepr hi Hmax_in) as (khi & Hkhi & Hhi).
  destruct (DoubleSpec.normal_int klo Hlo) as (mlo & elo & Nlo).
  destruct (DoubleSpec.normal_int khi Hhi) as (mhi & ehi & Nhi).
  assert (inject_Z klo <= foldl Double.add 0 (t :: ts) / n
          ∧ foldl Double.add 0 (t :: ts) / n <= inject_Z khi)%Q as [Q1 Q2].
  { rewrite Htotal, <- Hklo, <- Hkhi. split.
    - apply Qle_shift_div_l; [exact Hn|]. lra.
    - apply Qle_shift_div_r; [exact Hn|]. lra. }
  unfold Double.div. fold n.
  assert (inject_Z klo <= Double.rnd (foldl Double.add 0 (t :: ts) / n))%Q as R1.
  { by apply (DoubleSpec.rnd_ge _ _ mlo elo). }
  assert (Double.rnd (foldl Double.add 0 (t :: ts) / n) <= inject_Z khi)%Q as R2.
  { apply (DoubleSpec.rnd_le _ _ mhi ehi); [|exact Q2|exact Nhi].
    apply Qle_trans with (inject_Z klo); [|exact Q1].
    change 0%Q with (inject_Z 0). rewrite <- Zle_Qle. lia. }
  apply DoubleSpec.round_mono in R1, R2. rewrite DoubleSpec.round_inject in R1, R2.
  rewrite Hklo, Hkhi, <- !Zle_Qle. by split.
Qed.

(** X17. The time analysis after a save.  When at least one question has
    a positive time, the fastest and the slowest time are times of
    questions and every positive time lies between them; the average is the
    quotient of the total, summed from the left in double precision, and the
    number of such questions, rounded to a whole number, while fastest and
    slowest are kept as they are.  When every positive time is a whole
    number of seconds and their total is within 2^53, the average lies
    between the fastest and the slowest time.  When no question has a
    positive time the analysis is left as it was. *)
Theorem preSave_timeAnalysis picks e :
  (∀ q, q ∈ questions e → (0 < q_timeSpent q)%Q →
     (0 < fastestQuestion (timeAnalysis (analysis (preSave picks e))))%Q
     ∧ (fastestQuestion (timeAnalysis (analysis (preSave picks e))) <= q_timeSpent q)%Q
     ∧ (q_timeSpent q <= slowestQuestion (timeAnalysis (analysis (preSave picks e))))%Q
     ∧ (∃ q1, q1 ∈ questions e
          ∧ q_timeSpent q1 = fastestQuestion (timeAnalysis (analysis (preSave picks e))))
     ∧ (∃ q2, q2 ∈ questions e
          ∧ q_timeSpent q2 = slowestQuestion (timeAnalysis (analysis (preSave picks e))))
     ∧ avgTimePerQuestion (timeAnalysis (analysis (preSave picks e)))
       = Double.round
           (Double.div
              (foldl Double.add 0%Q
                 (map q_timeSpent (filter (λ q, (0 < q_timeSpent q)%Q) (questions e))))
              (inject_Z (Z.of_nat
                           (length (filter (λ q, (0 < q_timeSpent q)%Q) (questions e))))))
     ∧ ((∀ q', q' ∈ questions e → (0 < q_timeSpent q')%Q →
           ∃ n : Z, (q_timeSpent q' == inject_Z n)%Q) →
        (foldr Qplus 0%Q
           (map q_timeSpent (filter (λ q, (0 < q_timeSpent q)%Q) (questions e)))
         <= inject_Z (2 ^ 53)%Z)%Q →
        (fastestQuestion (timeAnalysis (analysis (preSave picks e)))
         <= inject_Z (avgTimePerQuestion (timeAnalysis (analysis (preSave picks e))))
         <= slowestQuestion (timeAnalysis (analysis (preSave picks e))))%Q))
  ∧ ((∀ q, q ∈ questions e → (q_timeSpent q <= 0)%Q) →
     timeAnalysis (analysis (preSave picks e)) = timeAnalysis (analysis e)).
Proof.
  rewrite preSave_timeAnalysis_is.
  assert (∀ x, x ∈ map q_timeSpent (filter (λ q, (0 < q_timeSpent q)%Q) (questions e))
               ↔ ∃ q, q ∈ questions e ∧ (0 < q_timeSpent q)%Q ∧ q_timeSpent q = x)
    as Hmem.
  { intros x. rewrite list_elem_of_fmap. split.
    - intros (q & -> & [Hp Hq]%list_elem_of_filter). eauto.
    - intros (q & Hq & Hp & <-). exists q. split; [reflexivity|].
      by apply list_elem_of_filter. }
  rewrite <- (length_map q_timeSpent (filter _ (questions e))).
  destruct (map q_timeSpent (filter (λ q, (0 < q_timeSpent q)%Q) (questions e)))
    as [|t ts] eqn:E.
  - split; [|reflexivity]. intros q Hq Hp. exfalso.
    apply (not_elem_of_nil (q_timeSpent q)). apply Hmem. eauto.
  - cbn [fastestQuestion slowestQuestion avgTimePerQuestion].
    destruct (foldl_min_spec ts t) as [Hmin_in Hmin].
    destruct (foldl_max_spec ts t) as [Hmax_in Hmax].
    split.
    + intros q Hq Hp.
      assert (q_timeSpent q ∈ t :: ts) as Hin by (apply Hmem; eauto).
      pose proof Hmin_in as Hmin_in'. pose proof Hmax_in as Hmax_in'.
      apply Hmem in Hmin_in' as (q1 & Hq1 & Hp1 & E1).
      apply Hmem in Hmax_in' as (q2 & Hq2 & Hp2 & E2).
      split; [by rewrite <- E1|]. split; [by apply Hmin|]. split; [by apply Hmax|].
      split; [eauto|]. split; [eauto|]. split; [reflexivity|].
      intros Hwhole Hsum. apply average_between; [|exact Hsum].
      intros x Hx. apply Hmem in Hx as (q' & Hq' & Hp' & <-).
      split; [exact Hp' | by apply Hwhole].
    + intros Hall. exfalso.
      assert (t ∈ t :: ts) as Ht by (by left).
      apply Hmem in Ht as (q & Hq & Hp & _). specialize (Hall q Hq).
      exact (Qlt_not_le _ _ Hp Hall).
Qed.

Lemma preSave_timeAnalysis_witness :
  (fastestQuestion (timeAnalysis (analysis (preSave [] sampleExam))) <= 30)%Q
  ∧ (30 <= slowestQuestion (timeAnalysis (analysis (preSave [] sampleExam))))%Q.
Proof.
  destruct (proj1 (preSave_timeAnalysis [] sampleExam)
              (mkExamQuestion 1 "single" true false 30)) as (_ & H1 & H2 & _).
  - by left.
  - reflexivity.
  - split; [exact H1 | exact H2].
Defined.

(** Only the average is rounded: with two questions of 1.25 seconds each
    the average is 1, below the fastest time. *)
Lemma average_below_fastest :
  let e := mkExamRecord 7 "t" (config sampleExam) (result sampleExam)
             [mkExamQuestion 1 "single" true false (5 # 4);
              mkExamQuestion 2 "judge" false false (5 # 4)]
             (analysis sampleExam) (sharing sampleExam) in
  avgTimePerQuestion (timeAnalysis (analysis (preSave [] e))) = 1
  ∧ fastestQuestion (timeAnalysis (analysis (preSave [] e))) = (5 # 4)%Q.
Proof. cbv zeta. split; vm_compute; reflexivity. Qed.

Lemma append_step (a : string) (c : ascii) (s : string) :
  (a +:+ String c "") +:+ s = a +:+ String c s.
Proof.
  induction a as [|x a IH]; [reflexivity|].
  change (String x ((a +:+ String c "") +:+ s) = String x (a +:+ String c s)).
  by f_equal.
Qed.

Lemma append_empty (a : string) : a +:+ "" = a.
Proof.
  induction a as [|x a IH]; [reflexivity|].
  change (String x (a +:+ "") = String x a). by f_equal.
Qed.

Lemma characters_get i : (i < 62)%nat → is_Some (String.get i characters).
Proof.
  intros Hi. do 62 (destruct i as [|i]; [by eexists|]). lia.
Qed.

(** The code drawn from indices into the alphabet is made of the
    characters at these indices, one per draw. *)
Lemma shareCode_chars l :
  Forall (λ i, (i < 62)%nat) l →
  ∃ cs, Forall2 (λ i c, String.get i characters = Some c) l cs
    ∧ ∀ acc, foldl (λ acc i, match String.get i characters with
                             | Some c => acc +:+ String c EmptyString
                             | None => acc
                             end) acc l
             = acc +:+ string_of_list_ascii cs.
Proof.
  induction 1 as [|i l Hi Hl (cs & Hcs & Hf)].
  - exists []. split; [constructor|]. intros acc. cbn. by rewrite append_empty.
  - destruct (characters_get i Hi) as [c Hc]. exists (c :: cs).
    split; [by constructor|]. intros acc. cbn [foldl]. rewrite Hc, Hf.
    cbn [string_of_list_ascii]. apply append_step.
Qed.

Lemma generateShareCode_valid picks :
  validPicks picks →
  ∃ cs, generateShareCode picks = string_of_list_ascii cs
    ∧ length cs = 8%nat
    ∧ Forall2 (λ i c, String.get i characters = Some c) picks cs
    ∧ generateShareCode picks ≠ "".
Proof.
  intros [Hlen Hall]. unfold generateShareCode.
  rewrite firstn_all2 by lia.
  destruct (shareCode_chars picks Hall) as (cs & Hcs & Hf).
  exists cs. rewrite Hf. cbn [String.append].
  pose proof (Forall2_length _ _ _ Hcs) as Hl.
  split; [reflexivity|]. split; [lia|]. split; [exact Hcs|].
  destruct cs as [|c cs]; [cbn in Hl; lia|]. discriminate.
Qed.

Lemma preSave_shareCode_is picks e :
  shareCode (sharing (preSave picks e))
  = if isPublic (sharing e)
       && negb (bool_decide (is_Some (shareCode (sharing e))
                             ∧ shareCode (sharing e) ≠ Some ""))
    then Some (generateShareCode picks)
    else shareCode (sharing e).
Proof.
  unfold preSave.
  set (e2 := assignAccuracy (assignPassed (assignGrade e))).
  assert (sharing e2 = sharing e) as Hs.
  { subst e2. by destruct (assignAccuracy_frame (assignPassed (assignGrade e)))
      as (_ & _ & _ & _ & _ & -> & _). }
  destruct (calculateTimeAnalysis_frame (calculateTypePerformance (assignShareCode picks e2)))
    as (_ & _ & _ & _ & -> & _).
  cbn [sharing calculateTypePerformance with_analysis].
  unfold assignShareCode. rewrite Hs.
  destruct (_ && _); [reflexivity|]. by rewrite Hs.
Qed.

(** After a save with draws from the alphabet a public record has a share
    code that is not empty. *)
Lemma preSave_public_has_code picks e :
  validPicks picks →
  isPublic (sharing (preSave picks e)) = true →
  ∃ c, shareCode (sharing (preSave picks e)) = Some c ∧ c ≠ "".
Proof.
  intros Hp. destruct (generateShareCode_valid picks Hp) as (cs & _ & _ & _ & Hne).
  rewrite preSave_shareCode_is.
  destruct (preSave_frame picks e) as (_ & _ & _ & _ & _ & _ & -> & _).
  intros ->. cbn [andb]. case_bool_decide as Hc; cbn [negb].
  - destruct Hc as [[c Hc] Hn]. exists c. split; [exact Hc|congruence].
  - eauto.
Qed.

(** X18. The share code after a save, the draws being indices into the
    alphabet: a record that is not public keeps what it has; a code that is
    there is never replaced; a public record without a code gets one of
    eight characters, the characters of the alphabet at the eight draws; so
    after a save every public record has a code that is not empty. *)
Theorem preSave_shareCode picks e :
  validPicks picks →
  (isPublic (sharing e) = false →
   shareCode (sharing (preSave picks e)) = shareCode (sharing e))
  ∧ (∀ c, shareCode (sharing e) = Some c → c ≠ "" →
       shareCode (sharing (preSave picks e)) = Some c)
  ∧ (isPublic (sharing e) = true →
     shareCode (sharing e) = None ∨ shareCode (sharing e) = Some "" →
     ∃ cs, shareCode (sharing (preSave picks e)) = Some (string_of_list_ascii cs)
       ∧ length cs = 8%nat
       ∧ Forall2 (λ i c, String.get i characters = Some c) picks cs)
  ∧ (isPublic (sharing (preSave picks e)) = true →
     ∃ c, shareCode (sharing (preSave picks e)) = Some c ∧ c ≠ "").
Proof.
  intros Hp. destruct (generateShareCode_valid picks Hp) as (cs & Hg & Hl & Hcs & Hne).
  rewrite preSave_shareCode_is.
  destruct (preSave_frame picks e) as (_ & _ & _ & _ & _ & _ & -> & _).
  split; [by intros ->|].
  split.
  { intros c Hc Hn. rewrite Hc.
    rewrite bool_decide_eq_true_2 by (split; [by eexists|congruence]).
    by rewrite andb_false_r. }
  split.
  { intros -> Hc. exists cs. rewrite <- Hg.
    rewrite bool_decide_eq_false_2; [done|].
    intros [[c Hs] Hn]. destruct Hc; congruence. }
  intros ->. cbn [andb]. case_bool_decide as Hc; cbn [negb].
  - destruct Hc as [[c Hc] Hn]. exists c. split; [exact Hc|congruence].
  - eauto.
Qed.

Lemma preSave_shareCode_witness :
  ∃ c, shareCode (sharing (preSave [0; 1; 2; 3; 4; 5; 6; 7]%nat
                             (with_sharing (mkSharing true None 0) sampleExam))) = Some c
    ∧ c ≠ "".
Proof.
  apply (preSave_shareCode [0; 1; 2; 3; 4; 5; 6; 7]%nat
           (with_sharing (mkSharing true None 0) sampleExam)).
  - split; [reflexivity|]. repeat constructor.
  - by destruct (preSave_frame [0; 1; 2; 3; 4; 5; 6; 7]%nat
                   (with_sharing (mkSharing true None 0) sampleExam))
      as (_ & _ & _ & _ & _ & _ & -> & _).
Defined.

Lemma with_result_same x : with_result (result x) x = x.
Proof. by destruct x. Qed.

Lemma with_analysis_same x : with_analysis (analysis x) x = x.
Proof. by destruct x. Qed.

Lemma result_eta r :
  mkResult (score r) (grade r) (correctCount r) (wrongCount r) (unansweredCount r)
    (accuracy r) (isPassed r) = r.
Proof. by destruct r. Qed.

Lemma analysis_eta a : mkAnalysis (typePerformance a) (timeAnalysis a) = a.
Proof. by destruct a. Qed.

(** X19. Saving a saved record again changes nothing: grade, pass flag,
    accuracy and the two analyses are recomputed to the same values, and
    the share code drawn at the first save is kept whatever the second save
    would draw. *)
Theorem preSave_again picks picks' e :
  validPicks picks →
  preSave picks' (preSave picks e) = preSave picks e.
Proof.
  intros Hp.
  destruct (preSave_frame picks e) as (_ & _ & Hc & Hq & Hs & Hcc & _).
  pose proof (preSave_public_has_code picks e Hp) as Hcode.
  assert (gradeOf (score (result (preSave picks e))) = grade (result (preSave picks e)))
    as Eg by (by rewrite Hs, preSave_grade_is).
  assert (Qle_bool (passingScore (config (preSave picks e)))
            (score (result (preSave picks e)))
          = isPassed (result (preSave picks e)))
    as Ep by (by rewrite Hc, Hs, preSave_isPassed).
  assert ((0 <? totalQuestions (config (preSave picks e))) = true →
          percent (correctCount (result (preSave picks e)))
            (totalQuestions (config (preSave picks e)))
          = accuracy (result (preSave picks e))) as Ea.
  { rewrite Hc, Hcc, preSave_accuracy. by intros ->. }
  assert (mkTypePerformance (typeStat (questions (preSave picks e)) "single")
            (typeStat (questions (preSave picks e)) "multiple")
            (typeStat (questions (preSave picks e)) "judge")
            (typeStat (questions (preSave picks e)) "fill")
            (typeStat (questions (preSave picks e)) "essay")
          = typePerformance (analysis (preSave picks e)))
    as Etp by (by rewrite Hq, preSave_typePerformance_is).
  assert (∀ t ts,
            map q_timeSpent (filter (λ q, (0 < q_timeSpent q)%Q)
                               (questions (preSave picks e)))
            = t :: ts →
            mkTimeAnalysis
              (Double.round
                 (Double.div (foldl Double.add 0%Q (t :: ts))
                    (inject_Z (Z.of_nat (length (t :: ts))))))
              (foldl qmin t ts) (foldl qmax t ts)
            = timeAnalysis (analysis (preSave picks e))) as Eta.
  { intros t ts E. rewrite Hq in E. by rewrite preSave_timeAnalysis_is, E. }
  remember (preSave picks e) as r eqn:Hr. clear Hr Hc Hq Hs Hcc.
  unfold preSave.
  assert (assignGrade r = r) as ->.
  { unfold assignGrade, with_grade. cbv zeta. rewrite Eg, result_eta.
    apply with_result_same. }
  assert (assignPassed r = r) as ->.
  { unfold assignPassed, with_isPassed. cbv zeta. rewrite Ep, result_eta.
    apply with_result_same. }
  assert (assignAccuracy r = r) as ->.
  { unfold assignAccuracy, with_accuracy. cbv zeta.
    destruct (0 <? totalQuestions (config r)) eqn:E; [|reflexivity].
    rewrite (Ea eq_refl), result_eta. apply with_result_same. }
  assert (assignShareCode picks' r = r) as ->.
  { unfold assignShareCode. destruct (isPublic (sharing r)) eqn:E; [|reflexivity].
    destruct (Hcode eq_refl) as (c & Hc1 & Hc2).
    rewrite bool_decide_eq_true_2; [reflexivity|].
    split; [by eexists|congruence]. }
  assert (calculateTypePerformance r = r) as ->.
  { unfold calculateTypePerformance. cbv zeta. rewrite Etp, analysis_eta.
    apply with_analysis_same. }
  unfold calculateTimeAnalysis. cbv zeta.
  destruct (map q_timeSpent (filter (λ q, (0 < q_timeSpent q)%Q) (questions r)))
    as [|t ts] eqn:E; [reflexivity|].
  rewrite (Eta t ts eq_refl), analysis_eta. apply with_analysis_same.
Qed.

Lemma preSave_again_witness :
  preSave [] (preSave [0; 1; 2; 3; 4; 5; 6; 7]%nat sampleExam)
  = preSave [0; 1; 2; 3; 4; 5; 6; 7]%nat sampleExam.
Proof.
  apply preSave_again. split; [reflexivity|]. repeat constructor.
Defined.

(** ** Stored records *)

Lemma stored_findById store recordId i d :
  findById store recordId = Some (i, d) → store !! i = Some d ∧ _id d = recordId.
Proof. unfold findById. by intros (? & ? & _)%list_find_Some. Qed.

Lemma elem_of_delete_at {A : Type} (l : list A) i x :
  x ∈ delete i l ↔ ∃ j, j ≠ i ∧ l !! j = Some x.
Proof.
  split.
  - intros [j Hj]%list_elem_of_lookup_1. rewrite list_lookup_delete in Hj.
    destruct (decide (j < i)%nat); [exists j|exists (S j)]; split; (lia || done).
  - intros (j & Hne & Hj). destruct (decide (j < i)%nat) as [Hlt|Hge].
    + apply (list_elem_of_lookup_2 _ j). by rewrite list_lookup_delete_lt.
    + destruct j as [|j]; [lia|].
      apply (list_elem_of_lookup_2 _ j). by rewrite list_lookup_delete_ge by lia.
Qed.

(** X20. Only the owner of an exam record can update or delete it: for
    anybody else both calls fail with the permission error, whatever the
    update asks for, and nothing is written.  When the owner deletes the
    record, ids being unique, that document and no other leaves the
    collection, and afterwards reading or updating it by id reports it as
    not existing, for everybody. *)
Theorem only_owner_changes now picks picks' store recordId updateData i d :
  findById store recordId = Some (i, d) →
  (∀ j x, store !! j = Some x → _id x = recordId → j = i) →
  (∀ userId, user (record d) ≠ userId →
     updateExamRecord now picks picks' store recordId updateData userId
     = Err "更新考试记录失败: 没有权限修改此考试记录"
     ∧ deleteExamRecord store recordId userId
       = Err "删除考试记录失败: 没有权限删除此考试记录")
  ∧ ∃ store',
      deleteExamRecord store recordId (user (record d)) = Ok store'
      ∧ S (length store') = length store
      ∧ (∀ x, x ∈ store' ↔ x ∈ store ∧ _id x ≠ recordId)
      ∧ (∀ reader, getExamRecordById picks store' recordId reader
                   = Err "获取考试记录失败: 考试记录不存在")
      ∧ (∀ userId, updateExamRecord now picks picks' store' recordId updateData userId
                   = Err "更新考试记录失败: 考试记录不存在").
Proof.
  intros Hf Huniq. destruct (stored_findById _ _ _ _ Hf) as [Hi Hid]. split.
  { intros userId Hu. unfold updateExamRecord, deleteExamRecord. rewrite Hf.
    by rewrite bool_decide_eq_true_2. }
  exists (delete i store).
  assert (∀ x, x ∈ delete i store ↔ x ∈ store ∧ _id x ≠ recordId) as Hel.
  { intros x. rewrite elem_of_delete_at. split.
    - intros (j & Hne & Hj). split; [by eapply list_elem_of_lookup_2|].
      intros Hx. apply Hne. by apply (Huniq j x).
    - intros [[j Hj]%list_elem_of_lookup_1 Hx]. exists j. split; [|done].
      intros ->. congruence. }
  split.
  { unfold deleteExamRecord. rewrite Hf. by rewrite bool_decide_eq_false_2 by auto. }
  split.
  { rewrite length_delete by (by exists d). apply lookup_lt_Some in Hi. lia. }
  split; [exact Hel|]. split.
  - intros reader. unfold getExamRecordById.
    rewrite (proj2 (list_find_None _ _)); [reflexivity|].
    apply Forall_forall. intros x Hx [Hxid _]. by apply Hel in Hx as [_ Hx].
  - intros userId. unfold updateExamRecord, findById.
    rewrite (proj2 (list_find_None _ _)); [reflexivity|].
    apply Forall_forall. intros x Hx Hxid. by apply Hel in Hx as [_ Hx].
Qed.

Lemma only_owner_changes_witness :
  updateExamRecord 1000 [] [] [sampleDoc false None] 1
    (mkUpdateData (Some "new title") None None (Some true)) 8
  = Err "更新考试记录失败: 没有权限修改此考试记录"
  ∧ deleteExamRecord [sampleDoc false None] 1 8
    = Err "删除考试记录失败: 没有权限删除此考试记录".
Proof.
  destruct (only_owner_changes 1000 [] [] [sampleDoc false None] 1
              (mkUpdateData (Some "new title") None None (Some true)) 0%nat
              (sampleDoc false None) eq_refl) as [H _].
  - intros j x Hj _. destruct j as [|j]; [reflexivity|destruct j; discriminate Hj].
  - apply (H 8). cbn. lia.
Defined.




















End ExamRecordOpsSpec.

(** * Properties of the files between devices and of the sync history *)
Module SyncOpsSpec.
Import Sync SyncOps SyncSpec.

(** ** [removeDuplicateQuestions] *)

Lemma keepFirst_spec questions : ∀ seen,
  Forall (λ q, truthy (id q) = true ∧ id q ∉ seen) (keepFirst seen questions)
  ∧ NoDup (map id (keepFirst seen questions))
  ∧ keepFirst seen questions `sublist_of` questions
  ∧ (∀ q, q ∈ questions → truthy (id q) = true → id q ∉ seen →
          id q ∈ map id (keepFirst seen questions)).
Proof.
  induction questions as [|x l IH]; intros seen; cbn [keepFirst].
  - split; [constructor|]. split; [constructor|]. split; [constructor|].
    intros q Hq. by apply elem_of_nil in Hq.
  - destruct (truthy (id x)) eqn:Ht; cbn [negb].
    + case_bool_decide as Hs.
      * destruct (IH (id x :: seen)) as (F & N & S & C).
        split; [|split; [exact N|split; [by apply sublist_cons|]]].
        { eapply Forall_impl; [exact F|]. intros q [? Hq].
          split; [done|]. intros ?. apply Hq. by right. }
        intros q Hq Hqt Hqs. apply elem_of_cons in Hq as [->|Hq]; [done|].
        apply C; [done|done|]. intros [E|?]%elem_of_cons; [|done]. congruence.
      * destruct (IH (id x :: seen)) as (F & N & S & C).
        split; [|split; [|split; [by apply sublist_skip|]]].
        { constructor; [done|]. eapply Forall_impl; [exact F|]. intros q [? Hq].
          split; [done|]. intros ?. apply Hq. by right. }
        { cbn [map]. constructor; [|exact N].
          intros Hin. apply list_elem_of_fmap in Hin as (q & Hq1 & Hq2).
          rewrite Forall_forall in F. destruct (F q Hq2) as [_ Hn].
          apply Hn. rewrite Hq1. by left. }
        intros q Hq Hqt Hqs. cbn [map].
        destruct (decide (id q = id x)) as [E|Hne]; [rewrite E; by left|].
        right. apply elem_of_cons in Hq as [->|Hq]; [done|].
        apply C; [done|done|]. intros [?|?]%elem_of_cons; done.
    + destruct (IH seen) as (F & N & S & C).
      split; [exact F|]. split; [exact N|]. split; [by apply sublist_cons|].
      intros q Hq Hqt Hqs. apply elem_of_cons in Hq as [->|Hq]; [congruence|].
      by apply C.
Qed.

Lemma keepFirst_fixed questions : ∀ seen,
  Forall (λ q, truthy (id q) = true ∧ id q ∉ seen) questions →
  NoDup (map id questions) →
  keepFirst seen questions = questions.
Proof.
  induction questions as [|x l IH]; intros seen Hall Hnd; [reflexivity|].
  apply Forall_cons in Hall as [[Ht Hs] Hall]. cbn [map] in Hnd.
  apply NoDup_cons in Hnd as [Hx Hnd].
  cbn [keepFirst]. rewrite Ht. cbn [negb]. rewrite bool_decide_eq_false_2 by done.
  f_equal. apply IH; [|done].
  rewrite Forall_forall in Hall |- *. intros q Hq. destruct (Hall q Hq) as [Hqt Hqs].
  split; [done|]. intros [E|?]%elem_of_cons; [|done].
  apply Hx. rewrite <- E. by apply list_elem_of_fmap_2.
Qed.

(** X25. [removeDuplicateQuestions] keeps, in their order, the first
    record of every truthy id: what it returns is a sublist of its argument
    in which every id is truthy and no id occurs twice, every truthy id of
    the argument is still represented, a record without a truthy id is
    dropped, and a list that is already clean comes back unchanged (so the
    function applied twice gives what it gives once). *)
Theorem removeDuplicateQuestions_spec questions :
  removeDuplicateQuestions questions `sublist_of` questions
  ∧ Forall (λ q, truthy (id q) = true) (removeDuplicateQuestions questions)
  ∧ NoDup (map id (removeDuplicateQuestions questions))
  ∧ (∀ q, q ∈ questions → truthy (id q) = true →
          id q ∈ map id (removeDuplicateQuestions questions))
  ∧ (∀ q, q ∈ questions → truthy (id q) = false →
          q ∉ removeDuplicateQuestions questions)
  ∧ (Forall (λ q, truthy (id q) = true) questions → NoDup (map id questions) →
     removeDuplicateQuestions questions = questions)
  ∧ removeDuplicateQuestions (removeDuplicateQuestions questions)
    = removeDuplicateQuestions questions.
Proof.
  unfold removeDuplicateQuestions.
  destruct (keepFirst_spec questions []) as (F & N & S & C).
  assert (Forall (λ q, truthy (id q) = true) (keepFirst [] questions)) as F'.
  { eapply Forall_impl; [exact F|]. by intros q [? _]. }
  split; [exact S|]. split; [exact F'|]. split; [exact N|].
  split; [intros q Hq Ht; apply C; [done|done|apply not_elem_of_nil]|].
  split.
  { intros q Hq Ht Hin. rewrite Forall_forall in F'. rewrite (F' q Hin) in Ht.
    discriminate. }
  split.
  { intros Hall Hnd. apply keepFirst_fixed; [|done].
    eapply Forall_impl; [exact Hall|]. intros q ?. split; [done|apply not_elem_of_nil]. }
  apply keepFirst_fixed; [exact F | exact N].
Qed.

Lemma removeDuplicateQuestions_spec_witness :
  mkItem PUndefined PUndefined []
    ∉ removeDuplicateQuestions [question "q1"; mkItem PUndefined PUndefined []].
Proof.
  apply (proj1 (proj2 (proj2 (proj2 (proj2
           (removeDuplicateQuestions_spec
              [question "q1"; mkItem PUndefined PUndefined []])))))).
  - right. by left.
  - reflexivity.
Defined.

(** ** [updateSyncStatus] *)

Lemma take_take_cons {A : Type} (x : A) (l : list A) :
  take 10 (x :: take 10 l) = take 10 (x :: l).
Proof.
  change (take 10 (x :: take 10 l)) with (x :: take 9 (take 10 l)).
  by rewrite take_take.
Qed.

Lemma updateAll_snoc deviceId calls c s :
  updateAll deviceId (calls ++ [c]) s
  = updateSyncStatus deviceId c (updateAll deviceId calls s).
Proof. unfold updateAll. by rewrite foldl_app. Qed.

Lemma updateAll_unusable deviceId calls s :
  syncHistory s = HistoryOther → updateAll deviceId calls s = s.
Proof.
  intros Hs. induction calls as [|c calls IH] using rev_ind; [reflexivity|].
  rewrite updateAll_snoc, IH. unfold updateSyncStatus. by rewrite Hs.
Qed.

Lemma updateAll_usable deviceId calls : ∀ s c,
  syncHistory s ≠ HistoryOther → last calls = Some c →
  updateAll deviceId calls s
  = mkStorage
      (HistoryArray (take 10 (reverse (map (statusOf deviceId) calls) ++ storedEntries s)))
      (Some (call_isoTime c)).
Proof.
  induction calls as [|c' calls IH] using rev_ind; intros s c Hs Hl; [discriminate|].
  rewrite last_snoc in Hl. injection Hl as ->.
  rewrite updateAll_snoc, map_app, reverse_app. cbn [map reverse app].
  change (reverse [statusOf deviceId c]) with [statusOf deviceId c]. cbn [app].
  destruct calls as [|c0 calls0] using rev_ind.
  - cbn [updateAll foldl map reverse app]. unfold updateSyncStatus, storedEntries.
    destruct (syncHistory s); [reflexivity|reflexivity|done].
  - clear IHcalls0. rewrite (IH s c0 Hs (last_snoc _ _)).
    unfold updateSyncStatus. cbn [syncHistory]. by rewrite take_take_cons.
Qed.

(** X26. The sync history in [localStorage].  After any number of status
    updates the stored history holds the statuses of the calls, newest
    first, followed by the older entries, cut to ten entries, and the last
    sync time is the time of the last call.  A stored history that cannot
    be read as an array is never repaired: every update leaves the storage
    exactly as it was, the last sync time included. *)
Theorem updateSyncStatus_history deviceId calls s :
  (syncHistory s = HistoryOther → updateAll deviceId calls s = s)
  ∧ (syncHistory s ≠ HistoryOther → ∀ c, last calls = Some c →
     ∃ history,
       updateAll deviceId calls s = mkStorage (HistoryArray history) (Some (call_isoTime c))
       ∧ history
         = take 10 (reverse (map (statusOf deviceId) calls) ++ storedEntries s)
       ∧ (length history ≤ 10)%nat
       ∧ head history = Some (statusOf deviceId c)).
Proof.
  split; [apply updateAll_unusable|].
  intros Hs c Hl. eexists. split; [by apply updateAll_usable|].
  split; [reflexivity|]. split; [rewrite length_take; lia|].
  destruct calls as [|c' calls] using rev_ind; [discriminate|].
  rewrite last_snoc in Hl. injection Hl as ->.
  rewrite map_app, reverse_app. reflexivity.
Qed.

Lemma updateSyncStatus_history_witness :
  updateAll "device_1" [mkStatusCall "export" true None None 1000 "2024-01-01T00:00:00.000Z"]
    (mkStorage HistoryOther None)
  = mkStorage HistoryOther None.
Proof.
  apply (updateSyncStatus_history "device_1"
           [mkStatusCall "export" true None None 1000 "2024-01-01T00:00:00.000Z"]
           (mkStorage HistoryOther None)).
  reflexivity.
Defined.

(** ** [SyncManager.importData] *)

Lemma SyncManager_importData_accepted now f d app :
  endsWith (toLowerCase (fileName f)) ".json" = true →
  fileSize f <= 10 * 1024 * 1024 →
  fileText f = Json (ParsedObject d) →
  SyncManager.validateImportData (ParsedObject d) = true →
  SyncManager.importData now (Some f) (Some app)
  = (Ok (SyncManager.importInto now d app).1, Some (SyncManager.importInto now d app).2).
Proof.
  intros Hn Hs Ht Hv. unfold SyncManager.importData.
  rewrite Hn, Ht, Hv. cbn [negb].
  destruct (10 * 1024 * 1024 <? fileSize f) eqn:E; [apply Z.ltb_lt in E; lia|].
  by destruct (SyncManager.importInto now d app).
Qed.

Lemma SyncManager_importInto_status now d app :
  currentUser (SyncManager.importInto now d app).2 = currentUser app
  ∧ syncStatus (SyncManager.importInto now d app).2 = "synced"
  ∧ lastSyncTime (SyncManager.importInto now d app).2 = Some now.
Proof.
  unfold SyncManager.importInto.
  destruct (SyncManager.importBank _ (SyncManager.doc_publicQuestions d) _) as [[? ?] ?].
  destruct (SyncManager.importBank _ (SyncManager.doc_personalQuestions d) _) as [[? ?] ?].
  destruct (SyncManager.importBank _ (SyncManager.doc_mistakeBank d) _) as [[? ?] ?].
  destruct (SyncManager.doc_studyStats d) as [p|st].
  - repeat split; reflexivity.
  - destruct (SyncManager.mergeStudyStats (studyStats app) st) as [? []];
      repeat split; reflexivity.
Qed.

(** Between two Numbers [>] is the order of the numbers. *)
Lemma exceeds_numbers a b : exceeds (PNum b) (PNum a) = (a <? b).
Proof.
  unfold exceeds, lessThan. cbn [toNumber].
  destruct (a <? b) eqn:E.
  - apply bool_decide_eq_true_2. rewrite <- Zlt_Qlt. lia.
  - apply bool_decide_eq_false_2. rewrite <- Zlt_Qlt. lia.
Qed.

(** Nothing compares less than [undefined]. *)
Lemma exceeds_undefined c : exceeds PUndefined c = false.
Proof.
  unfold exceeds, lessThan. destruct c as [| |b|n|str]; cbn [toNumber]; try reflexivity.
  by destruct (stringToNumber str).
Qed.

(** One counter after a merge. *)
Lemma keepLarger_spec (current incoming : jsprim) :
  let after := if exceeds incoming current then incoming else current in
  (∀ a b, current = PNum a → incoming = PNum b → after = PNum (Z.max a b))
  ∧ (incoming = PUndefined → after = current).
Proof.
  cbv zeta. split.
  - intros a b -> ->. rewrite exceeds_numbers.
    destruct (a <? b) eqn:E; f_equal; lia.
  - intros ->. by rewrite exceeds_undefined.
Qed.

Lemma mergeCounters_spec t s counter incoming :
  (counter, incoming) ∈ counters →
  counter (mergeCounters t s)
  = (if exceeds (incoming s) (counter t) then incoming s else counter t)
  ∧ (∀ a b, counter t = PNum a → incoming s = PNum b →
       counter (mergeCounters t s) = PNum (Z.max a b))
  ∧ (incoming s = PUndefined → counter (mergeCounters t s) = counter t).
Proof.
  unfold counters. rewrite !elem_of_cons, elem_of_nil.
  intros [[= -> ->]|[[= -> ->]|[[= -> ->]|[]]]];
    (split; [reflexivity | apply keepLarger_spec]).
Qed.

(** A value that is no Number is converted before it is compared, and
    stored as it came: the text '12' replaces the number 10, [true] replaces
    0 and [null] replaces -1. *)
Lemma mergeCounters_converts :
  mergeCounters (mkStudyStats (PNum 10) (PNum 0) (PNum (-1)) (Some []))
    (mkStatsDoc (PStr "12") (PBool true) PNull (VPrim PUndefined))
  = mkStudyStats (PStr "12") (PBool true) PNull (Some []).
Proof. vm_compute. reflexivity. Qed.

Lemma SyncManager_mergeStudyStats_counters st s :
  ∃ st', (SyncManager.mergeStudyStats (Some st) s).1 = Some st'
    ∧ totalQuestions st' = totalQuestions (mergeCounters st s)
    ∧ correctAnswers st' = correctAnswers (mergeCounters st s)
    ∧ totalStudyTime st' = totalStudyTime (mergeCounters st s).
Proof.
  unfold SyncManager.mergeStudyStats.
  destruct (sd_examRecords s) as [p|records|]; try (by eexists).
  destruct (examRecords (mergeCounters st s)); by eexists.
Qed.

(** X27. An accepted import merges and never replaces a bank.  Each bank
    of the application keeps its records in place and gets, behind them, the
    incoming records whose id is not yet in the bank; the count reported for
    the bank is the number of records added.  Each counter of the study
    statistics takes the incoming value when that compares greater under
    JavaScript's [>] and stays as it is otherwise: of two Numbers the larger
    is kept, and a counter the file does not carry changes nothing.  The
    user stays, the status is "synced" and the sync time is that of the
    import. *)
Theorem SyncManager_importData_merges now f d app :
  endsWith (toLowerCase (fileName f)) ".json" = true →
  fileSize f <= 10 * 1024 * 1024 →
  fileText f = Json (ParsedObject d) →
  SyncManager.validateImportData (ParsedObject d) = true →
  ∃ results app',
    SyncManager.importData now (Some f) (Some app) = (Ok results, Some app')
    ∧ currentUser app' = currentUser app
    ∧ syncStatus app' = "synced" ∧ lastSyncTime app' = Some now
    ∧ (∀ local incoming,
         publicQuestionBank app = Some local →
         SyncManager.doc_publicQuestions d = VArray incoming →
         publicQuestionBank app' = Some (local ++ absentBy id incoming local)
         ∧ SyncManager.imp_publicQuestions (SyncManager.imported results)
           = Some (length (absentBy id incoming local)))
    ∧ (∀ local incoming,
         personalQuestionBank app = Some local →
         SyncManager.doc_personalQuestions d = VArray incoming →
         personalQuestionBank app' = Some (local ++ absentBy id incoming local)
         ∧ SyncManager.imp_personalQuestions (SyncManager.imported results)
           = Some (length (absentBy id incoming local)))
    ∧ (∀ local incoming,
         mistakeBank app = Some local →
         SyncManager.doc_mistakeBank d = VArray incoming →
         mistakeBank app' = Some (local ++ absentBy id incoming local)
         ∧ SyncManager.imp_mistakes (SyncManager.imported results)
           = Some (length (absentBy id incoming local)))
    ∧ (∀ local incoming x,
         x ∈ absentBy id incoming local ↔ x ∈ incoming ∧ id x ∉ map id local)
    ∧ (∀ st s,
         studyStats app = Some st → SyncManager.doc_studyStats d = SObj s →
         ∃ st', studyStats app' = Some st'
           ∧ ∀ counter incoming,
               (counter, incoming)
               ∈ [ (totalQuestions, sd_totalQuestions); (correctAnswers, sd_correctAnswers);
                   (totalStudyTime, sd_totalStudyTime) ] →
               counter st'
               = (if exceeds (incoming s) (counter st) then incoming s else counter st)
               ∧ (∀ a b, counter st = PNum a → incoming s = PNum b →
                    counter st' = PNum (Z.max a b))
               ∧ (incoming s = PUndefined → counter st' = counter st)).
Proof.
  intros Hn Hs Ht Hv.
  exists (SyncManager.importInto now d app).1, (SyncManager.importInto now d app).2.
  split; [by apply SyncManager_importData_accepted|].
  destruct (SyncManager_importInto_status now d app) as (U & S & L).
  destruct (SyncManager_importInto_fields now d app) as (Fp & Fq & Fm & Fs).
  destruct (SyncManager_importInto_counts now d app) as (Cp & Cq & Cm).
  cbv zeta in Fp, Fq, Fm, Fs, Cp, Cq, Cm.
  split; [exact U|]. split; [exact S|]. split; [exact L|].
  split; [intros local incoming Hl Hi; rewrite Fp, Cp, Hl, Hi; by split|].
  split; [intros local incoming Hl Hi; rewrite Fq, Cq, Hl, Hi; by split|].
  split; [intros local incoming Hl Hi; rewrite Fm, Cm, Hl, Hi; by split|].
  split.
  { intros local incoming x. unfold absentBy. rewrite list_elem_of_filter. tauto. }
  intros st s Hst Hd. rewrite Fs, Hd, Hst.
  destruct (SyncManager_mergeStudyStats_counters st s) as (st' & -> & E1 & E2 & E3).
  exists st'. split; [reflexivity|]. intros counter incoming Hin.
  assert (counter st' = counter (mergeCounters st s)) as ->.
  { revert Hin. rewrite !elem_of_cons, elem_of_nil.
    intros [[= -> ->]|[[= -> ->]|[[= -> ->]|[]]]]; assumption. }
  by apply mergeCounters_spec.
Qed.

Lemma SyncManager_importData_merges_witness :
  ∃ results app',
    SyncManager.importData "2024-01-02T00:00:00.000Z" (Some zeroTypesFile) (Some emptyApp)
    = (Ok results, Some app')
    ∧ syncStatus app' = "synced".
Proof.
  destruct (SyncManager_importData_merges "2024-01-02T00:00:00.000Z" zeroTypesFile
              (SyncManager.mkImportDoc (PStr "1.0.0") (PStr "2024-01-01T00:00:00.000Z")
                 (PStr "device_1") (VPrim (PNum 0))
                 (VArray [question "q1"]) (VPrim PUndefined) (VPrim PUndefined)
                 (SPrim PUndefined)) emptyApp)
    as (results & app' & Hr & _ & Hs & _).
  - reflexivity.
  - cbn. lia.
  - reflexivity.
  - reflexivity.
  - exists results, app'. split; [exact Hr | exact Hs].
Defined.

(** X28. Importing the same file a second time with SyncManager adds
    nothing: when the first import went through, so does the second, the
    four collections are left as the first import made them, and the count
    reported for every bank that is there is 0. *)
Theorem SyncManager_second_import now1 now2 file win results1 win1 :
  SyncManager.importData now1 file win = (Ok results1, win1) →
  ∃ results2 win2,
    SyncManager.importData now2 file win1 = (Ok results2, win2)
    ∧ collections win2 = collections win1
    ∧ SyncManager.imp_publicQuestions (SyncManager.imported results2)
        ∈ [Some 0%nat; None]
    ∧ SyncManager.imp_personalQuestions (SyncManager.imported results2)
        ∈ [Some 0%nat; None]
    ∧ SyncManager.imp_mistakes (SyncManager.imported results2) ∈ [Some 0%nat; None].
Proof.
  intros H1.
  destruct (SyncManager_importData_cases now1 file win)
    as [[msg Hr]|(f & d & app & -> & Ht & -> & Hv & Hok)]; [congruence|].
  rewrite Hok in H1. injection H1 as <- <-.
  destruct (SyncManager_importData_cases now2 (Some f)
              (Some (SyncManager.importInto now1 d app).2))
    as [[msg' Hr']|(f' & d' & app' & Hf & Ht' & Happ & Hv' & Hok')].
  { exfalso. specialize (Hok now2). unfold SyncManager.importData in Hok, Hr'.
    destruct (negb (endsWith _ _)); [discriminate Hok|].
    destruct (10 * 1024 * 1024 <? fileSize f); [discriminate Hok|].
    rewrite Ht in Hok, Hr'. rewrite Hv in Hr'. cbn [negb] in Hr'.
    destruct (SyncManager.importInto now2 d (SyncManager.importInto now1 d app).2).
    discriminate Hr'. }
  injection Hf as <-. injection Happ as <-. rewrite Ht in Ht'. injection Ht' as <-.
  eexists _, _. split; [apply Hok'|]. cbn [snd].
  split; [apply SyncManager_importInto_again|].
  destruct (SyncManager_importInto_fields now1 d app) as (Fp & Fq & Fm & _).
  destruct (SyncManager_importInto_counts now2 d (SyncManager.importInto now1 d app).2)
    as (Cp & Cq & Cm).
  cbv zeta in Fp, Fq, Fm, Cp, Cq, Cm. rewrite Cp, Cq, Cm, Fp, Fq, Fm.
  repeat split;
    match goal with
    | |- (SyncManager.importBank ?l ?v (SyncManager.importBank ?l ?v ?b).1.1).1.2 ∈ _ =>
        destruct (proj2 (SyncManager_importBank_again l v b)) as [-> | ->];
        [by left | right; by left]
    end.
Qed.

Lemma SyncManager_second_import_witness :
  ∃ results2 win2,
    SyncManager.importData "2024-01-03T00:00:00.000Z" (Some zeroTypesFile)
      (SyncManager.importData "2024-01-02T00:00:00.000Z" (Some zeroTypesFile)
         (Some emptyApp)).2
    = (Ok results2, win2)
    ∧ collections win2 = Some (Some [question "q1"], Some [], Some [], Some []).
Proof.
  destruct (SyncManager_second_import "2024-01-02T00:00:00.000Z" "2024-01-03T00:00:00.000Z"
              (Some zeroTypesFile) (Some emptyApp) _ _ eq_refl) as (r2 & w2 & H2 & Hc & _).
  exists r2, w2. split; [exact H2|]. rewrite Hc. reflexivity.
Defined.

(** ** From one device to another with SyncManager *)

Lemma absentBy_empty key (items : list Item) : absentBy key items [] = items.
Proof.
  unfold absentBy. cbn [map]. induction items as [|x l IH]; [reflexivity|].
  rewrite filter_cons, decide_True by apply not_elem_of_nil. by rewrite IH.
Qed.

Lemma collect_dataTypes opts deviceId env app u :
  Forall (λ t, t ∈ SyncManager.validDataTypes)
    (SyncManager.ex_dataTypes (SyncManager.collect opts deviceId env app u)).
Proof.
  unfold SyncManager.collect. cbn [SyncManager.ex_dataTypes].
  repeat apply Forall_app_2;
    match goal with
    | |- Forall _ (match ?o with Some _ => _ | None => _ end) =>
        destruct o; constructor; [|constructor];
        unfold SyncManager.validDataTypes; rewrite !elem_of_cons; tauto
    end.
Qed.

(** The head of an exported document and what its collections are. *)
Lemma exportData_document opts deviceId env app doc :
  SyncManager.exportData opts deviceId env (Some app) = Ok doc →
  SyncManager.ex_version doc = "1.0.0"
  ∧ SyncManager.ex_deviceId doc = deviceId
  ∧ SyncManager.ex_exportTime doc = SyncManager.isoTime env
  ∧ SyncManager.ex_dataTypes doc ≠ []
  ∧ Forall (λ t, t ∈ SyncManager.validDataTypes) (SyncManager.ex_dataTypes doc)
  ∧ (SyncManager.ex_isSampleData doc = false →
     SyncManager.ex_publicQuestions doc
     = SyncManager.exported (SyncManager.includePublic opts) (publicQuestionBank app)
     ∧ SyncManager.ex_personalQuestions doc
       = SyncManager.exported (SyncManager.includePersonal opts) (personalQuestionBank app)
     ∧ SyncManager.ex_mistakeBank doc
       = SyncManager.exported (SyncManager.includeMistakes opts) (mistakeBank app)).
Proof.
  unfold SyncManager.exportData. destruct (currentUser app) as [u|]; [|discriminate].
  destruct (SyncManager.nothingToExport _) eqn:E; intros [= <-].
  - cbn [SyncManager.withSampleData SyncManager.ex_version SyncManager.ex_deviceId
           SyncManager.ex_exportTime SyncManager.ex_dataTypes SyncManager.ex_isSampleData
           SyncManager.collect].
    split; [reflexivity|]. split; [reflexivity|]. split; [reflexivity|].
    split; [discriminate|]. split; [|discriminate].
    repeat constructor; unfold SyncManager.validDataTypes; rewrite !elem_of_cons; tauto.
  - split; [reflexivity|]. split; [reflexivity|]. split; [reflexivity|].
    split.
    { unfold SyncManager.nothingToExport in E. apply orb_false_iff in E as [E _].
      intros H. rewrite H in E. discriminate. }
    split; [apply collect_dataTypes|]. intros _. repeat split; reflexivity.
Qed.

Lemma writtenExport_valid doc :
  SyncManager.ex_version doc ≠ "" → SyncManager.ex_exportTime doc ≠ "" →
  SyncManager.ex_deviceId doc ≠ "" →
  SyncManager.ex_dataTypes doc ≠ [] →
  Forall (λ t, t ∈ SyncManager.validDataTypes) (SyncManager.ex_dataTypes doc) →
  SyncManager.validateImportData (ParsedObject (writtenExport doc)) = true.
Proof.
  intros Hv Ht Hd Hne Hall. unfold SyncManager.validateImportData, writtenExport.
  cbn [SyncManager.doc_version SyncManager.doc_exportTime SyncManager.doc_deviceId
         SyncManager.doc_dataTypes truthy isTruthy].
  rewrite !bool_decide_eq_false_2 by done. cbn [negb orb].
  assert ((length (map PStr (SyncManager.ex_dataTypes doc)) =? 0)%nat = false) as ->.
  { by destruct (SyncManager.ex_dataTypes doc). }
  apply forallb_forall. intros x Hx.
  apply in_map_iff in Hx as (s & <- & Hs).
  unfold SyncManager.includesType. apply bool_decide_eq_true.
  rewrite Forall_forall in Hall. apply Hall. by apply list_elem_of_In.
Qed.

Lemma importBank_fresh label (sent : option (list Item)) :
  (SyncManager.importBank label (writtenBank sent) (Some [])).1.1 = Some (default [] sent).
Proof.
  destruct sent as [items|]; [|reflexivity].
  cbn. unfold SyncManager.removeDuplicates. by rewrite absentBy_empty.
Qed.

(** A name that ends in [.json] passes the check of the file name. *)
Lemma length_append (a b : string) :
  String.length (a +:+ b) = (String.length a + String.length b)%nat.
Proof.
  induction a as [|c a IH]; [reflexivity|].
  change (S (String.length (a +:+ b)) = S (String.length a + String.length b)). by f_equal.
Qed.

Lemma substring_all (s : string) : String.substring 0 (String.length s) s = s.
Proof.
  induction s as [|c s IH]; [reflexivity|].
  change (String c (String.substring 0 (String.length s) s) = String c s). by f_equal.
Qed.

Lemma substring_append (a b : string) :
  String.substring (String.length a) (String.length b) (a +:+ b) = b.
Proof. induction a as [|c a IH]; [apply substring_all | exact IH]. Qed.

Lemma endsWith_append (a b : string) : endsWith (a +:+ b) b = true.
Proof.
  unfold endsWith. rewrite length_append.
  replace (String.length a + String.length b - String.length b)%nat
    with (String.length a) by lia.
  rewrite substring_append, String.eqb_refl, andb_true_r.
  apply Nat.leb_le. lia.
Qed.

Lemma list_ascii_append (a b : string) :
  list_ascii_of_string (a +:+ b) = list_ascii_of_string a ++ list_ascii_of_string b.
Proof.
  induction a as [|c a IH]; [reflexivity|].
  change (c :: list_ascii_of_string (a +:+ b)
          = c :: (list_ascii_of_string a ++ list_ascii_of_string b)).
  by f_equal.
Qed.

Lemma string_of_app (x y : list ascii) :
  string_of_list_ascii (x ++ y) = string_of_list_ascii x +:+ string_of_list_ascii y.
Proof.
  induction x as [|c x IH]; [reflexivity|].
  change (String c (string_of_list_ascii (x ++ y))
          = String c (string_of_list_ascii x +:+ string_of_list_ascii y)).
  by f_equal.
Qed.

Lemma toLowerCase_append (a b : string) :
  toLowerCase (a +:+ b) = toLowerCase a +:+ toLowerCase b.
Proof. unfold toLowerCase. by rewrite list_ascii_append, map_app, string_of_app. Qed.

Lemma json_name_accepted (a : string) :
  endsWith (toLowerCase (a +:+ ".json")) ".json" = true.
Proof. rewrite toLowerCase_append. apply endsWith_append. Qed.

(** X29. From one device to another with SyncManager.  The file one
    device exports carries a name the import accepts and a document the
    import accepts; the export sets no limit to its size, and the import of
    another device takes it when it is not larger than 10 MB and refuses it
    otherwise, changing nothing.  When it is taken, a device whose banks are
    empty ends up with exactly the records of the file, in the same order,
    in each of the three banks.  Unless the file holds sample data these are
    the banks of the exporting device that the options include: with the
    default options the second device gets the public questions, the
    personal questions and the mistakes of the first. *)
Theorem SyncManager_export_then_import opts deviceId env appA doc now bytes appB :
  SyncManager.exportData opts deviceId env (Some appA) = Ok doc →
  deviceId ≠ "" → SyncManager.isoTime env ≠ "" →
  publicQuestionBank appB = Some [] → personalQuestionBank appB = Some [] →
  mistakeBank appB = Some [] →
  (bytes <= 10 * 1024 * 1024 →
   ∃ results appB',
     SyncManager.importData now (Some (exportedFile doc env bytes)) (Some appB)
     = (Ok results, Some appB')
     ∧ publicQuestionBank appB' = Some (default [] (SyncManager.ex_publicQuestions doc))
     ∧ personalQuestionBank appB'
       = Some (default [] (SyncManager.ex_personalQuestions doc))
     ∧ mistakeBank appB' = Some (default [] (SyncManager.ex_mistakeBank doc))
     ∧ (SyncManager.ex_isSampleData doc = false → opts = SyncManager.defaultOptions →
        publicQuestionBank appB' = Some (default [] (publicQuestionBank appA))
        ∧ personalQuestionBank appB' = Some (default [] (personalQuestionBank appA))
        ∧ mistakeBank appB' = Some (default [] (mistakeBank appA))))
  ∧ (10 * 1024 * 1024 < bytes →
     SyncManager.importData now (Some (exportedFile doc env bytes)) (Some appB)
     = (Err "文件大小不能超过10MB", Some appB)).
Proof.
  intros He Hd Hi Bp Bq Bm.
  assert (endsWith (toLowerCase (fileName (exportedFile doc env bytes))) ".json" = true)
    as Hn by apply json_name_accepted.
  split.
  - intros Hs.
    destruct (exportData_document _ _ _ _ _ He) as (Ev & Ed & Et & Hne & Hall & Hbanks).
    assert (SyncManager.validateImportData (ParsedObject (writtenExport doc)) = true) as Hv.
    { apply writtenExport_valid; try done; by rewrite ?Ev, ?Ed, ?Et. }
    exists (SyncManager.importInto now (writtenExport doc) appB).1,
           (SyncManager.importInto now (writtenExport doc) appB).2.
    split; [by apply SyncManager_importData_accepted|].
    destruct (SyncManager_importInto_fields now (writtenExport doc) appB)
      as (Fp & Fq & Fm & _).
    cbv zeta in Fp, Fq, Fm. rewrite Fp, Fq, Fm, Bp, Bq, Bm.
    cbn [writtenExport SyncManager.doc_publicQuestions SyncManager.doc_personalQuestions
           SyncManager.doc_mistakeBank].
    rewrite !importBank_fresh.
    split; [reflexivity|]. split; [reflexivity|]. split; [reflexivity|].
    intros Hsample ->. destruct (Hbanks Hsample) as (-> & -> & ->). by repeat split.
  - intros Hs. unfold SyncManager.importData. rewrite Hn. cbn [negb].
    change (fileSize (exportedFile doc env bytes)) with bytes.
    by rewrite (proj2 (Z.ltb_lt _ _) Hs).
Qed.

Lemma SyncManager_export_then_import_witness :
  ∃ results appB',
    SyncManager.importData "2024-01-02T00:00:00.000Z"
      (Some (exportedFile
               (SyncManager.collect SyncManager.defaultOptions "device_1" sampleEnv
                  untidyApp (mkUser (PNum 7) "ann"))
               sampleEnv 2048))
      (Some emptyApp)
    = (Ok results, Some appB')
    ∧ publicQuestionBank appB' = publicQuestionBank untidyApp.
Proof.
  destruct (proj1 (SyncManager_export_then_import SyncManager.defaultOptions "device_1"
                     sampleEnv untidyApp _ "2024-01-02T00:00:00.000Z" 2048 emptyApp
                     eq_refl ltac:(discriminate) ltac:(discriminate)
                     eq_refl eq_refl eq_refl) ltac:(lia))
    as (results & appB' & Hr & _ & _ & _ & Hb).
  exists results, appB'. split; [exact Hr|].
  destruct (Hb eq_refl eq_refl) as (-> & _). reflexivity.
Defined.

(** ** From one device to another with the final CrossDeviceSync *)

Lemma Final_importSyncData_accepted f d dd app :
  endsWith (toLowerCase (fileName f)) ".json" = true →
  fileSize f <= 20 * 1024 * 1024 →
  fileText f = Json (ParsedObject d) →
  CrossDeviceSyncFinal.validateSyncData (ParsedObject d) = true →
  CrossDeviceSyncFinal.doc_data d = CrossDeviceSyncFinal.DObj dd →
  CrossDeviceSyncFinal.importSyncData true f (Some app)
  = ((CrossDeviceSyncFinal.importInto dd app).1,
     Some (CrossDeviceSyncFinal.importInto dd app).2).
Proof.
  intros Hn Hs Ht Hv Hd. unfold CrossDeviceSyncFinal.importSyncData.
  cbn [negb]. rewrite Hn. cbn [negb].
  destruct (20 * 1024 * 1024 <? fileSize f) eqn:E; [apply Z.ltb_lt in E; lia|].
  rewrite Ht, Hv. cbn [negb]. rewrite Hd.
  by destruct (CrossDeviceSyncFinal.importInto dd app).
Qed.

(** What the import of three arrays and a statistics object returns and
    leaves, when the local statistics have their list of exam records. *)
Lemma Final_importInto_arrays pub per mis s app st recs :
  studyStats app = Some st → examRecords st = Some recs →
  (CrossDeviceSyncFinal.importInto
     (CrossDeviceSyncFinal.mkDataDoc (VArray pub) (VArray per) (VArray mis) (SObj s)) app).1
  = Ok (CrossDeviceSyncFinal.mkImportStats
          (CrossDeviceSyncFinal.mergeBank pub (publicQuestionBank app)).2
          (CrossDeviceSyncFinal.mergeBank per (personalQuestionBank app)).2
          (CrossDeviceSyncFinal.mergeBank mis (mistakeBank app)).2 true)
  ∧ publicQuestionBank
      (CrossDeviceSyncFinal.importInto
         (CrossDeviceSyncFinal.mkDataDoc (VArray pub) (VArray per) (VArray mis) (SObj s))
         app).2
    = (CrossDeviceSyncFinal.mergeBank pub (publicQuestionBank app)).1
  ∧ personalQuestionBank
      (CrossDeviceSyncFinal.importInto
         (CrossDeviceSyncFinal.mkDataDoc (VArray pub) (VArray per) (VArray mis) (SObj s))
         app).2
    = (CrossDeviceSyncFinal.mergeBank per (personalQuestionBank app)).1
  ∧ mistakeBank
      (CrossDeviceSyncFinal.importInto
         (CrossDeviceSyncFinal.mkDataDoc (VArray pub) (VArray per) (VArray mis) (SObj s))
         app).2
    = (CrossDeviceSyncFinal.mergeBank mis (mistakeBank app)).1.
Proof.
  intros Hst Hrecs.
  unfold CrossDeviceSyncFinal.importInto.
  cbn [CrossDeviceSyncFinal.data_publicQuestions CrossDeviceSyncFinal.data_personalQuestions
         CrossDeviceSyncFinal.data_mistakeBank CrossDeviceSyncFinal.data_studyStats
         CrossDeviceSyncFinal.mergeIf].
  unfold CrossDeviceSyncFinal.mergePublicQuestions.
  destruct (CrossDeviceSyncFinal.mergeBank pub (publicQuestionBank app)) as [b1 n1].
  unfold CrossDeviceSyncFinal.mergePersonalQuestions. cbn [personalQuestionBank].
  destruct (CrossDeviceSyncFinal.mergeBank per (personalQuestionBank app)) as [b2 n2].
  unfold CrossDeviceSyncFinal.mergeMistakeBank. cbn [mistakeBank].
  destruct (CrossDeviceSyncFinal.mergeBank mis (mistakeBank app)) as [b3 n3].
  unfold CrossDeviceSyncFinal.mergeStudyStats. cbn [studyStats]. rewrite Hst.
  change (examRecords (mergeCounters st s)) with (examRecords st). rewrite Hrecs.
  destruct (sd_examRecords s); repeat split; reflexivity.
Qed.

Lemma absentBy_own key (kept local : list Item) :
  kept ⊆ local → absentBy key kept local = [].
Proof.
  intros Hsub. apply absentBy_nil_iff. intros x Hx. apply list_elem_of_fmap_2. by apply Hsub.
Qed.

Lemma removeDuplicateQuestions_subseteq questions :
  removeDuplicateQuestions questions ⊆ questions.
Proof.
  unfold removeDuplicateQuestions.
  destruct (keepFirst_spec questions []) as (_ & _ & S & _).
  by apply sublist_subseteq.
Qed.

(** X30. From one device to another with the final CrossDeviceSync.
    The export refuses a text of more than 20 x 1024 x 1024 characters; the
    file it writes otherwise carries a name and a document the import
    accepts, and the import of another device, whose statistics carry their
    exam records, takes it when it is not larger than 20 MB in bytes and
    refuses it otherwise, changing nothing.  When it is taken, each bank of
    the importing device keeps its records in place and gets, behind them,
    the records of the exporting device's bank, first of each id only and
    none without id, whose id it does not have yet; the count returned for
    the bank is the number of records added.  A device importing its own
    export gets nothing added. *)
Theorem Final_export_then_import deviceId exportTime size appA doc counts bytes appB stB recsB :
  exportSyncData true deviceId exportTime size (Some appA) = Ok (doc, counts) →
  deviceId ≠ "" → exportTime ≠ "" →
  studyStats appB = Some stB → examRecords stB = Some recsB →
  size <= 20 * 1024 * 1024
  ∧ (bytes <= 20 * 1024 * 1024 →
     ∃ stats appB',
       CrossDeviceSyncFinal.importSyncData true (syncFile deviceId exportTime bytes doc)
         (Some appB)
       = (Ok stats, Some appB')
       ∧ (∀ local, publicQuestionBank appB = Some local →
            publicQuestionBank appB'
            = Some (local ++ absentBy id (removeDuplicateQuestions
                                            (bankOrEmpty (publicQuestionBank appA))) local)
            ∧ CrossDeviceSyncFinal.is_publicQuestions stats
              = length (absentBy id (removeDuplicateQuestions
                                       (bankOrEmpty (publicQuestionBank appA))) local))
       ∧ (∀ local, personalQuestionBank appB = Some local →
            personalQuestionBank appB'
            = Some (local ++ absentBy id (removeDuplicateQuestions
                                            (bankOrEmpty (personalQuestionBank appA))) local)
            ∧ CrossDeviceSyncFinal.is_personalQuestions stats
              = length (absentBy id (removeDuplicateQuestions
                                       (bankOrEmpty (personalQuestionBank appA))) local))
       ∧ (∀ local, mistakeBank appB = Some local →
            mistakeBank appB'
            = Some (local ++ absentBy id (removeDuplicateQuestions
                                            (bankOrEmpty (mistakeBank appA))) local)
            ∧ CrossDeviceSyncFinal.is_mistakes stats
              = length (absentBy id (removeDuplicateQuestions
                                       (bankOrEmpty (mistakeBank appA))) local))
       ∧ (publicQuestionBank appB = Some [] →
          publicQuestionBank appB'
          = Some (removeDuplicateQuestions (bankOrEmpty (publicQuestionBank appA)))
          ∧ CrossDeviceSyncFinal.is_publicQuestions stats = publicQuestionCount counts)
       ∧ (publicQuestionBank appB = publicQuestionBank appA →
          personalQuestionBank appB = personalQuestionBank appA →
          mistakeBank appB = mistakeBank appA →
          publicQuestionBank appB' = publicQuestionBank appA
          ∧ personalQuestionBank appB' = personalQuestionBank appA
          ∧ mistakeBank appB' = mistakeBank appA
          ∧ CrossDeviceSyncFinal.is_publicQuestions stats = 0%nat
          ∧ CrossDeviceSyncFinal.is_personalQuestions stats = 0%nat
          ∧ CrossDeviceSyncFinal.is_mistakes stats = 0%nat))
  ∧ (20 * 1024 * 1024 < bytes →
     CrossDeviceSyncFinal.importSyncData true (syncFile deviceId exportTime bytes doc)
       (Some appB)
     = (Err "文件过大，请选择小于20MB的同步数据文件", Some appB)).
Proof.
  intros He Hd Hi Hst Hrecs.
  assert (endsWith (toLowerCase (fileName (syncFile deviceId exportTime bytes doc))) ".json"
          = true) as Hn by apply json_name_accepted.
  unfold exportSyncData in He. cbn [negb] in He.
  destruct (20 * 1024 * 1024 <? size) eqn:Esize; [discriminate|]. injection He as <- <-.
  split; [apply Z.ltb_ge in Esize; lia|]. split.
  2:{ intros Hs. unfold CrossDeviceSyncFinal.importSyncData. cbn [negb]. rewrite Hn.
      cbn [negb syncFile fileSize]. by rewrite (proj2 (Z.ltb_lt _ _) Hs). }
  intros Hs.
  set (pub := removeDuplicateQuestions (bankOrEmpty (publicQuestionBank appA))) in *.
  set (per := removeDuplicateQuestions (bankOrEmpty (personalQuestionBank appA))) in *.
  set (mis := removeDuplicateQuestions (bankOrEmpty (mistakeBank appA))) in *.
  set (s := writtenStats (default noStats (studyStats appA))) in *.
  assert (CrossDeviceSyncFinal.validateSyncData
            (ParsedObject
               (CrossDeviceSyncFinal.mkSyncDoc (PStr "1.0.0") (PStr deviceId)
                  (PStr exportTime) (VPrim PUndefined)
                  (CrossDeviceSyncFinal.DObj
                     (CrossDeviceSyncFinal.mkDataDoc (VArray pub) (VArray per) (VArray mis)
                        (SObj s))))) = true) as Hv.
  { unfold CrossDeviceSyncFinal.validateSyncData.
    cbn [CrossDeviceSyncFinal.doc_deviceId CrossDeviceSyncFinal.doc_exportTime
           CrossDeviceSyncFinal.doc_data CrossDeviceSyncFinal.dataTruthy truthy].
    by rewrite !bool_decide_eq_false_2 by done. }
  destruct (Final_importInto_arrays pub per mis s appB stB recsB Hst Hrecs)
    as (Hr & Hp & Hq & Hm).
  eexists _, _. split.
  { rewrite (Final_importSyncData_accepted _ _ _ appB Hn Hs eq_refl Hv eq_refl).
    rewrite Hr. reflexivity. }
  cbn [CrossDeviceSyncFinal.is_publicQuestions CrossDeviceSyncFinal.is_personalQuestions
         CrossDeviceSyncFinal.is_mistakes publicQuestionCount].
  rewrite Hp, Hq, Hm.
  split; [by intros local ->|]. split; [by intros local ->|]. split; [by intros local ->|].
  split.
  { intros ->. cbn [CrossDeviceSyncFinal.mergeBank fst snd app].
    by rewrite absentBy_empty. }
  intros -> -> ->.
  assert (∀ bank : option (list Item),
            (CrossDeviceSyncFinal.mergeBank
               (removeDuplicateQuestions (bankOrEmpty bank)) bank) = (bank, 0%nat)) as Hown.
  { intros [local|]; [|reflexivity]. cbn [CrossDeviceSyncFinal.mergeBank bankOrEmpty default].
    rewrite absentBy_own by apply removeDuplicateQuestions_subseteq.
    by rewrite app_nil_r. }
  subst pub per mis. rewrite !Hown. by repeat split.
Qed.

Lemma Final_export_then_import_witness :
  ∃ stats appB',
    CrossDeviceSyncFinal.importSyncData true
      (syncFile "device_1" "2024-01-01T00:00:00.000Z" 4096
         (CrossDeviceSyncFinal.mkSyncDoc (PStr "1.0.0") (PStr "device_1")
            (PStr "2024-01-01T00:00:00.000Z") (VPrim PUndefined)
            (CrossDeviceSyncFinal.DObj
               (CrossDeviceSyncFinal.mkDataDoc
                  (VArray [question "q1"; question "q2"]) (VArray []) (VArray [])
                  (SObj (writtenStats
                           (mkStudyStats (PNum 4) (PNum 3) (PNum 60) (Some []))))))))
      (Some emptyApp)
    = (Ok stats, Some appB')
    ∧ publicQuestionBank appB' = Some [question "q1"; question "q2"].
Proof.
  destruct (proj1 (proj2 (Final_export_then_import "device_1" "2024-01-01T00:00:00.000Z"
                            2048 untidyApp _ _ 4096 emptyApp
                            (mkStudyStats (PNum 0) (PNum 0) (PNum 0) (Some [])) []
                            eq_refl ltac:(discriminate) ltac:(discriminate)
                            eq_refl eq_refl)) ltac:(lia))
    as (stats & appB' & Hr & _ & _ & _ & Hb & _).
  exists stats, appB'. split; [exact Hr|]. by destruct (Hb eq_refl) as [-> _].
Defined.

End SyncOpsSpec.
